(** * Run-history reconciliation of [EvaluationTracker.recreate_metadata_card]

    A shallow embedding of the configuration-building part of
    [src/lighteval/logging/evaluation_tracker.py] (lines 301-441) and of
    the timestamp token written by [save] (line 149).

    Python values are modelled as follows.
    - [str] is [string]; a character is one code point below 256.
    - the dict [last_eval_date_results] is an association list in
      insertion order (line 331 reads its first value);
    - [card_metadata] is a finite map from config name to the list under
      its ["data_files"] key; its iteration order is never read;
    - an exception ends the call: every stage returns a [result]. *)

From Stdlib Require Import Ascii String NArith List Bool Lia Permutation.
From stdpp Require Import base option list gmap strings.

Import ListNotations.
Local Open Scope string_scope.
Local Open Scope list_scope.

(** ** Python [str] methods used by the source *)

Module str.

(** [sub in s] for [str] *)
Fixpoint contains (sub s : string) : bool :=
  String.prefix sub s ||
  match s with
  | EmptyString => false
  | String _ r => contains sub r
  end.

(** [s.replace(old, new)], for a non-empty [old]: occurrences are taken
    from the left and do not overlap.  [skip] counts the characters of
    an occurrence that was just replaced and are still to be dropped. *)
Fixpoint replace_from (skip : nat) (old new s : string) : string :=
  match s with
  | EmptyString => EmptyString
  | String c r =>
      match skip with
      | S k => replace_from k old new r
      | O =>
          if String.prefix old s
          then new ++ replace_from (String.length old - 1) old new r
          else String c (replace_from 0 old new r)
      end
  end.

Definition replace (old new s : string) : string := replace_from 0 old new s.

(** [s.split(sep)[0]], for a non-empty [sep]: what stands before the
    first occurrence of [sep], the whole of [s] when there is none. *)
Fixpoint split_head (sep s : string) : string :=
  if String.prefix sep s then EmptyString
  else match s with
       | EmptyString => EmptyString
       | String c r => String c (split_head sep r)
       end.

Fixpoint count (c : ascii) (s : string) : nat :=
  match s with
  | EmptyString => 0
  | String d r => (if Ascii.eqb d c then 1 else 0) + count c r
  end.

Definition cons_head (c : ascii) (l : list string) : list string :=
  match l with
  | [] => [String c EmptyString]
  | p :: ps => String c p :: ps
  end.

(** [s.split(sep)] for a one-character [sep] *)
Fixpoint split (sep : ascii) (s : string) : list string :=
  match s with
  | EmptyString => [EmptyString]
  | String c r =>
      if Ascii.eqb c sep then EmptyString :: split sep r
      else cons_head c (split sep r)
  end.

(** [s.rsplit(sep, maxsplit)] for a one-character [sep]: the string is
    cut at its last [maxsplit] separators. *)
Fixpoint rsplit (sep : ascii) (maxsplit : nat) (s : string) : list string :=
  match s with
  | EmptyString => [EmptyString]
  | String c r =>
      if Ascii.eqb c sep && (count sep r <? maxsplit)%nat
      then EmptyString :: rsplit sep maxsplit r
      else cons_head c (rsplit sep maxsplit r)
  end.

(** [sep.join(l)] *)
Fixpoint join (sep : string) (l : list string) : string :=
  match l with
  | [] => EmptyString
  | [x] => x
  | x :: xs => x ++ sep ++ join sep xs
  end.

(** [s.rstrip(c)] for a one-character argument *)
Fixpoint rstrip (c : ascii) (s : string) : string :=
  match s with
  | EmptyString => EmptyString
  | String d r =>
      match rstrip c r with
      | EmptyString => if Ascii.eqb d c then EmptyString else String d EmptyString
      | r' => String d r'
      end
  end.

End str.

(** ** [os.path] (posixpath) *)

Module os_path.

Definition sep : ascii := "/"%char.

(** [p[:p.rfind('/') + 1]] *)
Fixpoint head (p : string) : string :=
  match p with
  | EmptyString => EmptyString
  | String c r =>
      if (0 <? str.count sep r)%nat then String c (head r)
      else if Ascii.eqb c sep then String c EmptyString
      else EmptyString
  end.

(** [os.path.basename(p)]: [p[p.rfind('/') + 1:]] *)
Fixpoint basename (p : string) : string :=
  match p with
  | EmptyString => EmptyString
  | String c r =>
      if (0 <? str.count sep r)%nat then basename r
      else if Ascii.eqb c sep then r
      else p
  end.

(** [os.path.dirname(p)]: the head, without its trailing slashes unless
    it consists of slashes only. *)
Definition dirname (p : string) : string :=
  let h := head p in
  if (str.count sep h =? String.length h)%nat then h else str.rstrip sep h.

(** [os.path.join(a, b)] *)
Definition join (a b : string) : string :=
  if String.prefix "/" b then b
  else match String.get (String.length a - 1) a with
       | None => a ++ b
       | Some c => if Ascii.eqb c sep then a ++ b else a ++ "/" ++ b
       end.

End os_path.

(** ** [re.sub] with the two patterns of the source *)

Module re.

Local Open Scope N_scope.

(** [\w] on [str] patterns: [Py_UNICODE_ISALNUM(ch) || ch == '_'],
    given here for the code points below 256. *)
Definition is_word (c : ascii) : bool :=
  let n := N_of_ascii c in
  ((48 <=? n) && (n <=? 57)) || ((65 <=? n) && (n <=? 90)) || (n =? 95)
  || ((97 <=? n) && (n <=? 122))
  || (n =? 170) || (n =? 178) || (n =? 179) || (n =? 181) || (n =? 185)
  || (n =? 186) || ((188 <=? n) && (n <=? 190))
  || ((192 <=? n) && (n <=? 214)) || ((216 <=? n) && (n <=? 246))
  || (248 <=? n).

Fixpoint sub_chars (keep : ascii -> bool) (repl : ascii) (s : string) : string :=
  match s with
  | EmptyString => EmptyString
  | String c r => String (if keep c then c else repl) (sub_chars keep repl r)
  end.

(** [re.sub(r"\W", "_", s)] *)
Definition sub_W (s : string) : string := sub_chars is_word "_"%char s.

(** [re.sub(r"[^\w\.]", "_", s)] *)
Definition sub_not_w_dot (s : string) : string :=
  sub_chars (fun c => is_word c || Ascii.eqb c "."%char) "_"%char s.

End re.

(** ** [datetime] *)

Module datetime.

Local Open Scope N_scope.

(** A naive [datetime] (no [tzinfo]). *)
Record t : Type := mk {
  year : N; month : N; day : N;
  hour : N; minute : N; second : N; microsecond : N
}.

Definition is_leap (y : N) : bool :=
  ((y mod 4 =? 0) && negb (y mod 100 =? 0)) || (y mod 400 =? 0).

Definition days_in_month (y m : N) : N :=
  if m =? 2 then (if is_leap y then 29 else 28)
  else if (m =? 4) || (m =? 6) || (m =? 9) || (m =? 11) then 30
  else 31.

(** The range checks of the constructor. *)
Definition valid (d : t) : bool :=
  (1 <=? year d) && (year d <=? 9999)
  && (1 <=? month d) && (month d <=? 12)
  && (1 <=? day d) && (day d <=? days_in_month (year d) (month d))
  && (hour d <=? 23) && (minute d <=? 59) && (second d <=? 59)
  && (microsecond d <=? 999999).

Definition digit_val (c : ascii) : option N :=
  let n := N_of_ascii c in
  if (48 <=? n) && (n <=? 57) then Some (n - 48) else None.

Definition digit_char (n : N) : ascii := ascii_of_N (48 + n mod 10).

(** A run of decimal digits, read as a number; [acc] is the value of
    the digits already read. *)
Fixpoint parse_digits_from (acc : N) (s : string) : option N :=
  match s with
  | EmptyString => Some acc
  | String c r =>
      match digit_val c with
      | Some v => parse_digits_from (10 * acc + v) r
      | None => None
      end
  end.

Definition parse_digits (width : nat) (s : string) : option N :=
  if (String.length s =? width)%nat then parse_digits_from 0 s else None.

(** [width] decimal digits, zero padded ([%0<width>d]). *)
Fixpoint pad (width : nat) (n : N) : string :=
  match width with
  | O => EmptyString
  | S w => pad w (n / 10) ++ String (digit_char n) EmptyString
  end.

Definition expect (c : ascii) (o : option ascii) : option unit :=
  match o with
  | Some d => if Ascii.eqb d c then Some tt else None
  | None => None
  end.

(** [HH[:MM[:SS[.fff[fff]]]]] *)
Definition parse_time (s : string) : option (N * N * N * N) :=
  let len := String.length s in
  h ← parse_digits 2 (String.substring 0 2 s);
  if (len =? 2)%nat then Some (h, 0, 0, 0) else
  _ ← expect ":" (String.get 2 s);
  m ← parse_digits 2 (String.substring 3 2 s);
  if (len =? 5)%nat then Some (h, m, 0, 0) else
  _ ← expect ":" (String.get 5 s);
  sec ← parse_digits 2 (String.substring 6 2 s);
  if (len =? 8)%nat then Some (h, m, sec, 0) else
  _ ← expect "." (String.get 8 s);
  if (len =? 12)%nat then
    f ← parse_digits 3 (String.substring 9 3 s); Some (h, m, sec, f * 1000)
  else if (len =? 15)%nat then
    f ← parse_digits 6 (String.substring 9 6 s); Some (h, m, sec, f)
  else None.

(** [datetime.fromisoformat(s)] on the grammar documented for
    Python 3.10, [YYYY-MM-DD[*HH[:MM[:SS[.fff[fff]]]]]], where [*] is
    any one character.  [None] stands for the [ValueError].  A string
    with a UTC offset is not read by this model (it would give an
    aware [datetime]), nor are the further ISO 8601 forms that
    Python 3.11 accepts. *)
Definition fromisoformat (s : string) : option t :=
  let len := String.length s in
  y ← parse_digits 4 (String.substring 0 4 s);
  _ ← expect "-" (String.get 4 s);
  mo ← parse_digits 2 (String.substring 5 2 s);
  _ ← expect "-" (String.get 7 s);
  d ← parse_digits 2 (String.substring 8 2 s);
  '(h, mi, sec, us) ←
    (if (len =? 10)%nat then Some (0, 0, 0, 0)
     else parse_time (String.substring 11 (len - 11) s));
  let r := mk y mo d h mi sec us in
  if valid r then Some r else None.

(** [d.isoformat()] of a naive [datetime]: the fraction is written
    only when [microsecond] is not zero. *)
Definition isoformat (d : t) : string :=
  pad 4 (year d) ++ "-" ++ pad 2 (month d) ++ "-" ++ pad 2 (day d) ++ "T"
  ++ pad 2 (hour d) ++ ":" ++ pad 2 (minute d) ++ ":" ++ pad 2 (second d)
  ++ (if microsecond d =? 0 then "" else "." ++ pad 6 (microsecond d)).

(** Comparison of naive datetimes reads the packed fields (two bytes of
    year, one byte each of month, day, hour, minute, second, three
    bytes of microsecond) as one number. *)
Definition packed (d : t) : N :=
  ((((((year d * 256 + month d) * 256 + day d) * 256 + hour d) * 256
      + minute d) * 256 + second d) * 16777216 + microsecond d).

Definition ltb (a b : t) : bool := packed a <? packed b.

(** [max(a, b)]: the first of the largest. *)
Definition max (a b : t) : t := if ltb a b then b else a.

End datetime.

(** ** Exceptions *)

Inductive exn : Type :=
| IndexError                                (* [list(...)[0]] of an empty list, line 331 *)
| ValueError_isoformat (iso_date : string)  (* [datetime.fromisoformat], line 325 *)
| KeyError (key : string)                   (* [last_eval_date_results[task_name]], line 353 *)
| ValueError_entry_exists (sanitized_task : string)   (* the [raise] of line 371 *)
| UnboundLocalError_former_entry.           (* [former_entry] read unbound, line 372 *)

Inductive result (A : Type) : Type :=
| Ok (a : A)
| Raise (e : exn).
Arguments Ok {A} a.
Arguments Raise {A} e.

Global Instance result_ret : MRet result := fun _ a => Ok a.
Global Instance result_bind : MBind result := fun _ _ f r =>
  match r with
  | Ok a => f a
  | Raise e => Raise e
  end.

Definition is_ok {A} (r : result A) : bool :=
  match r with Ok _ => true | Raise _ => false end.

(** ** Python [dict] with insertion order *)

Module dict.

Fixpoint get {V} (d : list (string * V)) (k : string) : option V :=
  match d with
  | [] => None
  | (k', v) :: d' => if String.eqb k' k then Some v else get d' k
  end.

(** [d[k] = v]: an existing key keeps its place, a new one goes last. *)
Fixpoint set {V} (d : list (string * V)) (k : string) (v : V) : list (string * V) :=
  match d with
  | [] => [(k, v)]
  | (k', v') :: d' =>
      if String.eqb k' k then (k', v) :: d' else (k', v') :: set d' k v
  end.

Definition keys {V} (d : list (string * V)) : list string := map fst d.

Definition values {V} (d : list (string * V)) : list V := map snd d.

End dict.

(** ** The configuration document *)

(** One element of a config's ["data_files"] list. *)
Record data_file : Type := mk_data_file {
  split : string;
  path : list string
}.

(** [card_metadata]: config name to its ["data_files"]. *)
Abbreviation card := (gmap string (list data_file)).

(** ** The timestamp token of [save] (line 149) *)

Definition date_id (now : datetime.t) : string :=
  str.replace ":" "-" (datetime.isoformat now).

(** ** First pass: last evaluation date of each task (lines 306-337) *)

Definition is_results (sub_file : string) : bool := str.contains "results_" sub_file.

(** line 317 *)
Definition first_pass_task_name (sub_file : string) : string :=
  str.split_head "_202" (str.replace "details_" "" (os_path.basename sub_file)).

(** line 324: the colons of the time are put back *)
Definition iso_date_of_dir (dir_name : string) : string :=
  str.join ":" (str.rsplit "-" 2 dir_name).

(** lines 323-324 *)
Definition iso_date_of (sub_file : string) : string :=
  iso_date_of_dir (os_path.dirname sub_file).

(** One turn of the loop of lines 308-329. *)
Definition record_eval_date (last : list (string * datetime.t)) (sub_file : string)
  : result (list (string * datetime.t)) :=
  if is_results sub_file then Ok last
  else
    let task_name := first_pass_task_name sub_file in
    let iso_date := iso_date_of sub_file in
    match datetime.fromisoformat iso_date with
    | None => Raise (ValueError_isoformat iso_date)
    | Some eval_date =>
        Ok (dict.set last task_name
              (match dict.get last task_name with
               | Some d => datetime.max d eval_date
               | None => eval_date
               end))
    end.

Fixpoint last_eval_dates (last : list (string * datetime.t)) (parquet_files : list string)
  : result (list (string * datetime.t)) :=
  match parquet_files with
  | [] => Ok last
  | sub_file :: rest =>
      last' ← record_eval_date last sub_file; last_eval_dates last' rest
  end.

(** Lines 331-335: the largest of the registered dates. *)
Definition max_last_eval_date (last : list (string * datetime.t)) : result datetime.t :=
  match dict.values last with
  | [] => Raise IndexError
  | d0 :: _ =>
      Ok (fold_left (fun m d => if datetime.ltb m d then d else m) (dict.values last) d0)
  end.

(** Line 336: every registered date in ISO format. *)
Definition iso_dates (last : list (string * datetime.t)) : list (string * string) :=
  map (fun kv => (fst kv, datetime.isoformat (snd kv))) last.

(** ** Second pass: the configs (lines 339-441) *)

(** The state the loop carries from one file to the next: the configs,
    and whether the local variable [former_entry] has been assigned
    (lines 364, 407 and 426 assign it, line 372 reads it). *)
Record build_state : Type := mk_build_state {
  card_metadata : card;
  former_entry_bound : bool
}.

(** What lines 344-356 compute for one file. *)
Record file_info : Type := mk_file_info {
  task_name : string;
  sanitized_task : string;
  sanitized_eval_date : string;
  sanitized_last_eval_date_results : string;
  repo_file_name : string
}.

(** line 350 *)
Definition second_pass_task_name (sub_file : string) : string :=
  str.split_head "_2024"
    (str.split_head "_2023" (str.replace "details_" "" (os_path.basename sub_file))).

(** lines 351, 352 and 356, 354: the config, the split and the path
    pattern of a detail file *)
Definition detail_sanitized_task (sub_file : string) : string :=
  re.sub_W (second_pass_task_name sub_file).

Definition detail_sanitized_eval_date (sub_file : string) : string :=
  re.sub_not_w_dot (os_path.dirname sub_file).

Definition detail_repo_file_name (sub_file : string) : string :=
  os_path.join "**" (os_path.basename sub_file).

(** Lines 344-356.  For a results file [task_name] is not assigned in
    this turn and not read afterwards; it is left empty here. *)
Definition read_file_info (last : list (string * string)) (max_last : string)
    (sub_file : string) : result file_info :=
  if is_results sub_file then
    let eval_date :=
      str.replace ".parquet" "" (str.replace "results_" "" (os_path.basename sub_file)) in
    Ok (mk_file_info "" "results" (re.sub_not_w_dot eval_date)
          (re.sub_not_w_dot max_last) (os_path.basename sub_file))
  else
    let task_name := second_pass_task_name sub_file in
    match dict.get last task_name with
    | None => Raise (KeyError task_name)
    | Some last_date =>
        Ok (mk_file_info task_name (detail_sanitized_task sub_file)
              (detail_sanitized_eval_date sub_file)
              (re.sub_not_w_dot last_date)
              (detail_repo_file_name sub_file))
    end.

(** Lines 358-376: the entry of the file goes to the config of its task. *)
Definition add_entry (multiple_results : bool) (fi : file_info) (st : build_state)
  : result build_state :=
  let entry := mk_data_file (sanitized_eval_date fi) [repo_file_name fi] in
  if multiple_results then
    match card_metadata st !! sanitized_task fi with
    | None =>
        Ok (mk_build_state (<[sanitized_task fi := [entry]]> (card_metadata st))
              (former_entry_bound st))
    | Some former_entry =>
        Ok (mk_build_state
              (<[sanitized_task fi := former_entry ++ [entry]]> (card_metadata st)) true)
    end
  else
    match card_metadata st !! sanitized_task fi with
    | Some _ =>
        Raise (if former_entry_bound st
               then ValueError_entry_exists (sanitized_task fi)
               else UnboundLocalError_former_entry)
    | None =>
        Ok (mk_build_state (<[sanitized_task fi := [entry]]> (card_metadata st))
              (former_entry_bound st))
    end.

(** Lines 378-382.  Line 379 reads back the config that lines 358-376
    have just stored; a config that is missing is left alone here. *)
Definition add_latest (fi : file_info) (st : build_state) : build_state :=
  if String.eqb (sanitized_eval_date fi) (sanitized_last_eval_date_results fi) then
    match card_metadata st !! sanitized_task fi with
    | Some all_entry =>
        mk_build_state
          (<[sanitized_task fi :=
               all_entry ++ [mk_data_file "latest" [repo_file_name fi]]]> (card_metadata st))
          (former_entry_bound st)
    | None => st
    end
  else st.

Definition SPECIAL_TASKS : list string := ["lighteval|mmlu"; "original|mmlu"].

(** Lines 394-401: the name of the merged config. *)
Definition special_config_name (special_task task_name : string) : string :=
  let sanitized_special_task := re.sub_W special_task in
  match str.split "|" task_name with
  | [_; _; shots] => sanitized_special_task ++ "_" ++ shots
  | [_; _; sub; shots] => sanitized_special_task ++ "_" ++ sub ++ "_" ++ shots
  | _ => sanitized_special_task
  end.

(** Lines 410-416 and 428-434: the first entry that has the split. *)
Fixpoint split_index (name : string) (former_entry : list data_file) : option nat :=
  match former_entry with
  | [] => None
  | e :: rest =>
      if String.eqb (split e) name then Some 0%nat else S <$> split_index name rest
  end.

(** Lines 417-423 and 435-441: a new entry for the split, or one more
    path on the entry that has it. *)
Definition extend_split (name file : string) (former_entry : list data_file)
  : list data_file :=
  match split_index name former_entry with
  | None => former_entry ++ [mk_data_file name [file]]
  | Some i =>
      alter (fun e => mk_data_file (split e) (path e ++ [file])) i former_entry
  end.

(** Lines 394-441 for one special task. *)
Definition merge_special (fi : file_info) (st : build_state) (special_task : string)
  : build_state :=
  if str.contains (re.sub_W special_task) (sanitized_task fi) then
    let key := special_config_name special_task (task_name fi) in
    let st1 :=
      match card_metadata st !! key with
      | None =>
          mk_build_state
            (<[key := [mk_data_file (sanitized_eval_date fi) [repo_file_name fi]]]>
               (card_metadata st))
            (former_entry_bound st)
      | Some former_entry =>
          mk_build_state
            (<[key := extend_split (sanitized_eval_date fi) (repo_file_name fi) former_entry]>
               (card_metadata st))
            true
      end in
    if String.eqb (sanitized_eval_date fi) (sanitized_last_eval_date_results fi) then
      match card_metadata st1 !! key with
      | Some former_entry =>
          mk_build_state
            (<[key := extend_split "latest" (repo_file_name fi) former_entry]>
               (card_metadata st1))
            true
      | None => st1
      end
    else st1
  else st.

(** One turn of the loop of lines 343-441. *)
Definition add_file (multiple_results : bool) (last : list (string * string))
    (max_last : string) (st : build_state) (sub_file : string) : result build_state :=
  fi ← read_file_info last max_last sub_file;
  st1 ← add_entry multiple_results fi st;
  let st2 := add_latest fi st1 in
  if is_results sub_file then Ok st2
  else Ok (fold_left (merge_special fi) SPECIAL_TASKS st2).

Fixpoint add_files (multiple_results : bool) (last : list (string * string))
    (max_last : string) (st : build_state) (parquet_files : list string)
  : result build_state :=
  match parquet_files with
  | [] => Ok st
  | sub_file :: rest =>
      st' ← add_file multiple_results last max_last st sub_file;
      add_files multiple_results last max_last st' rest
  end.

(** ** The two filters of lines 302-303 *)

Definition results_files_of (files_in_repo : list string) : list string :=
  List.filter (str.contains ".json") files_in_repo.

Definition parquet_files_of (files_in_repo : list string) : list string :=
  List.filter (str.contains ".parquet") files_in_repo.

(** ** Lines 306-441, from the two values of lines 303-304 *)

Definition configs_of (multiple_results : bool) (parquet_files : list string)
  : result card :=
  last ← last_eval_dates [] parquet_files;
  max_last ← max_last_eval_date last;
  st ← add_files multiple_results (iso_dates last) (datetime.isoformat max_last)
         (mk_build_state ∅ false) parquet_files;
  Ok (card_metadata st).

(** ** [recreate_metadata_card], lines 301-441

    The listing [files_in_repo] is what [list_repo_files] returned.  The
    result is [card_metadata] as it stands after the loop, which is what
    the card is made of; an exception leaves no configs at all. *)
Definition recreate_metadata_card (files_in_repo : list string) : result card :=
  let results_files := results_files_of files_in_repo in
  let parquet_files := parquet_files_of files_in_repo in
  let multiple_results := (1 <? length results_files)%nat in
  configs_of multiple_results parquet_files.

(** The ["data_files"] of one config of the outcome, if the call has
    completed and the config is there. *)
Definition data_files_of (outcome : result card) (config_name : string)
  : option (list data_file) :=
  match outcome with
  | Ok configs => configs !! config_name
  | Raise _ => None
  end.

(** ** What the first pass computes, said without the loop *)

(** The date a detail file stands for (lines 323-325). *)
Definition eval_date_of (sub_file : string) : option datetime.t :=
  datetime.fromisoformat (iso_date_of sub_file).

(** The dates of the detail files of one task, in the order of the
    listing. *)
Definition eval_dates_of (task : string) (parquet_files : list string)
  : list datetime.t :=
  flat_map (fun f =>
              if negb (is_results f) && String.eqb (first_pass_task_name f) task
              then match eval_date_of f with Some d => [d] | None => [] end
              else [])
           parquet_files.

(** [max] folded over a list; [acc] is the largest so far, if any. *)
Definition latest_from (acc : option datetime.t) (dates : list datetime.t)
  : option datetime.t :=
  fold_left (fun acc d => Some (match acc with
                                | Some a => datetime.max a d
                                | None => d
                                end))
            dates acc.

Definition latest_date (dates : list datetime.t) : option datetime.t :=
  latest_from None dates.

(** A file the first pass reads without raising. *)
Definition first_pass_reads (sub_file : string) : bool :=
  is_results sub_file
  || match eval_date_of sub_file with Some _ => true | None => false end.

(** An entry of [data_files] that has the split and, in its path list,
    the file. *)
Definition has_path (data_files : list data_file) (split_name file : string) : Prop :=
  exists e : data_file, In e data_files /\ split e = split_name /\ In file (path e).

(** A config that has the split with the file in its path list. *)
Definition config_has_path (configs : card) (config_name split_name file : string)
  : Prop :=
  exists data_files : list data_file,
    configs !! config_name = Some data_files /\ has_path data_files split_name file.

(** No config names a split twice. *)
Definition distinct_splits (configs : card) : Prop :=
  forall (config_name : string) (data_files : list data_file),
    configs !! config_name = Some data_files -> List.NoDup (map split data_files).

(** ** What the second pass writes for a detail file, said without the
    loop *)

(** The entries lines 358-382 add to the config of the task: the dated
    one, and ["latest"] when line 378 finds the dates equal. *)
Definition detail_entries (last : list (string * string)) (sub_file : string)
  : list data_file :=
  mk_data_file (detail_sanitized_eval_date sub_file) [detail_repo_file_name sub_file]
  :: match dict.get last (second_pass_task_name sub_file) with
     | Some last_date =>
         if String.eqb (detail_sanitized_eval_date sub_file) (re.sub_not_w_dot last_date)
         then [mk_data_file "latest" [detail_repo_file_name sub_file]]
         else []
     | None => []
     end.

(** The entries of all detail files that go to one config, in the order
    of the files. *)
Definition task_config_entries (last : list (string * string)) (config_name : string)
    (parquet_files : list string) : list data_file :=
  flat_map (fun f =>
              if negb (is_results f) && String.eqb (detail_sanitized_task f) config_name
              then detail_entries last f
              else [])
           parquet_files.

(** The ["data_files"] of a config, empty when the config is absent. *)
Definition entries_at (configs : card) (config_name : string) : list data_file :=
  default [] (configs !! config_name).

(** The merged configs lines 393-441 write to for a detail file. *)
Definition special_config_names (sub_file : string) : list string :=
  flat_map (fun special_task =>
              if str.contains (re.sub_W special_task) (detail_sanitized_task sub_file)
              then [special_config_name special_task (second_pass_task_name sub_file)]
              else [])
           SPECIAL_TASKS.

(** A config name that is the merged config of some detail file of the
    list. *)
Definition is_special_config (parquet_files : list string) (config_name : string)
  : Prop :=
  exists f : string,
    In f parquet_files /\ is_results f = false /\ In config_name (special_config_names f).

(** ** Listings of the scenarios *)

Definition jan_file : string :=
  "2024-01-15T10-30-00.123456/details_mmlu_us_history_2024-01-15T10-30-00.123456.parquet".

Definition feb_file : string :=
  "2024-02-15T10-30-00.123456/details_mmlu_us_history_2024-02-15T10-30-00.123456.parquet".

Definition jan_split : data_file :=
  mk_data_file "2024_01_15T10_30_00.123456"
    ["**/details_mmlu_us_history_2024-01-15T10-30-00.123456.parquet"].

Definition feb_split : data_file :=
  mk_data_file "2024_02_15T10_30_00.123456"
    ["**/details_mmlu_us_history_2024-02-15T10-30-00.123456.parquet"].

Definition us_history_file : string :=
  "2024-01-15T10-30-00.123456/details_lighteval|mmlu:us_history|5_2024-01-15T10-30-00.123456.parquet".

Definition world_religions_file : string :=
  "2024-01-15T10-30-00.123456/details_lighteval|mmlu:world_religions|5_2024-01-15T10-30-00.123456.parquet".

Definition foo_jan_file : string :=
  "2024-01-15T10-30-00.123456/details_foo_2024-01-15T10-30-00.123456.parquet".

Definition results_jan_file : string := "results_2024-01-15T10-30-00.123456.parquet".

Definition results_feb_file : string := "results_2024-02-15T10-30-00.123456.parquet".

(** A directory name with a zero fraction, which [isoformat] never writes. *)
Definition foo_zero_fraction_file : string :=
  "2024-01-15T10-30-00.000000/details_foo_2024-01-15T10-30-00.000000.parquet".

(** Two tasks of one run whose names differ in one non-word character. *)
Definition my_task_hyphen_file : string :=
  "2024-01-15T10-30-00.123456/details_custom|my-task|0_2024-01-15T10-30-00.123456.parquet".

Definition my_task_colon_file : string :=
  "2024-01-15T10-30-00.123456/details_custom|my:task|0_2024-01-15T10-30-00.123456.parquet".

Definition foo_2025_file : string :=
  "2025-01-15T10-30-00.123456/details_foo_2025-01-15T10-30-00.123456.parquet".

Definition aime_2025_file : string :=
  "2025-01-15T10-30-00.123456/details_lighteval|aime_2024|0_2025-01-15T10-30-00.123456.parquet".

Definition foo_2030_file : string :=
  "2030-01-15T10-30-00.123456/details_foo_2030-01-15T10-30-00.123456.parquet".

(** A task that bears the name of its family, and a subtask of the
    family in a later run. *)
Definition mmlu_whole_file : string :=
  "2024-01-15T10-30-00.123456/details_lighteval|mmlu|5_2024-01-15T10-30-00.123456.parquet".

Definition us_history_feb_file : string :=
  "2024-02-15T10-30-00.123456/details_lighteval|mmlu:us_history|5_2024-02-15T10-30-00.123456.parquet".

(** * The other functions of the tracker

    The names [save] writes, the repository and the paths of
    [details_to_hub], the choice of the results file the card quotes,
    the renaming of [generate_final_dict], and the averages and file
    names of [push_to_tensorboard].

    - the dicts of [generate_final_dict] and [push_to_tensorboard] are
      association lists in insertion order; their values are of any
      type, a score being used as it is ([float(value)] is not
      modelled);
    - [global_step] is a natural number;
    - what the hub and the file system do is not modelled: an upload is
      the list of paths it writes, a folder the list of its file
      names. *)

(** ** Names written by [save] (lines 149-182) *)

(** lines 157-158: [f"results_{date_id}.json"] *)
Definition results_file_name (date_id : string) : string :=
  "results_" ++ date_id ++ ".json".

(** line 182: [f"details_{task_name}_{date_id}.parquet"] *)
Definition details_file_name (task_name date_id : string) : string :=
  "details_" ++ task_name ++ "_" ++ date_id ++ ".parquet".

(** ** [details_to_hub] (lines 250-290) *)

(** line 253 *)
Definition sanitized_model_name (model_name : string) : string :=
  str.replace "/" "__" model_name.

(** lines 256-258 *)
Definition details_repo_id (hub_results_org model_name : string) (public : bool)
  : string :=
  let repo_id :=
    (hub_results_org ++ "/details_" ++ sanitized_model_name model_name)%string in
  if public then repo_id else repo_id ++ "_private".

(** line 260 *)
Definition sub_folder_path (results_file_path : string) : string :=
  str.replace "results_" ""
    (str.replace ".json" "" (os_path.basename results_file_path)).

(** line 274 *)
Definition parquet_name (results_file_path : string) : string :=
  str.replace ".json" ".parquet" (os_path.basename results_file_path).

(** The paths the uploads of lines 279-290 write in the repository: the
    results file under its base name, its parquet version, and every
    file of the details folder under [sub_folder_path]
    ([path_in_repo] of [upload_folder]). *)
Definition uploaded_paths (results_file_path : string) (details_files : list string)
  : list string :=
  [os_path.basename results_file_path; parquet_name results_file_path]
  ++ map (fun name => (sub_folder_path results_file_path ++ "/" ++ name)%string)
       details_files.

(** ** The rest of [recreate_metadata_card] that reads the listing *)

(** line 445: the first results file that has the latest date in its
    name; [IndexError] when there is none. *)
Definition last_results_file (results_files : list string) (max_last : string)
  : result string :=
  match List.filter (str.contains (str.replace ":" "-" max_last)) results_files with
  | [] => Raise IndexError
  | f :: _ => Ok f
  end.

(** line 454: [repo_id.split("/")[0] == "open-llm-leaderboard"] *)
Definition is_open_llm_leaderboard (repo_id : string) : bool :=
  String.eqb (str.split_head "/" repo_id) "open-llm-leaderboard".

(** The path in the repository of the details of one task of the run
    of [now], as [uploaded_paths] gives it. *)
Definition details_repo_path (task_name : string) (now : datetime.t) : string :=
  date_id now ++ "/" ++ details_file_name task_name (date_id now).

(** ** When the call completes, said without the loops *)

(** The second pass finds the date of a detail file when some detail
    file of the list has, in the first pass, the task name the second
    pass gives to it. *)
Definition second_pass_finds (parquet_files : list string) (sub_file : string) : bool :=
  is_results sub_file
  || existsb (fun g => negb (is_results g)
                       && String.eqb (first_pass_task_name g)
                            (second_pass_task_name sub_file))
       parquet_files.

Definition completes_multiple (parquet_files : list string) : bool :=
  forallb first_pass_reads parquet_files
  && existsb (fun f => negb (is_results f)) parquet_files
  && forallb (second_pass_finds parquet_files) parquet_files.

(** ** The files of a history of runs *)

(** A task name both passes read back: no slash, and none of the three
    marks the passes look for. *)
Definition good_task_name (task_name : string) : bool :=
  (str.count "/" task_name =? 0)%nat
  && negb (str.contains "details_" (task_name ++ "_"))
  && negb (str.contains "results_" (task_name ++ "_"))
  && negb (str.contains "_202" task_name).

(** A run of 2023 or 2024. *)
Definition run_2023_2024 (now : datetime.t) : bool :=
  datetime.valid now
  && ((datetime.year now =? 2023)%N || (datetime.year now =? 2024)%N).

(** A parquet file of a repository filled by such runs: a results file,
    or the details of a task of one run. *)
Definition from_history (sub_file : string) : Prop :=
  is_results sub_file = true
  \/ exists (task_name : string) (now : datetime.t),
       good_task_name task_name = true /\ run_2023_2024 now = true
       /\ sub_file = details_repo_path task_name now.

(** What one run leaves in the repository (lines 157-158, 182 and
    274-290): the results file, its parquet version, and the details
    file of every task. *)
Definition run_files (now : datetime.t) (task_names : list string) : list string :=
  [results_file_name (date_id now); ("results_" ++ date_id now ++ ".parquet")%string]
  ++ map (fun task_name => details_repo_path task_name now) task_names.

(** ** [generate_final_dict] (lines 216-235) *)

(** The inner comprehension of line 231: the entries of one section
    under their new names, a later entry taking the place of an earlier
    one that got the same name. *)
Definition rename_eval_names {V} (v : list (string * V)) : list (string * V) :=
  fold_left (fun acc kv => dict.set acc (str.replace "|" ":" (fst kv)) (snd kv)) v [].

(** Lines 230-233; [to_dump] is the dict of lines 221-228, whose keys
    are the six section names. *)
Definition generate_final_dict {V} (to_dump : list (string * list (string * V)))
  : list (string * list (string * V)) :=
  map (fun kv => (fst kv, rename_eval_names (snd kv))) to_dump.

(** ** The files of [push_to_tensorboard] (lines 506-511 and 571-573) *)

(** [str(n)] for a natural number: the digits are put before [acc],
    the last one first. *)
Fixpoint decimal_from (fuel : nat) (n : N) (acc : string) : string :=
  match fuel with
  | O => acc
  | S k =>
      let acc' := String (datetime.digit_char n) acc in
      if (n <? 10)%N then acc' else decimal_from k (n / 10) acc'
  end.

Definition decimal (n : N) : string := decimal_from (S (N.size_nat n)) n "".

(** [f"{global_step:07d}"], for a step that is not negative: seven
    digits at least, zeros in front. *)
Definition format_07d (global_step : N) : string :=
  if (global_step <? 10000000)%N then datetime.pad 7 global_step else decimal global_step.

(** Line 573: the new name of a file of the folder. *)
Definition tensorboard_file_name (global_step : N) (file : string) : string :=
  format_07d global_step ++ "_" ++ file.

(** ** The results files in the card (lines 345-348 and 445) *)

(** Lines 345 and 356: the split of a results file. *)
Definition results_sanitized_eval_date (sub_file : string) : string :=
  re.sub_not_w_dot
    (str.replace ".parquet" "" (str.replace "results_" "" (os_path.basename sub_file))).

(** Lines 331-337: the largest registered date, in ISO format. *)
Definition max_last_eval_date_results (parquet_files : list string) : result string :=
  last ← last_eval_dates [] parquet_files;
  max_last ← max_last_eval_date last;
  Ok (datetime.isoformat max_last).

(** Lines 301-445: the results file the card shows, once the configs
    are built. *)
Definition last_results_file_of (files_in_repo : list string) : result string :=
  _ ← recreate_metadata_card files_in_repo;
  max_last ← max_last_eval_date_results (parquet_files_of files_in_repo);
  last_results_file (results_files_of files_in_repo) max_last.

(** ** A listing for the examples *)

(** Two runs: two tasks in November 2023, one of them again in January
    2024. *)
Definition run_nov_2023 : datetime.t := datetime.mk 2023 11 2 8 5 59 120.

Definition run_jan_2024 : datetime.t := datetime.mk 2024 1 15 10 30 0 0.

Definition two_runs : list string :=
  ["README.md"]
  ++ run_files run_nov_2023 ["harness|arc|25"; "mmlu"]
  ++ run_files run_jan_2024 ["harness|arc|25"].

(** ** The configs a file writes to *)

(** Lines 346 and 351: the config of the file. *)
Definition config_name_of (sub_file : string) : string :=
  if is_results sub_file then "results" else detail_sanitized_task sub_file.

(** The config of the file and, for a detail file, the merged configs
    of lines 393-441. *)
Definition config_names_of (sub_file : string) : list string :=
  config_name_of sub_file
  :: (if is_results sub_file then [] else special_config_names sub_file).

(** No file finds its config among those the files before it have
    written to; [seen] are the configs written so far. *)
Fixpoint no_config_twice (seen : list string) (parquet_files : list string) : bool :=
  match parquet_files with
  | [] => true
  | sub_file :: rest =>
      negb (existsb (String.eqb (config_name_of sub_file)) seen)
      && no_config_twice (config_names_of sub_file ++ seen) rest
  end.

(** ** The averages of [push_to_tensorboard] (lines 522-553) *)

(** Lines 524-528: the task of a results entry. *)
Definition tensorboard_task_name (name : string) : string :=
  match str.split "|" name with
  | [_; task_name; _] => task_name
  | _ => name
  end.

(** Lines 529-531: the suite of a task with subtasks. *)
Definition bench_suite_of (name : string) : option string :=
  let task_name := tensorboard_task_name name in
  if str.contains ":" task_name then Some (str.split_head ":" task_name) else None.

(** Lines 536-538 for one metric of a task of the suite; the inner dict
    of the suite is changed where it stands. *)
Definition add_bench_value {V} (bench_averages : list (string * list (string * list V)))
    (bench_suite metric : string) (value : V)
  : list (string * list (string * list V)) :=
  let bench_averages :=
    match dict.get bench_averages bench_suite with
    | None => dict.set bench_averages bench_suite []
    | Some _ => bench_averages
    end in
  let of_suite := default [] (dict.get bench_averages bench_suite) in
  dict.set bench_averages bench_suite
    (dict.set of_suite metric (default [] (dict.get of_suite metric) ++ [value])).

(** Lines 533-538: the metrics of one task. *)
Definition add_bench_values {V} (bench_suite : string)
    (bench_averages : list (string * list (string * list V)))
    (values : list (string * V)) : list (string * list (string * list V)) :=
  fold_left (fun acc mv =>
               if str.contains "stderr" (fst mv) then acc
               else add_bench_value acc bench_suite (fst mv) (snd mv))
    values bench_averages.

(** Lines 522-538: [bench_averages] after the loop over [results]. *)
Definition bench_averages_of {V} (results : list (string * list (string * V)))
  : list (string * list (string * list V)) :=
  fold_left (fun acc nv =>
               match bench_suite_of (fst nv) with
               | Some bench_suite => add_bench_values bench_suite acc (snd nv)
               | None => acc
               end)
    results [].

(** The values line 553 averages for a metric of a suite, if it does. *)
Definition averaged_values {V} (bench_averages : list (string * list (string * list V)))
    (bench_suite metric : string) : option (list V) :=
  dict.get bench_averages bench_suite ≫= fun of_suite => dict.get of_suite metric.

(** The values of a metric in the tasks of a suite, in the order of
    [results]. *)
Definition suite_values {V} (results : list (string * list (string * V)))
    (bench_suite metric : string) : list V :=
  flat_map (fun nv =>
              if bool_decide (bench_suite_of (fst nv) = Some bench_suite)
              then flat_map (fun mv =>
                               if String.eqb (fst mv) metric
                                  && negb (str.contains "stderr" (fst mv))
                               then [snd mv] else [])
                     (snd nv)
              else [])
    results.

(** The list a metric of a suite has so far, empty when it has none. *)
Definition values_so_far {V} (bench_averages : list (string * list (string * list V)))
    (bench_suite metric : string) : list V :=
  default [] (averaged_values bench_averages bench_suite metric).

(** No metric of a suite is given an empty list. *)
Definition no_empty_average {V} (bench_averages : list (string * list (string * list V)))
  : Prop :=
  forall bench_suite metric, averaged_values bench_averages bench_suite metric <> Some [].

(** ** Folders written by [save] *)

(** A file in a folder named with the token of a date (line 153). *)
Definition saved_folder (sub_file : string) : Prop :=
  exists now : datetime.t,
    datetime.valid now = true /\ os_path.dirname sub_file = date_id now.

(** There is a detail file, and the second pass finds the date of
    every detail file. *)
Definition completes_saved (parquet_files : list string) : bool :=
  existsb (fun f => negb (is_results f)) parquet_files
  && forallb (second_pass_finds parquet_files) parquet_files.

(** ** What lines 358-382 append to the config of a file *)

(** Line 356: the split of the file. *)
Definition own_split (sub_file : string) : string :=
  if is_results sub_file then results_sanitized_eval_date sub_file
  else detail_sanitized_eval_date sub_file.

(** The task whose date decides the ["latest"] split of the file; for
    a results file it is the largest date of all. *)
Definition task_key (sub_file : string) : option string :=
  if is_results sub_file then None else Some (second_pass_task_name sub_file).

(** Lines 347 and 353: the split line 378 compares with. *)
Definition last_split_of (last : list (string * string)) (max_last : string)
    (sub_file : string) : string :=
  if is_results sub_file then re.sub_not_w_dot max_last
  else match dict.get last (second_pass_task_name sub_file) with
       | Some last_date => re.sub_not_w_dot last_date
       | None => ""
       end.

(** Where the split names of the entries of a config come from, after
    the files [written]: the config is a merged config of one of them,
    or one of them has appended its split, or ["latest"] behind it. *)
Definition split_written (last : list (string * string)) (max_last : string)
    (written : list string) (config_name split_name : string) : Prop :=
  (exists g, In g written /\ is_results g = false
             /\ In config_name (special_config_names g))
  \/ (exists g, In g written /\ config_name_of g = config_name
                /\ (split_name = own_split g
                    \/ (split_name = "latest"
                        /\ own_split g = last_split_of last max_last g))).

(** No two files append the same split to one config: the files of a
    config have different splits and are of one task, no config of a
    file is a merged config, and no split is named ["latest"]. *)
Definition separate_splits (parquet_files : list string) : Prop :=
  List.NoDup (map (fun f => (config_name_of f, own_split f)) parquet_files)
  /\ (forall f g, In f parquet_files -> In g parquet_files ->
        config_name_of f = config_name_of g -> task_key f = task_key g)
  /\ (forall f g, In f parquet_files -> In g parquet_files ->
        is_results f = false -> ~ In (config_name_of g) (special_config_names f))
  /\ (forall f, In f parquet_files -> own_split f <> "latest").

(** The configs the details file of a task is written to. *)
Definition task_config_names (task_name : string) : list string :=
  re.sub_W task_name
  :: flat_map (fun special_task =>
                 if str.contains (re.sub_W special_task) (re.sub_W task_name)
                 then [special_config_name special_task task_name]
                 else [])
       SPECIAL_TASKS.

(** ** More listings of the scenarios *)

Definition jan_2025_file : string :=
  "2025-01-15T10-30-00.123456/details_mmlu_us_history_2025-01-15T10-30-00.123456.parquet".

Definition feb_2025_file : string :=
  "2025-02-15T10-30-00.123456/details_mmlu_us_history_2025-02-15T10-30-00.123456.parquet".

Definition us_history_2025_file : string :=
  "2025-01-15T10-30-00.123456/details_lighteval|mmlu:us_history|5_2025-01-15T10-30-00.123456.parquet".

Definition world_religions_2025_file : string :=
  "2025-01-15T10-30-00.123456/details_lighteval|mmlu:world_religions|5_2025-01-15T10-30-00.123456.parquet".

Definition us_history_2030_file : string :=
  "2030-01-15T10-30-00.123456/details_lighteval|mmlu:us_history|5_2030-01-15T10-30-00.123456.parquet".

Definition world_religions_2030_file : string :=
  "2030-01-15T10-30-00.123456/details_lighteval|mmlu:world_religions|5_2030-01-15T10-30-00.123456.parquet".

(** * Properties *)

#[local] Arguments String.append !s1 s2.

(** ** Strings *)

Lemma string_app_assoc (a b c : string) : (a +:+ b) +:+ c = a +:+ (b +:+ c).
Proof. induction a as [|x a IH]; simpl; [reflexivity | by rewrite IH]. Qed.

Lemma string_app_nil_r (a : string) : a +:+ "" = a.
Proof. induction a as [|x a IH]; simpl; [reflexivity | by rewrite IH]. Qed.

Lemma string_length_app (a b : string) :
  String.length (a +:+ b) = (String.length a + String.length b)%nat.
Proof. induction a as [|x a IH]; simpl; [reflexivity | by rewrite IH]. Qed.

Lemma count_app (c : ascii) (a b : string) :
  str.count c (a +:+ b) = (str.count c a + str.count c b)%nat.
Proof. induction a as [|x a IH]; simpl; [reflexivity | rewrite IH; lia]. Qed.

(** Replacing one character by another is a map over the characters. *)
Lemma replace_char_sub_chars (c c' : ascii) (s : string) :
  str.replace (String c "") (String c' "") s
  = re.sub_chars (fun x => negb (Ascii.eqb x c)) c' s.
Proof.
  unfold str.replace. induction s as [|x s IH]; simpl; [reflexivity|].
  destruct (ascii_dec c x) as [->|Hne].
  - rewrite Ascii.eqb_refl. simpl.
    assert (String.prefix "" s = true) as -> by (destruct s; reflexivity).
    rewrite IH. reflexivity.
  - assert (Ascii.eqb x c = false) as -> by (apply Ascii.eqb_neq; congruence).
    simpl. rewrite IH. reflexivity.
Qed.

Lemma sub_chars_app keep r (a b : string) :
  re.sub_chars keep r (a +:+ b) = re.sub_chars keep r a +:+ re.sub_chars keep r b.
Proof. induction a as [|x a IH]; simpl; [reflexivity | by rewrite IH]. Qed.

Lemma sub_chars_id keep r (s : string) :
  (forall c, keep c = false -> str.count c s = 0%nat) ->
  re.sub_chars keep r s = s.
Proof.
  induction s as [|x s IH]; simpl; intros H; [reflexivity|].
  destruct (keep x) eqn:E.
  - rewrite IH; [reflexivity|]. intros c Hc. specialize (H c Hc).
    destruct (Ascii.eqb x c); simpl in H; lia.
  - specialize (H x E). rewrite Ascii.eqb_refl in H. simpl in H. lia.
Qed.

Lemma replace_char_absent (c c' : ascii) (s : string) :
  str.count c s = 0%nat -> str.replace (String c "") (String c' "") s = s.
Proof.
  intros H. rewrite replace_char_sub_chars. apply sub_chars_id.
  intros x Hx. apply negb_false_iff, Ascii.eqb_eq in Hx. by subst.
Qed.

Lemma rsplit_no_sep (sep : ascii) (n : nat) (s : string) :
  str.count sep s = 0%nat -> str.rsplit sep n s = [s].
Proof.
  induction s as [|x s IH]; simpl; [reflexivity|].
  destruct (Ascii.eqb x sep); simpl; [lia|]. intros H. by rewrite IH.
Qed.

Lemma cons_head_app (c : ascii) (l l' : list string) :
  l <> [] -> str.cons_head c (l ++ l') = str.cons_head c l ++ l'.
Proof. destruct l; [congruence | reflexivity]. Qed.

Lemma rsplit_not_nil sep n s : str.rsplit sep n s <> [].
Proof.
  destruct s as [|x s]; simpl; [discriminate|].
  destruct (_ && _); [discriminate|].
  destruct (str.rsplit sep n s); discriminate.
Qed.

(** Cutting at the last two separators: what follows the second last
    separator holds exactly one more. *)
Lemma rsplit_2_shape (sep : ascii) (a b c : string) :
  str.count sep b = 0%nat -> str.count sep c = 0%nat ->
  str.rsplit sep 2 (a +:+ String sep (b +:+ String sep c)) = [a; b; c].
Proof.
  intros Hb Hc.
  assert (Hc1 : str.rsplit sep 2 c = [c]) by by apply rsplit_no_sep.
  assert (Hb1 : str.rsplit sep 2 (b +:+ String sep c) = [b; c]).
  { clear a. induction b as [|x b IH]; simpl in *.
    - rewrite Ascii.eqb_refl, Hc. simpl. by rewrite Hc1.
    - destruct (Ascii.eqb x sep); simpl in *; [lia|]. by rewrite IH. }
  induction a as [|x a IH]; simpl.
  - rewrite Ascii.eqb_refl, count_app. simpl. rewrite Ascii.eqb_refl, Hb, Hc. simpl.
    by rewrite Hb1.
  - rewrite IH.
    replace (str.count sep (a +:+ String sep (b +:+ String sep c)) <? 2)%nat with false.
    + by rewrite andb_false_r.
    + symmetry. apply Nat.ltb_ge. rewrite !count_app. simpl. rewrite count_app. simpl.
      rewrite !Ascii.eqb_refl. lia.
Qed.

Lemma iso_date_of_dir_recovers (a b c : string) :
  str.count ":" a = 0%nat ->
  str.count ":" b = 0%nat -> str.count "-" b = 0%nat ->
  str.count ":" c = 0%nat -> str.count "-" c = 0%nat ->
  iso_date_of_dir (str.replace ":" "-" (a +:+ ":" +:+ b +:+ ":" +:+ c))
  = a +:+ ":" +:+ b +:+ ":" +:+ c.
Proof.
  intros Ha Hb Hb' Hc Hc'. unfold iso_date_of_dir.
  rewrite replace_char_sub_chars, !sub_chars_app. simpl.
  rewrite <- !replace_char_sub_chars, !replace_char_absent by assumption.
  rewrite (rsplit_2_shape "-" a b c) by assumption. reflexivity.
Qed.

(** ** Digits and ISO dates *)

Section iso_dates.

Local Open Scope N_scope.

Lemma digit_val_digit_char (n : N) :
  datetime.digit_val (datetime.digit_char n) = Some (n mod 10).
Proof.
  unfold datetime.digit_val, datetime.digit_char.
  pose proof (N.mod_upper_bound n 10 ltac:(lia)) as Hlt.
  set (r := n mod 10) in *. clearbody r.
  rewrite N_ascii_embedding by lia.
  assert (H1 : (48 <=? 48 + r) = true) by (apply N.leb_le; lia).
  assert (H2 : (48 + r <=? 57) = true) by (apply N.leb_le; lia).
  rewrite H1, H2. simpl. f_equal. lia.
Qed.

Lemma length_pad (w : nat) (n : N) : String.length (datetime.pad w n) = w.
Proof.
  revert n. induction w as [|w IH]; intros n; simpl; [reflexivity|].
  rewrite string_length_app, IH. simpl. lia.
Qed.

Lemma count_pad (c : ascii) (w : nat) (n : N) :
  datetime.digit_val c = None -> str.count c (datetime.pad w n) = 0%nat.
Proof.
  intros Hc. revert n. induction w as [|w IH]; intros n; simpl; [reflexivity|].
  rewrite count_app, IH. simpl.
  destruct (Ascii.eqb_spec (datetime.digit_char n) c) as [<-|]; [|reflexivity].
  rewrite digit_val_digit_char in Hc. discriminate.
Qed.

Lemma parse_digits_from_app (acc : N) (a b : string) :
  datetime.parse_digits_from acc (a +:+ b)
  = datetime.parse_digits_from acc a ≫= fun v => datetime.parse_digits_from v b.
Proof.
  revert acc. induction a as [|x a IH]; intros acc; simpl; [reflexivity|].
  destruct (datetime.digit_val x); [apply IH | reflexivity].
Qed.

Lemma parse_digits_from_pad (w : nat) (acc n : N) :
  datetime.parse_digits_from acc (datetime.pad w n)
  = Some (acc * 10 ^ N.of_nat w + n mod 10 ^ N.of_nat w).
Proof.
  revert acc n. induction w as [|w IH]; intros acc n.
  - simpl. f_equal. rewrite N.mod_1_r. lia.
  - cbn [datetime.pad]. rewrite parse_digits_from_app, IH. cbn [mbind option_bind].
    cbn [datetime.parse_digits_from]. rewrite digit_val_digit_char. f_equal.
    rewrite Nat2N.inj_succ, N.pow_succ_r'.
    rewrite N.Div0.mod_mul_r. ring.
Qed.

Lemma parse_digits_pad (w : nat) (n : N) :
  n < 10 ^ N.of_nat w -> datetime.parse_digits w (datetime.pad w n) = Some n.
Proof.
  intros H. unfold datetime.parse_digits.
  rewrite length_pad, Nat.eqb_refl, parse_digits_from_pad, N.mod_small by exact H.
  f_equal.
Qed.

Lemma parse_pad2 (n : N) :
  n < 100 ->
  datetime.parse_digits 2
    (String (datetime.digit_char (n / 10)) (String (datetime.digit_char n) "")) = Some n.
Proof. intros H. apply (parse_digits_pad 2). exact H. Qed.

Lemma parse_pad4 (n : N) :
  n < 10000 ->
  datetime.parse_digits 4
    (String (datetime.digit_char (n / 10 / 10 / 10))
       (String (datetime.digit_char (n / 10 / 10))
          (String (datetime.digit_char (n / 10)) (String (datetime.digit_char n) ""))))
  = Some n.
Proof. intros H. apply (parse_digits_pad 4). exact H. Qed.

Lemma parse_pad6 (n : N) :
  n < 1000000 ->
  datetime.parse_digits 6
    (String (datetime.digit_char (n / 10 / 10 / 10 / 10 / 10))
       (String (datetime.digit_char (n / 10 / 10 / 10 / 10))
          (String (datetime.digit_char (n / 10 / 10 / 10))
             (String (datetime.digit_char (n / 10 / 10))
                (String (datetime.digit_char (n / 10))
                   (String (datetime.digit_char n) ""))))))
  = Some n.
Proof. intros H. apply (parse_digits_pad 6). exact H. Qed.

Lemma days_in_month_le (y m : N) : datetime.days_in_month y m <= 31.
Proof.
  unfold datetime.days_in_month.
  destruct (m =? 2); [destruct (datetime.is_leap y); lia|].
  destruct (_ || _); lia.
Qed.

Lemma valid_bounds (d : datetime.t) :
  datetime.valid d = true ->
  datetime.year d < 10000 /\ datetime.month d < 100 /\ datetime.day d < 100
  /\ datetime.hour d < 100 /\ datetime.minute d < 100 /\ datetime.second d < 100
  /\ datetime.microsecond d < 1000000.
Proof.
  unfold datetime.valid. rewrite !andb_true_iff, !N.leb_le.
  pose proof (days_in_month_le (datetime.year d) (datetime.month d)). lia.
Qed.

(** [fromisoformat] reads back what [isoformat] writes. *)
Lemma isoformat_fromisoformat (d : datetime.t) :
  datetime.valid d = true -> datetime.fromisoformat (datetime.isoformat d) = Some d.
Proof.
  intros Hv. pose proof (valid_bounds d Hv) as (Hy & Hmo & Hd & Hh & Hmi & Hs & Hus').
  destruct d as [y mo dd h mi s us].
  cbn [datetime.year datetime.month datetime.day datetime.hour datetime.minute
       datetime.second datetime.microsecond] in *.
  unfold datetime.isoformat, datetime.fromisoformat.
  cbn [datetime.year datetime.month datetime.day datetime.hour datetime.minute
       datetime.second datetime.microsecond].
  destruct (us =? 0) eqn:Hus;
    cbn -[datetime.digit_char datetime.digit_val N.div N.modulo N.mul N.add
          datetime.valid datetime.parse_digits];
    rewrite (parse_pad4 y Hy), (parse_pad2 mo Hmo), (parse_pad2 dd Hd);
    cbn [mbind option_bind];
    unfold datetime.parse_time;
    cbn -[datetime.digit_char datetime.digit_val N.div N.modulo N.mul N.add
          datetime.valid datetime.parse_digits];
    rewrite (parse_pad2 h Hh), (parse_pad2 mi Hmi), (parse_pad2 s Hs);
    cbn [mbind option_bind].
  - apply N.eqb_eq in Hus. subst us. rewrite Hv. reflexivity.
  - rewrite (parse_pad6 us Hus'). cbn [mbind option_bind]. rewrite Hv. reflexivity.
Qed.

Lemma digit_val_colon : datetime.digit_val ":" = None.
Proof. reflexivity. Qed.

Lemma digit_val_hyphen : datetime.digit_val "-" = None.
Proof. reflexivity. Qed.

(** The shape of an ISO date: two colons, and no hyphen after the first. *)
Lemma isoformat_shape (d : datetime.t) :
  exists a b c : string,
    datetime.isoformat d = a +:+ ":" +:+ b +:+ ":" +:+ c
    /\ str.count ":" a = 0%nat
    /\ str.count ":" b = 0%nat /\ str.count "-" b = 0%nat
    /\ str.count ":" c = 0%nat /\ str.count "-" c = 0%nat.
Proof.
  exists (datetime.pad 4 (datetime.year d) +:+ "-" +:+ datetime.pad 2 (datetime.month d)
          +:+ "-" +:+ datetime.pad 2 (datetime.day d) +:+ "T"
          +:+ datetime.pad 2 (datetime.hour d)),
    (datetime.pad 2 (datetime.minute d)),
    (datetime.pad 2 (datetime.second d)
     +:+ (if datetime.microsecond d =? 0 then ""
          else "." +:+ datetime.pad 6 (datetime.microsecond d))).
  split; [|split; [|split; [|split; [|split]]]].
  - unfold datetime.isoformat. rewrite !string_app_assoc. reflexivity.
  - rewrite !count_app, !count_pad by reflexivity. reflexivity.
  - apply count_pad. reflexivity.
  - apply count_pad. reflexivity.
  - rewrite count_app, count_pad by reflexivity.
    destruct (_ =? 0); [reflexivity|]. rewrite count_app, count_pad by reflexivity.
    reflexivity.
  - rewrite count_app, count_pad by reflexivity.
    destruct (_ =? 0); [reflexivity|]. rewrite count_app, count_pad by reflexivity.
    reflexivity.
Qed.

End iso_dates.

(** ** C9: the timestamp token *)

(** C9: the token [save] writes for a date, with its colons turned into
    hyphens, is turned back by line 324 into the ISO string it came
    from, and that string parses as the date. *)
Theorem C9_date_id_round_trip (now : datetime.t) :
  datetime.valid now = true ->
  iso_date_of_dir (date_id now) = datetime.isoformat now
  /\ datetime.fromisoformat (iso_date_of_dir (date_id now)) = Some now.
Proof.
  intros Hv.
  assert (H : iso_date_of_dir (date_id now) = datetime.isoformat now).
  { unfold date_id.
    destruct (isoformat_shape now) as (a & b & c & -> & Ha & Hb & Hb' & Hc & Hc').
    by apply iso_date_of_dir_recovers. }
  split; [exact H|]. rewrite H. by apply isoformat_fromisoformat.
Qed.

Lemma C9_date_id_round_trip_witness :
  let now := datetime.mk 2023 9 3 10 57 4 203304 in
  date_id now = "2023-09-03T10-57-04.203304"
  /\ iso_date_of_dir (date_id now) = datetime.isoformat now
  /\ datetime.fromisoformat (iso_date_of_dir (date_id now)) = Some now.
Proof.
  split; [reflexivity|]. apply C9_date_id_round_trip. reflexivity.
Defined.

(** ** The listing is read through its two filters only *)

Lemma recreate_metadata_card_filters (l l' : list string) :
  length (results_files_of l) = length (results_files_of l') ->
  parquet_files_of l = parquet_files_of l' ->
  recreate_metadata_card l = recreate_metadata_card l'.
Proof. unfold recreate_metadata_card. intros -> ->. reflexivity. Qed.

Lemma filter_drop_middle (p : string -> bool) (pre post : list string) (f : string) :
  p f = false -> List.filter p (pre ++ f :: post) = List.filter p (pre ++ post).
Proof.
  intros Hf. rewrite !List.filter_app. simpl. rewrite Hf. reflexivity.
Qed.

Lemma is_ok_bind_false {A B} (r : result A) (k : A -> result B) :
  is_ok r = false -> is_ok (r ≫= k) = false.
Proof. by destruct r. Qed.

(** ** The first pass over a listing without detail files *)

Lemma last_eval_dates_results_only (last : list (string * datetime.t)) (l : list string) :
  Forall (fun f => is_results f = true) l -> last_eval_dates last l = Ok last.
Proof.
  induction 1 as [|f l Hf _ IH]; simpl; [reflexivity|].
  unfold record_eval_date. rewrite Hf. simpl. exact IH.
Qed.

(** ** C3: a listing without detail files *)

(** C3, as stated, fails: on the empty listing the call does not return
    an empty configuration, it ends with the [IndexError] of line 331. *)
Lemma C3_empty_listing_raises :
  recreate_metadata_card [] = Raise IndexError /\ recreate_metadata_card [] <> Ok ∅.
Proof. split; [reflexivity | discriminate]. Qed.

(** C3, amended: when no parquet file of the listing is a detail file
    (every one has ["results_"] in its name; the empty listing is the
    first case), the call ends with [IndexError] and yields no
    configuration. *)
Theorem C3_no_detail_file_IndexError (files_in_repo : list string) :
  forallb is_results (parquet_files_of files_in_repo) = true ->
  recreate_metadata_card files_in_repo = Raise IndexError.
Proof.
  intros H. unfold recreate_metadata_card, configs_of.
  rewrite last_eval_dates_results_only.
  - reflexivity.
  - apply List.Forall_forall. intros f Hf.
    rewrite forallb_forall in H. apply H. exact Hf.
Qed.

Lemma C3_no_detail_file_IndexError_witness :
  forallb is_results
    (parquet_files_of ["results_2024-01-15T10-30-00.123456.json";
                       "results_2024-01-15T10-30-00.123456.parquet"]) = true
  /\ recreate_metadata_card ["results_2024-01-15T10-30-00.123456.json";
                             "results_2024-01-15T10-30-00.123456.parquet"]
     = Raise IndexError.
Proof.
  split; [reflexivity | apply C3_no_detail_file_IndexError; reflexivity].
Defined.

(** ** C7: files the loops do not read *)

(** C7, as stated, fails: a parquet file that is neither a results file
    nor a detail file stops the whole call (its directory name is not a
    date), while the listing without it gives a configuration. *)
Lemma C7_unrecognized_parquet_raises :
  str.contains "results_" "notes.parquet" = false
  /\ str.contains "details_" "notes.parquet" = false
  /\ recreate_metadata_card [foo_jan_file; "notes.parquet"] = Raise (ValueError_isoformat "")
  /\ is_ok (recreate_metadata_card [foo_jan_file]) = true.
Proof. vm_compute. repeat split. Qed.

(** C7, amended: a file whose name has neither [".json"] nor
    [".parquet"] in it is left out, raises nothing, and the call gives
    exactly what it gives on the listing without that file. *)
Theorem C7_unread_file_ignored (pre post : list string) (f : string) :
  str.contains ".json" f = false ->
  str.contains ".parquet" f = false ->
  recreate_metadata_card (pre ++ f :: post) = recreate_metadata_card (pre ++ post).
Proof.
  intros Hj Hp. apply recreate_metadata_card_filters.
  - unfold results_files_of. rewrite filter_drop_middle by exact Hj. reflexivity.
  - unfold parquet_files_of. apply filter_drop_middle. exact Hp.
Qed.

Lemma C7_unread_file_ignored_witness :
  recreate_metadata_card
    ([foo_jan_file] ++ "README.md" :: ["results_2024-01-15T10-30-00.123456.parquet"])
  = recreate_metadata_card
      ([foo_jan_file] ++ ["results_2024-01-15T10-30-00.123456.parquet"]).
Proof. apply C7_unread_file_ignored; reflexivity. Defined.

(** ** Counterexamples to C4 and C5 *)

(** C4, as stated, fails.  A listing that holds the two detail files
    and nothing else has no [.json] file, so it is read in
    single-result mode, and the second file of the task stops the call
    at the guard of line 370.  And with two [.json] files, the two runs
    of January and February 2025 stop it at line 353, where the second
    pass looks the task up with the timestamp on its name. *)
Lemma C4_two_detail_files_alone_raise :
  (parquet_files_of [jan_file; feb_file] = [jan_file; feb_file]
   /\ re.sub_W (second_pass_task_name jan_file) = "mmlu_us_history"
   /\ re.sub_W (second_pass_task_name feb_file) = "mmlu_us_history"
   /\ is_ok (recreate_metadata_card [jan_file; feb_file]) = false)
  /\ recreate_metadata_card ["a.json"; "b.json"; jan_2025_file; feb_2025_file]
     = Raise (KeyError "mmlu_us_history_2025-01-15T10-30-00.123456.parquet").
Proof. vm_compute. repeat split. Qed.

(** C5, as stated, fails.  With the two sibling files of a run of 2025
    the call raises at line 353.  With those of a run of 2030 it
    completes, but the shots of the merged config are read from a task
    name that still bears the timestamp, and there is no
    ["lighteval_mmlu_5"].  And in multiple-results mode a task that has
    ["lighteval_mmlu_5"] as its own config appends a second split with
    the name of the run to it. *)
Lemma C5_siblings_of_other_years :
  recreate_metadata_card [us_history_2025_file; world_religions_2025_file]
  = Raise (KeyError "lighteval|mmlu:us_history|5_2025-01-15T10-30-00.123456.parquet")
  /\ (is_ok (recreate_metadata_card [us_history_2030_file; world_religions_2030_file])
      = true
      /\ data_files_of
           (recreate_metadata_card [us_history_2030_file; world_religions_2030_file])
           "lighteval_mmlu_5"
         = None)
  /\ map split
       (default []
          (data_files_of
             (recreate_metadata_card
                ["a.json"; "b.json"; us_history_file; world_religions_file; mmlu_whole_file])
             "lighteval_mmlu_5"))
     = ["2024_01_15T10_30_00.123456"; "latest"; "2024_01_15T10_30_00.123456"; "latest"].
Proof. vm_compute. repeat split. Qed.

(** ** C8: a second results file in single-result mode *)

(** The guard of lines 370-373, met by a results file when the config
    ["results"] is there already: what is raised depends on whether
    [former_entry] was ever assigned. *)
Lemma add_file_second_results_file (last : list (string * string)) (max_last : string)
    (st : build_state) (sub_file : string) :
  is_results sub_file = true ->
  is_Some (card_metadata st !! "results") ->
  add_file false last max_last st sub_file
  = Raise (if former_entry_bound st then ValueError_entry_exists "results"
           else UnboundLocalError_former_entry).
Proof.
  intros Hr [x Hx]. unfold add_file, read_file_info. rewrite Hr.
  cbn [mbind result_bind]. unfold add_entry. cbn [sanitized_task]. rewrite Hx.
  reflexivity.
Qed.

(** C8 at a listing with one [.json] file, one detail file and two
    results files: the second results file reaches the [raise] of line
    371, but the message of line 372 reads [former_entry], which was
    never assigned, so what leaves the call is not the [ValueError]. *)
Theorem C8_second_results_file_unbound_former_entry :
  length (results_files_of ["results_2024-01-15T10-30-00.123456.json"; foo_jan_file;
                            results_jan_file; results_feb_file]) = 1%nat
  /\ recreate_metadata_card ["results_2024-01-15T10-30-00.123456.json"; foo_jan_file;
                             results_jan_file; results_feb_file]
     = Raise UnboundLocalError_former_entry.
Proof. vm_compute. split; reflexivity. Qed.

(** After a file of a special family [former_entry] is assigned and the
    guard raises the [ValueError] it was written for. *)
Lemma C8_second_results_file_after_special_task :
  recreate_metadata_card [us_history_file; results_jan_file; results_feb_file]
  = Raise (ValueError_entry_exists "results").
Proof. vm_compute. reflexivity. Qed.

(** ** Counterexamples to C1, C2, C6 and C10 *)

(** C1, as stated, fails: with the two runs of one task swapped the
    entries of its config come in another order. *)
Lemma C1_swapped_files_other_entry_order :
  Permutation ["a.json"; "b.json"; jan_file; feb_file]
              ["a.json"; "b.json"; feb_file; jan_file]
  /\ data_files_of (recreate_metadata_card ["a.json"; "b.json"; jan_file; feb_file])
       "mmlu_us_history"
     = Some [jan_split; feb_split; mk_data_file "latest" (path feb_split)]
  /\ data_files_of (recreate_metadata_card ["a.json"; "b.json"; feb_file; jan_file])
       "mmlu_us_history"
     = Some [feb_split; mk_data_file "latest" (path feb_split); jan_split]
  /\ recreate_metadata_card ["a.json"; "b.json"; jan_file; feb_file]
     <> recreate_metadata_card ["a.json"; "b.json"; feb_file; jan_file].
Proof.
  split; [do 2 apply perm_skip; apply perm_swap|].
  split; [vm_compute; reflexivity|]. split; [vm_compute; reflexivity|].
  intros H. apply (f_equal (fun r => data_files_of r "mmlu_us_history")) in H.
  vm_compute in H. discriminate H.
Qed.

(** C2, as stated, fails.  The call completes on a detail file whose
    directory name has a zero fraction, and the config of its task has
    no ["latest"] split, since the date is registered without the
    fraction.  And where the config of a task is also the merged config
    of its family, its ["latest"] split gets the files of the other
    members, which the split of its largest date does not have. *)
Lemma C2_latest_split_missing_or_larger :
  (is_results foo_zero_fraction_file = false
   /\ first_pass_task_name foo_zero_fraction_file = "foo"
   /\ data_files_of (recreate_metadata_card [foo_zero_fraction_file]) "foo"
      = Some [mk_data_file "2024_01_15T10_30_00.000000"
                ["**/details_foo_2024-01-15T10-30-00.000000.parquet"]])
  /\ (detail_sanitized_task mmlu_whole_file = "lighteval_mmlu_5"
      /\ eval_dates_of (second_pass_task_name mmlu_whole_file)
           (parquet_files_of [mmlu_whole_file; us_history_feb_file])
         = [datetime.mk 2024 1 15 10 30 0 123456]
      /\ data_files_of (recreate_metadata_card [mmlu_whole_file; us_history_feb_file])
           "lighteval_mmlu_5"
         = Some [mk_data_file "2024_01_15T10_30_00.123456"
                   [detail_repo_file_name mmlu_whole_file;
                    detail_repo_file_name mmlu_whole_file];
                 mk_data_file "latest"
                   [detail_repo_file_name mmlu_whole_file;
                    detail_repo_file_name mmlu_whole_file;
                    detail_repo_file_name us_history_feb_file];
                 mk_data_file "2024_02_15T10_30_00.123456"
                   [detail_repo_file_name us_history_feb_file]]).
Proof. vm_compute. repeat split. Qed.

(** C6, as stated, fails: two tasks of one run whose names get the same
    sanitized form share a config, which in multiple-results mode gets
    the dated split twice and ["latest"] twice. *)
Lemma C6_same_split_name_twice :
  data_files_of
    (recreate_metadata_card ["a.json"; "b.json"; my_task_hyphen_file; my_task_colon_file])
    "custom_my_task_0"
  = Some [mk_data_file "2024_01_15T10_30_00.123456"
            ["**/details_custom|my-task|0_2024-01-15T10-30-00.123456.parquet"];
          mk_data_file "latest"
            ["**/details_custom|my-task|0_2024-01-15T10-30-00.123456.parquet"];
          mk_data_file "2024_01_15T10_30_00.123456"
            ["**/details_custom|my:task|0_2024-01-15T10-30-00.123456.parquet"];
          mk_data_file "latest"
            ["**/details_custom|my:task|0_2024-01-15T10-30-00.123456.parquet"]].
Proof. vm_compute. reflexivity. Qed.

(** C10, as stated, fails: a file of 2025 whose task name holds
    ["_2024"] is cut at the same place by both passes, and a file of
    2030 is not cut by either; the call completes on both. *)
Lemma C10_other_years_complete :
  data_files_of (recreate_metadata_card [aime_2025_file]) "lighteval_aime"
  = Some [mk_data_file "2025_01_15T10_30_00.123456"
            ["**/details_lighteval|aime_2024|0_2025-01-15T10-30-00.123456.parquet"];
          mk_data_file "latest"
            ["**/details_lighteval|aime_2024|0_2025-01-15T10-30-00.123456.parquet"]]
  /\ is_ok (recreate_metadata_card [foo_2030_file]) = true.
Proof. vm_compute. split; reflexivity. Qed.

(** ** C10: the task name of the second pass *)

Lemma prefix_app (a b c : string) :
  String.prefix a b = true -> String.prefix a (b +:+ c) = true.
Proof.
  revert a. induction b as [|x b IH]; intros [|y a]; simpl; try done.
  - destruct c; done.
  - destruct (ascii_dec y x); [apply IH | done].
Qed.

Lemma split_head_is_prefix (sep s : string) :
  exists rest : string, s = str.split_head sep s +:+ rest.
Proof.
  induction s as [|x s [rest IH]]; cbn [str.split_head].
  - exists "". by destruct (String.prefix sep "").
  - destruct (String.prefix sep (String x s)).
    + by exists (String x s).
    + exists rest. simpl. by rewrite <- IH.
Qed.

(** What [split(sep)[0]] returns does not contain [sep]. *)
Lemma contains_split_head (sep s : string) :
  sep <> "" -> str.contains sep (str.split_head sep s) = false.
Proof.
  intros Hsep.
  assert (Hnil : str.contains sep "" = false) by (destruct sep; [done | reflexivity]).
  induction s as [|x s IH].
  - cbn [str.split_head]. by destruct (String.prefix sep "").
  - cbn [str.split_head].
    destruct (String.prefix sep (String x s)) eqn:Hp; [exact Hnil|].
    cbn [str.contains]. rewrite IH, orb_false_r.
    destruct (String.prefix sep (String x (str.split_head sep s))) eqn:Hq; [|done].
    destruct (split_head_is_prefix sep s) as [rest Hrest].
    apply prefix_app with (c := rest) in Hq.
    change (String x (str.split_head sep s) +:+ rest)
      with (String x (str.split_head sep s +:+ rest)) in Hq.
    rewrite <- Hrest in Hq. congruence.
Qed.

Lemma first_pass_task_name_no_202 (sub_file : string) :
  str.contains "_202" (first_pass_task_name sub_file) = false.
Proof. apply contains_split_head. discriminate. Qed.

Lemma split_head_absent (sep s : string) :
  str.contains sep s = false -> str.split_head sep s = s.
Proof.
  induction s as [|x s IH]; cbn [str.contains str.split_head]; intros H.
  - by destruct (String.prefix sep "").
  - apply orb_false_iff in H as [-> H]. by rewrite IH.
Qed.

(** A name that has ["_202"] in it but neither ["_2023"] nor ["_2024"],
    as the name of a file of 2025 has, is left whole by the second
    pass. *)
Lemma second_pass_task_name_uncut (sub_file : string) :
  let name := str.replace "details_" "" (os_path.basename sub_file) in
  str.contains "_2023" name = false ->
  str.contains "_2024" name = false ->
  str.contains "_202" name = true ->
  second_pass_task_name sub_file = name
  /\ str.contains "_202" (second_pass_task_name sub_file) = true.
Proof.
  intros name H23 H24 H202. unfold second_pass_task_name. fold name.
  rewrite (split_head_absent "_2023" name H23), (split_head_absent "_2024" name H24).
  by split.
Qed.

(** *** The dict of the first pass *)

Lemma dict_get_set_eq {V} (d : list (string * V)) (k : string) (v : V) :
  dict.get (dict.set d k v) k = Some v.
Proof.
  induction d as [|[k' v'] d IH]; simpl.
  - by rewrite String.eqb_refl.
  - destruct (String.eqb k' k) eqn:E; simpl; rewrite E; [reflexivity | exact IH].
Qed.

Lemma dict_get_set_ne {V} (d : list (string * V)) (k k' : string) (v : V) :
  k <> k' -> dict.get (dict.set d k v) k' = dict.get d k'.
Proof.
  intros Hne. induction d as [|[k0 v0] d IH]; simpl.
  - apply String.eqb_neq in Hne. by rewrite Hne.
  - destruct (String.eqb k0 k) eqn:E; simpl.
    + apply String.eqb_eq in E as ->.
      apply String.eqb_neq in Hne. by rewrite Hne.
    + destruct (String.eqb k0 k'); [reflexivity | exact IH].
Qed.

Lemma dict_keys_set {V} (d : list (string * V)) (k : string) (v : V) (x : string) :
  In x (dict.keys (dict.set d k v)) <-> x = k \/ In x (dict.keys d).
Proof.
  induction d as [|[k0 v0] d IH]; simpl.
  - intuition.
  - destruct (String.eqb k0 k) eqn:E; simpl.
    + apply String.eqb_eq in E as ->. intuition.
    + rewrite IH. intuition.
Qed.

Lemma dict_get_None {V} (d : list (string * V)) (k : string) :
  dict.get d k = None <-> ~ In k (dict.keys d).
Proof.
  induction d as [|[k0 v0] d IH]; simpl.
  - intuition.
  - destruct (String.eqb_spec k0 k) as [->|Hne].
    + split; [discriminate | intros H; exfalso; apply H; by left].
    + rewrite IH. intuition.
Qed.

Lemma dict_get_iso_dates (last : list (string * datetime.t)) (k : string) :
  dict.get (iso_dates last) k = datetime.isoformat <$> dict.get last k.
Proof.
  induction last as [|[k0 v0] d IH]; simpl; [reflexivity|].
  destruct (String.eqb k0 k); [reflexivity | exact IH].
Qed.

(** Every key of the registry is a task name of the first pass. *)
Lemma record_eval_date_keys (last last' : list (string * datetime.t)) (sub_file k : string) :
  record_eval_date last sub_file = Ok last' ->
  In k (dict.keys last') ->
  In k (dict.keys last) \/ (is_results sub_file = false /\ k = first_pass_task_name sub_file).
Proof.
  unfold record_eval_date. destruct (is_results sub_file); [intros [= ->]; by left|].
  destruct (datetime.fromisoformat _); [|discriminate].
  intros [= <-] Hk. apply dict_keys_set in Hk as [->|Hk]; [by right | by left].
Qed.

Lemma last_eval_dates_keys (parquet_files : list string)
    (last last' : list (string * datetime.t)) (k : string) :
  last_eval_dates last parquet_files = Ok last' ->
  In k (dict.keys last') ->
  In k (dict.keys last)
  \/ exists f, In f parquet_files /\ is_results f = false /\ k = first_pass_task_name f.
Proof.
  revert last. induction parquet_files as [|f l IH]; intros last; simpl.
  - intros [= ->]. by left.
  - destruct (record_eval_date last f) as [last1|] eqn:E; [|discriminate].
    cbn [mbind result_bind]. intros H Hk.
    destruct (IH _ H Hk) as [Hk1 | (g & Hg & Hr & ->)].
    + destruct (record_eval_date_keys _ _ _ _ E Hk1) as [?|[? ->]]; [by left|].
      right. exists f. split; [by left | done].
    + right. exists g. split; [by right | done].
Qed.

Lemma registry_no_stale_key (parquet_files : list string)
    (last : list (string * datetime.t)) (k : string) :
  last_eval_dates [] parquet_files = Ok last ->
  str.contains "_202" k = true ->
  dict.get (iso_dates last) k = None.
Proof.
  intros H Hk. rewrite dict_get_iso_dates.
  assert (dict.get last k = None) as ->; [|reflexivity].
  apply dict_get_None. intros Hin.
  destruct (last_eval_dates_keys _ _ _ _ H Hin) as [[]|(f & _ & _ & ->)].
  rewrite first_pass_task_name_no_202 in Hk. discriminate.
Qed.

(** *** The loop stops at the first file that raises *)

Lemma add_files_raises (multiple_results : bool) (last : list (string * string))
    (max_last : string) (parquet_files : list string) (f : string) :
  In f parquet_files ->
  (forall st, is_ok (add_file multiple_results last max_last st f) = false) ->
  forall st, is_ok (add_files multiple_results last max_last st parquet_files) = false.
Proof.
  intros Hin Hf. induction parquet_files as [|g l IH]; [destruct Hin|].
  intros st. simpl.
  destruct Hin as [->|Hin].
  - specialize (Hf st). by destruct (add_file _ _ _ st f).
  - destruct (add_file _ _ _ st g); [apply IH, Hin | reflexivity].
Qed.

Lemma add_file_stale_name (multiple_results : bool) (parquet_files : list string)
    (last : list (string * datetime.t)) (max_last : string) (st : build_state)
    (sub_file : string) :
  last_eval_dates [] parquet_files = Ok last ->
  is_results sub_file = false ->
  str.contains "_202" (second_pass_task_name sub_file) = true ->
  add_file multiple_results (iso_dates last) max_last st sub_file
  = Raise (KeyError (second_pass_task_name sub_file)).
Proof.
  intros Hl Hr Hk. unfold add_file, read_file_info. rewrite Hr.
  by rewrite (registry_no_stale_key _ _ _ Hl Hk).
Qed.

(** C10, amended: a detail file whose task name, as the second pass
    cuts it (at ["_2023"], then at ["_2024"]), still holds ["_202"] is
    not a key of the registry, whose keys were cut at the first
    ["_202"]: when the first pass has completed, the turn of the second
    pass that reads the file raises [KeyError], and the call completes
    on no listing that has the file among its parquet files. *)
Theorem C10_stale_task_name_KeyError (files_in_repo : list string) (sub_file : string) :
  In sub_file (parquet_files_of files_in_repo) ->
  is_results sub_file = false ->
  str.contains "_202" (second_pass_task_name sub_file) = true ->
  is_ok (recreate_metadata_card files_in_repo) = false
  /\ forall last, last_eval_dates [] (parquet_files_of files_in_repo) = Ok last ->
       forall multiple_results max_last st,
         add_file multiple_results (iso_dates last) max_last st sub_file
         = Raise (KeyError (second_pass_task_name sub_file)).
Proof.
  intros Hin Hr Hk. split.
  - unfold recreate_metadata_card, configs_of.
    destruct (last_eval_dates [] _) as [last|] eqn:Hl; [|reflexivity].
    cbn [mbind result_bind].
    destruct (max_last_eval_date last) as [max_last|]; [|reflexivity].
    cbn [mbind result_bind].
    match goal with
    | |- context [add_files ?m ?l ?x ?s ?p] =>
        pose proof (add_files_raises m l x p sub_file Hin) as Hraise
    end.
    rewrite (fun H => is_ok_bind_false _ _ (Hraise H _)); [reflexivity|].
    intros st. by rewrite (add_file_stale_name _ _ _ _ _ _ Hl Hr Hk).
  - intros last Hl multiple_results max_last st.
    by apply (add_file_stale_name _ _ _ _ _ _ Hl Hr Hk).
Qed.

Lemma C10_stale_task_name_KeyError_witness :
  second_pass_task_name foo_2025_file = "foo_2025-01-15T10-30-00.123456.parquet"
  /\ first_pass_task_name foo_2025_file = "foo"
  /\ is_ok (recreate_metadata_card [foo_2025_file]) = false
  /\ forall last, last_eval_dates [] (parquet_files_of [foo_2025_file]) = Ok last ->
       forall multiple_results max_last st,
         add_file multiple_results (iso_dates last) max_last st foo_2025_file
         = Raise (KeyError (second_pass_task_name foo_2025_file)).
Proof.
  split; [reflexivity|]. split; [reflexivity|].
  apply C10_stale_task_name_KeyError.
  - vm_compute. left. reflexivity.
  - reflexivity.
  - reflexivity.
Defined.

(** ** The first pass and the order of the listing *)

Section first_pass.

Local Open Scope N_scope.

(** Valid datetimes are told apart by their packed fields. *)
Lemma packed_inj (a b : datetime.t) :
  datetime.valid a = true -> datetime.valid b = true ->
  datetime.packed a = datetime.packed b -> a = b.
Proof.
  intros Ha Hb.
  pose proof (days_in_month_le (datetime.year a) (datetime.month a)).
  pose proof (days_in_month_le (datetime.year b) (datetime.month b)).
  unfold datetime.valid in Ha, Hb.
  rewrite !andb_true_iff, !N.leb_le in Ha, Hb.
  destruct a as [y mo d h mi s us], b as [y' mo' d' h' mi' s' us'].
  unfold datetime.packed. simpl in *. intros Hp.
  assert (y = y' /\ mo = mo' /\ d = d' /\ h = h' /\ mi = mi' /\ s = s' /\ us = us')
    as (-> & -> & -> & -> & -> & -> & ->) by lia.
  reflexivity.
Qed.

Lemma fromisoformat_valid (s : string) (d : datetime.t) :
  datetime.fromisoformat s = Some d -> datetime.valid d = true.
Proof.
  unfold datetime.fromisoformat. intros H.
  repeat match type of H with
         | (?o ≫= _) = Some _ => destruct o as [?|] eqn:?; [cbn [mbind option_bind] in H | discriminate H]
         end.
  destruct p as [[[? ?] ?] ?].
  destruct (datetime.valid _) eqn:Hv; [|discriminate H].
  by injection H as <-.
Qed.

Lemma max_valid (a b : datetime.t) :
  datetime.valid a = true -> datetime.valid b = true ->
  datetime.valid (datetime.max a b) = true.
Proof. unfold datetime.max. by destruct (datetime.ltb a b). Qed.

(** [max] folded from [a] over [l] gives a largest element of [a :: l]. *)
Lemma fold_max_spec (l : list datetime.t) (a : datetime.t) :
  In (fold_left datetime.max l a) (a :: l)
  /\ forall x, In x (a :: l) ->
       datetime.packed x <= datetime.packed (fold_left datetime.max l a).
Proof.
  revert a. induction l as [|b l IH]; intros a; simpl.
  - split; [by left|]. intros x [<-|[]]. lia.
  - destruct (IH (datetime.max a b)) as [Hin Hmax]. split.
    + destruct Hin as [Hin|Hin]; [|by right; right].
      rewrite <- Hin. unfold datetime.max. destruct (datetime.ltb a b); [right|]; by left.
    + intros x Hx.
      assert (datetime.packed x <= datetime.packed (datetime.max a b)
              \/ In x l) as [Hle|Hxl].
      { destruct Hx as [<-|[<-|Hx]]; [| |by right]; left;
          unfold datetime.max, datetime.ltb;
          destruct (N.ltb_spec (datetime.packed a) (datetime.packed b)); lia. }
      * etransitivity; [exact Hle|]. apply Hmax. by left.
      * apply Hmax. by right.
Qed.

Lemma fold_max_valid (l : list datetime.t) (a : datetime.t) :
  datetime.valid a = true -> List.Forall (fun d => datetime.valid d = true) l ->
  datetime.valid (fold_left datetime.max l a) = true.
Proof.
  intros Ha Hl. revert a Ha. induction Hl as [|b l Hb _ IH]; intros a Ha; simpl; [done|].
  apply IH. by apply max_valid.
Qed.

(** The largest element does not depend on the order, nor on where the
    fold starts. *)
Lemma fold_max_perm (l l' : list datetime.t) (a a' : datetime.t) :
  List.Forall (fun d => datetime.valid d = true) (a :: l) ->
  Permutation (a :: l) (a' :: l') ->
  fold_left datetime.max l a = fold_left datetime.max l' a'.
Proof.
  intros Hv Hp.
  assert (Hv' : List.Forall (fun d => datetime.valid d = true) (a' :: l')).
  { eapply Permutation_Forall; eassumption. }
  destruct (fold_max_spec l a) as [Hin Hmax].
  destruct (fold_max_spec l' a') as [Hin' Hmax'].
  apply packed_inj.
  - apply fold_max_valid; [exact (Forall_inv Hv) | exact (Forall_inv_tail Hv)].
  - apply fold_max_valid; [exact (Forall_inv Hv') | exact (Forall_inv_tail Hv')].
  - apply N.le_antisymm.
    + apply Hmax'. eapply Permutation_in; eassumption.
    + apply Hmax. eapply Permutation_in; [symmetry|]; eassumption.
Qed.

Lemma latest_from_Some (l : list datetime.t) (a : datetime.t) :
  latest_from (Some a) l = Some (fold_left datetime.max l a).
Proof. revert a. induction l as [|b l IH]; intros a; [reflexivity | apply IH]. Qed.

Lemma latest_date_perm (l l' : list datetime.t) :
  List.Forall (fun d => datetime.valid d = true) l ->
  Permutation l l' -> latest_date l = latest_date l'.
Proof.
  intros Hv Hp. destruct l as [|a l], l' as [|a' l'].
  - reflexivity.
  - by apply Permutation_nil in Hp.
  - by apply Permutation_sym, Permutation_nil in Hp.
  - unfold latest_date. cbn [latest_from fold_left].
    fold (latest_from (Some a) l) (latest_from (Some a') l').
    rewrite !latest_from_Some. f_equal. by apply fold_max_perm.
Qed.

Lemma eval_dates_of_valid (task : string) (parquet_files : list string) :
  List.Forall (fun d => datetime.valid d = true) (eval_dates_of task parquet_files).
Proof.
  unfold eval_dates_of. apply List.Forall_flat_map, List.Forall_forall. intros f _.
  destruct (_ && _); [|constructor].
  destruct (eval_date_of f) as [d|] eqn:E; constructor; [|constructor].
  by apply fromisoformat_valid in E.
Qed.

Lemma eval_dates_of_cons (task f : string) (l : list string) :
  eval_dates_of task (f :: l)
  = (if negb (is_results f) && String.eqb (first_pass_task_name f) task
     then match eval_date_of f with Some d => [d] | None => [] end
     else []) ++ eval_dates_of task l.
Proof. reflexivity. Qed.

Lemma latest_from_app (acc : option datetime.t) (a b : list datetime.t) :
  latest_from acc (a ++ b) = latest_from (latest_from acc a) b.
Proof. apply fold_left_app. Qed.

(** What the registry holds for a task: the largest of its dates. *)
Lemma last_eval_dates_get (parquet_files : list string)
    (last last' : list (string * datetime.t)) (task : string) :
  last_eval_dates last parquet_files = Ok last' ->
  dict.get last' task = latest_from (dict.get last task) (eval_dates_of task parquet_files).
Proof.
  revert last. induction parquet_files as [|f l IH]; intros last.
  - simpl. by intros [= ->].
  - cbn [last_eval_dates]. rewrite eval_dates_of_cons, latest_from_app.
    unfold record_eval_date, eval_date_of.
    destruct (is_results f); cbn [mbind result_bind negb andb]; [apply IH|].
    destruct (datetime.fromisoformat (iso_date_of f)) as [d|]; [|discriminate].
    cbn [mbind result_bind]. intros H. rewrite (IH _ H). f_equal.
    destruct (String.eqb_spec (first_pass_task_name f) task) as [->|Hne].
    + by rewrite dict_get_set_eq.
    + by rewrite dict_get_set_ne.
Qed.

(** The first pass raises exactly when it meets a detail file whose
    directory name is not a date. *)
Lemma last_eval_dates_is_ok (parquet_files : list string) (last : list (string * datetime.t)) :
  is_ok (last_eval_dates last parquet_files) = forallb first_pass_reads parquet_files.
Proof.
  revert last. induction parquet_files as [|f l IH]; intros last; simpl; [reflexivity|].
  unfold record_eval_date, first_pass_reads, eval_date_of.
  destruct (is_results f); simpl; [apply IH|].
  destruct (datetime.fromisoformat (iso_date_of f)); simpl; [apply IH | reflexivity].
Qed.

Lemma forallb_perm {A} (p : A -> bool) (l l' : list A) :
  Permutation l l' -> forallb p l = forallb p l'.
Proof.
  induction 1 as [|x l l' _ IH|x y l|l l' l'' _ IH1 _ IH2]; simpl.
  - reflexivity.
  - by rewrite IH.
  - by rewrite !andb_assoc, (andb_comm (p y)).
  - by rewrite IH1.
Qed.

Lemma filter_perm {A} (p : A -> bool) (l l' : list A) :
  Permutation l l' -> Permutation (List.filter p l) (List.filter p l').
Proof.
  induction 1 as [|x l l' _ IH|x y l|l l' l'' _ IH1 _ IH2]; simpl.
  - reflexivity.
  - destruct (p x); [by apply perm_skip | exact IH].
  - destruct (p x), (p y); try reflexivity. apply perm_swap.
  - by etransitivity.
Qed.

(** *** The registry as a list *)

Lemma dict_keys_set_NoDup {V} (d : list (string * V)) (k : string) (v : V) :
  List.NoDup (dict.keys d) -> List.NoDup (dict.keys (dict.set d k v)).
Proof.
  induction d as [|[k0 v0] d IH]; simpl; intros Hnd.
  - constructor; [intros [] | constructor].
  - inversion_clear Hnd as [|? ? Hk0 Hd].
    destruct (String.eqb_spec k0 k) as [->|Hne]; simpl.
    + by constructor.
    + constructor; [|by apply IH].
      intros Hin. apply dict_keys_set in Hin as [->|Hin]; done.
Qed.

Lemma dict_get_In {V} (d : list (string * V)) (k : string) (v : V) :
  List.NoDup (dict.keys d) -> (In (k, v) d <-> dict.get d k = Some v).
Proof.
  induction d as [|[k0 v0] d IH]; simpl; intros Hnd.
  - split; [intros [] | discriminate].
  - inversion_clear Hnd as [|? ? Hk0 Hd].
    destruct (String.eqb_spec k0 k) as [->|Hne].
    + split.
      * intros [[= ->]|Hin]; [reflexivity|].
        exfalso. apply Hk0. by apply (in_map fst) in Hin.
      * intros [= ->]. by left.
    + rewrite <- (IH Hd). split; [intros [[= ? ?]|?]; done | by right].
Qed.

Lemma dict_perm {V} (d d' : list (string * V)) :
  List.NoDup (dict.keys d) -> List.NoDup (dict.keys d') ->
  (forall k, dict.get d k = dict.get d' k) ->
  Permutation d d'.
Proof.
  intros Hd Hd' Hget. apply Permutation.NoDup_Permutation.
  - unfold dict.keys in Hd. by apply List.NoDup_map_inv in Hd.
  - unfold dict.keys in Hd'. by apply List.NoDup_map_inv in Hd'.
  - intros [k v]. rewrite !dict_get_In by assumption. by rewrite Hget.
Qed.

Lemma last_eval_dates_NoDup (parquet_files : list string)
    (last last' : list (string * datetime.t)) :
  last_eval_dates last parquet_files = Ok last' ->
  List.NoDup (dict.keys last) -> List.NoDup (dict.keys last').
Proof.
  revert last. induction parquet_files as [|f l IH]; intros last; simpl.
  - by intros [= ->].
  - unfold record_eval_date.
    destruct (is_results f); simpl; [apply IH|].
    destruct (datetime.fromisoformat (iso_date_of f)) as [d|]; [|discriminate].
    cbn [mbind result_bind]. intros H Hnd. apply (IH _ H).
    by apply dict_keys_set_NoDup.
Qed.

Lemma dict_values_valid (d : list (string * datetime.t)) :
  (forall k v, dict.get d k = Some v -> datetime.valid v = true) ->
  List.NoDup (dict.keys d) ->
  List.Forall (fun v => datetime.valid v = true) (dict.values d).
Proof.
  intros H Hnd. apply List.Forall_forall. intros v Hv.
  apply in_map_iff in Hv as [[k v'] [<- Hin]].
  apply (H k). by apply dict_get_In.
Qed.

Lemma latest_from_valid (l : list datetime.t) (acc : option datetime.t) (d : datetime.t) :
  (forall a, acc = Some a -> datetime.valid a = true) ->
  List.Forall (fun v => datetime.valid v = true) l ->
  latest_from acc l = Some d -> datetime.valid d = true.
Proof.
  intros Hacc Hl. revert acc Hacc. induction Hl as [|b l Hb _ IH]; intros acc Hacc; simpl.
  - intros ->. by apply Hacc.
  - apply IH. intros a [= <-]. destruct acc; [apply max_valid; auto | done].
Qed.

(** The loop of lines 331-335 is [max] folded over the values. *)
Lemma max_last_eval_date_fold (last : list (string * datetime.t)) :
  max_last_eval_date last
  = match dict.values last with
    | [] => Raise IndexError
    | d0 :: rest => Ok (fold_left datetime.max rest d0)
    end.
Proof.
  unfold max_last_eval_date. destruct (dict.values last) as [|d0 rest]; [reflexivity|].
  simpl. unfold datetime.ltb. rewrite N.ltb_irrefl. reflexivity.
Qed.

Lemma max_last_eval_date_perm (last last' : list (string * datetime.t)) :
  List.Forall (fun v => datetime.valid v = true) (dict.values last) ->
  Permutation last last' ->
  max_last_eval_date last = max_last_eval_date last'.
Proof.
  intros Hv Hp. rewrite !max_last_eval_date_fold.
  apply (Permutation_map snd) in Hp. fold (dict.values last) (dict.values last') in Hp.
  destruct (dict.values last) as [|a l], (dict.values last') as [|a' l'].
  - reflexivity.
  - by apply Permutation_nil in Hp.
  - by apply Permutation_sym, Permutation_nil in Hp.
  - f_equal. by apply fold_max_perm.
Qed.

(** The first pass on a reordered list of files. *)
Lemma last_eval_dates_perm (parquet_files parquet_files' : list string)
    (last last' : list (string * datetime.t)) :
  Permutation parquet_files parquet_files' ->
  last_eval_dates [] parquet_files = Ok last ->
  last_eval_dates [] parquet_files' = Ok last' ->
  (forall task, dict.get last task = dict.get last' task)
  /\ max_last_eval_date last = max_last_eval_date last'.
Proof.
  intros Hp Hl Hl'.
  assert (Hget : forall task, dict.get last task = dict.get last' task).
  { intros task.
    rewrite (last_eval_dates_get _ _ _ task Hl), (last_eval_dates_get _ _ _ task Hl').
    apply latest_date_perm; [apply eval_dates_of_valid|].
    unfold eval_dates_of. by apply Permutation_flat_map. }
  split; [exact Hget|].
  assert (Hnd : List.NoDup (dict.keys last))
    by (apply (last_eval_dates_NoDup _ _ _ Hl); constructor).
  assert (Hnd' : List.NoDup (dict.keys last'))
    by (apply (last_eval_dates_NoDup _ _ _ Hl'); constructor).
  apply max_last_eval_date_perm; [|by apply dict_perm].
  apply dict_values_valid; [|exact Hnd].
  intros k v. rewrite (last_eval_dates_get _ _ _ k Hl).
  apply latest_from_valid; [discriminate | apply eval_dates_of_valid].
Qed.

End first_pass.

(** ** C1: what the order of the listing changes *)

(** C1, amended: the call reads the listing through the number of its
    [.json] files and the list of its [.parquet] files.  A permutation
    of the listing that leaves the parquet files in the same relative
    order gives the same outcome.  Any permutation leaves the first pass
    as it was: it raises or completes alike, and when it completes the
    registry has the same date for every task and the same largest
    date.  (The entries of a config follow the order of the files.) *)
Theorem C1_order_of_the_listing (l l' : list string) :
  Permutation l l' ->
  (parquet_files_of l = parquet_files_of l' ->
   recreate_metadata_card l = recreate_metadata_card l')
  /\ is_ok (last_eval_dates [] (parquet_files_of l))
     = is_ok (last_eval_dates [] (parquet_files_of l'))
  /\ forall last last',
       last_eval_dates [] (parquet_files_of l) = Ok last ->
       last_eval_dates [] (parquet_files_of l') = Ok last' ->
       (forall task, dict.get last task = dict.get last' task)
       /\ max_last_eval_date last = max_last_eval_date last'.
Proof.
  intros Hp. split; [|split].
  - apply recreate_metadata_card_filters.
    by apply Permutation_length, filter_perm.
  - rewrite !last_eval_dates_is_ok. by apply forallb_perm, filter_perm.
  - intros last last'. by apply last_eval_dates_perm, filter_perm.
Qed.

Lemma C1_order_of_the_listing_witness :
  let l := ["a.json"; jan_file; feb_file] in
  let l' := [jan_file; feb_file] ++ ["a.json"] in
  (parquet_files_of l = parquet_files_of l' ->
   recreate_metadata_card l = recreate_metadata_card l')
  /\ is_ok (last_eval_dates [] (parquet_files_of l))
     = is_ok (last_eval_dates [] (parquet_files_of l'))
  /\ forall last last',
       last_eval_dates [] (parquet_files_of l) = Ok last ->
       last_eval_dates [] (parquet_files_of l') = Ok last' ->
       (forall task, dict.get last task = dict.get last' task)
       /\ max_last_eval_date last = max_last_eval_date last'.
Proof. apply C1_order_of_the_listing. apply Permutation_cons_append. Defined.

(** ** The second pass *)

(** *** Adding a path under a split *)

Lemma extend_split_nil (name file : string) :
  extend_split name file [] = [mk_data_file name [file]].
Proof. reflexivity. Qed.

Lemma extend_split_cons (name file : string) (e : data_file) (rest : list data_file) :
  extend_split name file (e :: rest)
  = if String.eqb (split e) name
    then mk_data_file (split e) (path e ++ [file]) :: rest
    else e :: extend_split name file rest.
Proof.
  unfold extend_split. cbn [split_index].
  destruct (String.eqb (split e) name); [reflexivity|].
  destruct (split_index name rest); reflexivity.
Qed.

Lemma extend_split_names (name file : string) (data_files : list data_file) :
  map split (extend_split name file data_files)
  = map split data_files
  \/ (~ In name (map split data_files)
      /\ map split (extend_split name file data_files) = map split data_files ++ [name]).
Proof.
  induction data_files as [|e rest IH].
  - right. split; [intros [] | reflexivity].
  - rewrite extend_split_cons. destruct (String.eqb_spec (split e) name) as [Heq|Hne].
    + by left.
    + cbn [map]. destruct IH as [->|[Hn ->]]; [by left|].
      right. split; [intros [?|?]; done | reflexivity].
Qed.

Lemma extend_split_NoDup (name file : string) (data_files : list data_file) :
  List.NoDup (map split data_files) ->
  List.NoDup (map split (extend_split name file data_files)).
Proof.
  intros Hnd. destruct (extend_split_names name file data_files) as [->|[Hn ->]];
    [exact Hnd|].
  apply List.NoDup_app; [exact Hnd | |].
  - constructor; [intros [] | constructor].
  - intros x Hx [->|[]]. by apply Hn.
Qed.

Lemma has_path_app_l (data_files more : list data_file) (name file : string) :
  has_path data_files name file -> has_path (data_files ++ more) name file.
Proof.
  intros (e & He & Hs & Hf). exists e. split; [|done]. apply in_or_app. by left.
Qed.

Lemma has_path_last (data_files : list data_file) (name file : string) :
  has_path (data_files ++ [mk_data_file name [file]]) name file.
Proof.
  exists (mk_data_file name [file]). split; [|split; [reflexivity | by left]].
  apply in_or_app. right. by left.
Qed.

Lemma extend_split_keeps (name file : string) (data_files : list data_file)
    (name' file' : string) :
  has_path data_files name' file' ->
  has_path (extend_split name file data_files) name' file'.
Proof.
  induction data_files as [|e rest IH]; intros (x & Hx & Hs & Hf); [destruct Hx|].
  rewrite extend_split_cons. destruct Hx as [->|Hx].
  - destruct (String.eqb (split x) name).
    + exists (mk_data_file (split x) (path x ++ [file])).
      split; [by left|]. split; [exact Hs|]. apply in_or_app. by left.
    + exists x. split; [by left | done].
  - assert (Hrest : has_path rest name' file') by (exists x; done).
    destruct (String.eqb (split e) name).
    + exists x. split; [by right | done].
    + destruct (IH Hrest) as (y & Hy & ? & ?). exists y. split; [by right | done].
Qed.

Lemma extend_split_adds (name file : string) (data_files : list data_file) :
  has_path (extend_split name file data_files) name file.
Proof.
  induction data_files as [|e rest IH].
  - exists (mk_data_file name [file]). split; [by left|]. split; [reflexivity | by left].
  - rewrite extend_split_cons. destruct (String.eqb_spec (split e) name) as [Heq|Hne].
    + exists (mk_data_file (split e) (path e ++ [file])).
      split; [by left|]. split; [exact Heq|]. apply in_or_app. right. by left.
    + destruct IH as (y & Hy & ? & ?). exists y. split; [by right | done].
Qed.

(** *** Split names stay distinct in single-result mode *)

Lemma distinct_splits_insert (configs : card) (config_name : string)
    (data_files : list data_file) :
  distinct_splits configs -> List.NoDup (map split data_files) ->
  distinct_splits (<[config_name := data_files]> configs).
Proof.
  intros Hc Hd k es. destruct (decide (config_name = k)) as [->|Hne].
  - rewrite lookup_insert_eq. by intros [= <-].
  - rewrite lookup_insert_ne by done. apply Hc.
Qed.

Lemma merge_special_distinct (fi : file_info) (st : build_state) (special_task : string) :
  distinct_splits (card_metadata st) ->
  distinct_splits (card_metadata (merge_special fi st special_task)).
Proof.
  intros Hst. unfold merge_special.
  destruct (str.contains _ _); [|exact Hst].
  set (key := special_config_name special_task (task_name fi)).
  assert (H1 : exists es1,
             (match card_metadata st !! key with
              | None =>
                  mk_build_state
                    (<[key := [mk_data_file (sanitized_eval_date fi) [repo_file_name fi]]]>
                       (card_metadata st)) (former_entry_bound st)
              | Some former_entry =>
                  mk_build_state
                    (<[key := extend_split (sanitized_eval_date fi) (repo_file_name fi)
                                former_entry]> (card_metadata st)) true
              end) = mk_build_state (<[key := es1]> (card_metadata st))
                       (match card_metadata st !! key with
                        | None => former_entry_bound st | Some _ => true end)
             /\ List.NoDup (map split es1)).
  { destruct (card_metadata st !! key) as [fe|] eqn:E.
    - eexists. split; [reflexivity|]. apply extend_split_NoDup. by apply (Hst key).
    - eexists. split; [reflexivity|]. constructor; [intros [] | constructor]. }
  destruct H1 as (es1 & -> & Hes1). cbn [card_metadata].
  destruct (String.eqb _ _).
  - rewrite lookup_insert_eq. cbn [card_metadata]. rewrite insert_insert_eq.
    apply distinct_splits_insert; [exact Hst|]. by apply extend_split_NoDup.
  - cbn [card_metadata]. by apply distinct_splits_insert.
Qed.

Lemma merge_specials_distinct (fi : file_info) (specials : list string) (st : build_state) :
  distinct_splits (card_metadata st) ->
  distinct_splits (card_metadata (fold_left (merge_special fi) specials st)).
Proof.
  revert st. induction specials as [|sp l IH]; intros st Hst; [exact Hst|].
  simpl. by apply IH, merge_special_distinct.
Qed.

Lemma sub_chars_length keep r (s : string) :
  String.length (re.sub_chars keep r s) = String.length s.
Proof. induction s as [|x s IH]; simpl; [reflexivity | by rewrite IH]. Qed.

Lemma isoformat_length (d : datetime.t) : 19 <= String.length (datetime.isoformat d).
Proof.
  unfold datetime.isoformat. rewrite !string_length_app, !length_pad. simpl. lia.
Qed.

Lemma sub_isoformat_not_latest (d : datetime.t) :
  re.sub_not_w_dot (datetime.isoformat d) <> "latest".
Proof.
  intros H. apply (f_equal String.length) in H.
  unfold re.sub_not_w_dot in H. rewrite sub_chars_length in H.
  pose proof (isoformat_length d). simpl in H. lia.
Qed.

(** The date a file is compared with on line 378 is a sanitized ISO
    date, whatever the file. *)
Lemma read_file_info_last (last : list (string * datetime.t)) (max_last : datetime.t)
    (sub_file : string) (fi : file_info) :
  read_file_info (iso_dates last) (datetime.isoformat max_last) sub_file = Ok fi ->
  exists d, sanitized_last_eval_date_results fi = re.sub_not_w_dot (datetime.isoformat d).
Proof.
  unfold read_file_info. destruct (is_results sub_file).
  - intros [= <-]. by exists max_last.
  - rewrite dict_get_iso_dates.
    destruct (dict.get last _) as [d|]; [|discriminate].
    intros [= <-]. by exists d.
Qed.

Lemma add_file_single_distinct (last : list (string * datetime.t)) (max_last : datetime.t)
    (st st' : build_state) (sub_file : string) :
  add_file false (iso_dates last) (datetime.isoformat max_last) st sub_file = Ok st' ->
  distinct_splits (card_metadata st) -> distinct_splits (card_metadata st').
Proof.
  unfold add_file. intros H Hst.
  destruct (read_file_info _ _ sub_file) as [fi|] eqn:Hfi; [|discriminate].
  cbn [mbind result_bind] in H.
  destruct (read_file_info_last _ _ _ _ Hfi) as [d Hd].
  unfold add_entry in H.
  destruct (card_metadata st !! sanitized_task fi) eqn:Hk; [discriminate|].
  cbn [mbind result_bind] in H.
  assert (H2 : distinct_splits
                 (card_metadata
                    (add_latest fi
                       (mk_build_state
                          (<[sanitized_task fi :=
                               [mk_data_file (sanitized_eval_date fi) [repo_file_name fi]]]>
                             (card_metadata st)) (former_entry_bound st))))).
  { unfold add_latest. cbn [card_metadata]. rewrite lookup_insert_eq.
    destruct (String.eqb_spec (sanitized_eval_date fi)
                (sanitized_last_eval_date_results fi)) as [Heq|Hne]; cbn [card_metadata].
    - rewrite insert_insert_eq. apply distinct_splits_insert; [exact Hst|].
      simpl. constructor; [|constructor; [intros [] | constructor]].
      intros [Hl|[]]. rewrite Heq, Hd in Hl. symmetry in Hl.
      by apply sub_isoformat_not_latest in Hl.
    - apply distinct_splits_insert; [exact Hst|].
      simpl. constructor; [intros [] | constructor]. }
  destruct (is_results sub_file); injection H as <-; [exact H2|].
  exact (merge_specials_distinct fi SPECIAL_TASKS _ H2).
Qed.

Lemma add_files_single_distinct (last : list (string * datetime.t)) (max_last : datetime.t)
    (parquet_files : list string) (st st' : build_state) :
  add_files false (iso_dates last) (datetime.isoformat max_last) st parquet_files = Ok st' ->
  distinct_splits (card_metadata st) -> distinct_splits (card_metadata st').
Proof.
  revert st. induction parquet_files as [|f l IH]; intros st; simpl.
  - by intros [= ->].
  - destruct (add_file _ _ _ st f) as [st1|] eqn:E; [|discriminate].
    cbn [mbind result_bind]. intros H Hst. apply (IH _ H).
    by apply (add_file_single_distinct _ _ _ _ _ E).
Qed.

(** The outcome of the call, taken apart. *)
Lemma configs_of_Ok (multiple_results : bool) (parquet_files : list string)
    (configs : card) :
  configs_of multiple_results parquet_files = Ok configs ->
  exists last max_last st,
    last_eval_dates [] parquet_files = Ok last
    /\ max_last_eval_date last = Ok max_last
    /\ add_files multiple_results (iso_dates last) (datetime.isoformat max_last)
         (mk_build_state ∅ false) parquet_files = Ok st
    /\ configs = card_metadata st.
Proof.
  unfold configs_of.
  destruct (last_eval_dates [] parquet_files) as [last|]; [|discriminate].
  cbn [mbind result_bind].
  destruct (max_last_eval_date last) as [max_last|] eqn:Em; [|discriminate].
  cbn [mbind result_bind].
  destruct (add_files _ _ _ _ _) as [st|] eqn:E; [|discriminate].
  cbn [mbind result_bind]. intros [= <-]. exists last, max_last, st.
  repeat split; [exact Em | exact E].
Qed.

(** *** Paths are never taken away *)

Lemma config_has_path_insert (configs : card) (k0 : string) (es1 : list data_file)
    (k n f : string) :
  (forall es0, configs !! k0 = Some es0 -> has_path es0 n f -> has_path es1 n f) ->
  config_has_path configs k n f ->
  config_has_path (<[k0 := es1]> configs) k n f.
Proof.
  intros Hmono (es & Hes & Hp). destruct (decide (k0 = k)) as [->|Hne].
  - exists es1. rewrite lookup_insert_eq. split; [reflexivity|]. by apply (Hmono es).
  - exists es. by rewrite lookup_insert_ne.
Qed.

Lemma config_has_path_insert_eq (configs : card) (k : string) (es : list data_file)
    (n f : string) :
  has_path es n f -> config_has_path (<[k := es]> configs) k n f.
Proof. intros Hp. exists es. by rewrite lookup_insert_eq. Qed.

Lemma add_entry_keeps (multiple_results : bool) (fi : file_info) (st st' : build_state)
    (k n f : string) :
  add_entry multiple_results fi st = Ok st' ->
  config_has_path (card_metadata st) k n f -> config_has_path (card_metadata st') k n f.
Proof.
  unfold add_entry. intros H Hp.
  destruct multiple_results, (card_metadata st !! sanitized_task fi) as [fe|] eqn:E;
    try discriminate; injection H as <-; cbn [card_metadata];
    (apply config_has_path_insert; [|exact Hp]); intros es0 Hes0; try congruence.
  assert (es0 = fe) as -> by congruence. apply has_path_app_l.
Qed.

Lemma add_entry_adds (multiple_results : bool) (fi : file_info) (st st' : build_state) :
  add_entry multiple_results fi st = Ok st' ->
  config_has_path (card_metadata st') (sanitized_task fi) (sanitized_eval_date fi)
    (repo_file_name fi).
Proof.
  unfold add_entry. intros H.
  destruct multiple_results, (card_metadata st !! sanitized_task fi) as [fe|] eqn:E;
    try discriminate; injection H as <-; cbn [card_metadata];
    apply config_has_path_insert_eq.
  - apply has_path_last.
  - apply (has_path_last []).
  - apply (has_path_last []).
Qed.

Lemma add_latest_keeps (fi : file_info) (st : build_state) (k n f : string) :
  config_has_path (card_metadata st) k n f ->
  config_has_path (card_metadata (add_latest fi st)) k n f.
Proof.
  unfold add_latest. intros Hp.
  destruct (String.eqb _ _); [|exact Hp].
  destruct (card_metadata st !! sanitized_task fi) as [es|] eqn:E; [|exact Hp].
  cbn [card_metadata]. apply config_has_path_insert; [|exact Hp].
  intros es0 Hes0. assert (es0 = es) as -> by congruence. apply has_path_app_l.
Qed.

Lemma add_latest_adds (fi : file_info) (st : build_state) (n f : string) :
  sanitized_eval_date fi = sanitized_last_eval_date_results fi ->
  config_has_path (card_metadata st) (sanitized_task fi) n f ->
  config_has_path (card_metadata (add_latest fi st)) (sanitized_task fi) "latest"
    (repo_file_name fi).
Proof.
  unfold add_latest. intros Heq (es & Hes & _).
  apply String.eqb_eq in Heq. rewrite Heq, Hes. cbn [card_metadata].
  apply config_has_path_insert_eq, has_path_last.
Qed.

Lemma merge_special_keeps (fi : file_info) (st : build_state) (special_task : string)
    (k n f : string) :
  config_has_path (card_metadata st) k n f ->
  config_has_path (card_metadata (merge_special fi st special_task)) k n f.
Proof.
  intros Hp. unfold merge_special.
  destruct (str.contains _ _); [|exact Hp].
  set (key := special_config_name special_task (task_name fi)).
  match goal with
  | |- context [if _ then match card_metadata ?s !! key with _ => _ end else _] =>
      assert (H1 : config_has_path (card_metadata s) k n f); [|set (st1 := s) in *]
  end.
  { destruct (card_metadata st !! key) as [fe|] eqn:E; cbn [card_metadata];
      (apply config_has_path_insert; [|exact Hp]); intros es0 Hes0; [|congruence].
    assert (es0 = fe) as -> by congruence. apply extend_split_keeps. }
  clearbody st1. destruct (String.eqb _ _); [|exact H1].
  destruct (card_metadata st1 !! key) as [fe|] eqn:E; [|exact H1].
  cbn [card_metadata]. apply config_has_path_insert; [|exact H1].
  intros es0 Hes0. assert (es0 = fe) as -> by congruence. apply extend_split_keeps.
Qed.

Lemma merge_specials_keeps (fi : file_info) (specials : list string) (st : build_state)
    (k n f : string) :
  config_has_path (card_metadata st) k n f ->
  config_has_path (card_metadata (fold_left (merge_special fi) specials st)) k n f.
Proof.
  revert st. induction specials as [|sp l IH]; intros st Hp; [exact Hp|].
  simpl. by apply IH, merge_special_keeps.
Qed.

Lemma add_file_keeps (multiple_results : bool) (last : list (string * string))
    (max_last : string) (st st' : build_state) (sub_file : string) (k n f : string) :
  add_file multiple_results last max_last st sub_file = Ok st' ->
  config_has_path (card_metadata st) k n f -> config_has_path (card_metadata st') k n f.
Proof.
  unfold add_file. intros H Hp.
  destruct (read_file_info _ _ sub_file) as [fi|]; [|discriminate].
  cbn [mbind result_bind] in H.
  destruct (add_entry multiple_results fi st) as [st1|] eqn:E1; [|discriminate].
  cbn [mbind result_bind] in H.
  pose proof (add_latest_keeps fi st1 k n f (add_entry_keeps _ _ _ _ k n f E1 Hp)) as H2.
  destruct (is_results sub_file); injection H as <-; [exact H2|].
  exact (merge_specials_keeps fi SPECIAL_TASKS _ k n f H2).
Qed.

Lemma add_files_keeps (multiple_results : bool) (last : list (string * string))
    (max_last : string) (parquet_files : list string) (st st' : build_state)
    (k n f : string) :
  add_files multiple_results last max_last st parquet_files = Ok st' ->
  config_has_path (card_metadata st) k n f -> config_has_path (card_metadata st') k n f.
Proof.
  revert st. induction parquet_files as [|g l IH]; intros st; simpl.
  - by intros [= ->].
  - destruct (add_file _ _ _ st g) as [st1|] eqn:E; [|discriminate].
    cbn [mbind result_bind]. intros H Hp. apply (IH _ H).
    by apply (add_file_keeps _ _ _ _ _ _ _ _ _ E).
Qed.

(** *** What the turn of a detail file leaves in the config of its task *)

Lemma add_file_adds (multiple_results : bool) (last : list (string * string))
    (max_last : string) (st st' : build_state) (sub_file : string) :
  is_results sub_file = false ->
  add_file multiple_results last max_last st sub_file = Ok st' ->
  exists last_date,
    dict.get last (second_pass_task_name sub_file) = Some last_date
    /\ config_has_path (card_metadata st') (detail_sanitized_task sub_file)
         (detail_sanitized_eval_date sub_file) (detail_repo_file_name sub_file)
    /\ (detail_sanitized_eval_date sub_file = re.sub_not_w_dot last_date ->
        config_has_path (card_metadata st') (detail_sanitized_task sub_file)
          "latest" (detail_repo_file_name sub_file)).
Proof.
  unfold add_file, read_file_info. intros Hr H. rewrite Hr in H.
  destruct (dict.get last (second_pass_task_name sub_file)) as [last_date|];
    [|discriminate].
  exists last_date. split; [reflexivity|].
  cbn [mbind result_bind] in H.
  set (fi := mk_file_info _ _ _ _ _) in H.
  destruct (add_entry multiple_results fi st) as [st1|] eqn:E1; [|discriminate].
  cbn [mbind result_bind] in H. injection H as <-.
  pose proof (add_entry_adds _ _ _ _ E1) as Hd.
  split.
  - apply (merge_specials_keeps fi SPECIAL_TASKS). by apply add_latest_keeps.
  - intros Heq. apply (merge_specials_keeps fi SPECIAL_TASKS).
    by apply (add_latest_adds fi st1 _ _ Heq Hd).
Qed.

Lemma add_files_adds (multiple_results : bool) (last : list (string * string))
    (max_last : string) (parquet_files : list string) (st st' : build_state)
    (sub_file : string) :
  In sub_file parquet_files -> is_results sub_file = false ->
  add_files multiple_results last max_last st parquet_files = Ok st' ->
  exists last_date,
    dict.get last (second_pass_task_name sub_file) = Some last_date
    /\ config_has_path (card_metadata st') (detail_sanitized_task sub_file)
         (detail_sanitized_eval_date sub_file) (detail_repo_file_name sub_file)
    /\ (detail_sanitized_eval_date sub_file = re.sub_not_w_dot last_date ->
        config_has_path (card_metadata st') (detail_sanitized_task sub_file)
          "latest" (detail_repo_file_name sub_file)).
Proof.
  intros Hin Hr. revert st. induction parquet_files as [|g l IH]; [destruct Hin|].
  intros st. simpl.
  destruct (add_file _ _ _ st g) as [st1|] eqn:E; [|discriminate].
  cbn [mbind result_bind]. intros H.
  destruct Hin as [->|Hin]; [|by apply (IH Hin st1)].
  destruct (add_file_adds _ _ _ _ _ _ Hr E) as (last_date & Hl & Hd & Hlatest).
  exists last_date. split; [exact Hl|]. split.
  - by apply (add_files_keeps _ _ _ _ _ _ _ _ _ H).
  - intros Heq. by apply (add_files_keeps _ _ _ _ _ _ _ _ _ H), Hlatest.
Qed.

(** *** The config of a task that is not a merged config *)

Lemma entries_at_insert_eq (configs : card) (k : string) (es : list data_file) :
  entries_at (<[k := es]> configs) k = es.
Proof. unfold entries_at. by rewrite lookup_insert_eq. Qed.

Lemma entries_at_insert_ne (configs : card) (k c : string) (es : list data_file) :
  k <> c -> entries_at (<[k := es]> configs) c = entries_at configs c.
Proof. intros Hne. unfold entries_at. by rewrite lookup_insert_ne. Qed.

Lemma add_entry_at (multiple_results : bool) (fi : file_info) (st st' : build_state)
    (c : string) :
  add_entry multiple_results fi st = Ok st' ->
  is_Some (card_metadata st' !! sanitized_task fi)
  /\ entries_at (card_metadata st') c
     = entries_at (card_metadata st) c
       ++ (if String.eqb (sanitized_task fi) c
           then [mk_data_file (sanitized_eval_date fi) [repo_file_name fi]]
           else []).
Proof.
  unfold add_entry. intros H.
  destruct multiple_results, (card_metadata st !! sanitized_task fi) as [fe|] eqn:E;
    try discriminate; injection H as <-; cbn [card_metadata];
    (split; [rewrite lookup_insert_eq; by eexists|]);
    (destruct (String.eqb_spec (sanitized_task fi) c) as [<-|Hne];
     [rewrite entries_at_insert_eq; unfold entries_at; rewrite E; reflexivity
     |rewrite entries_at_insert_ne by done; by rewrite app_nil_r]).
Qed.

Lemma add_latest_at (fi : file_info) (st : build_state) (c : string) :
  is_Some (card_metadata st !! sanitized_task fi) ->
  entries_at (card_metadata (add_latest fi st)) c
  = entries_at (card_metadata st) c
    ++ (if String.eqb (sanitized_task fi) c
           && String.eqb (sanitized_eval_date fi) (sanitized_last_eval_date_results fi)
        then [mk_data_file "latest" [repo_file_name fi]]
        else []).
Proof.
  intros [es Hes]. unfold add_latest. rewrite Hes.
  destruct (String.eqb (sanitized_eval_date fi) (sanitized_last_eval_date_results fi));
    [|by rewrite andb_false_r, app_nil_r].
  cbn [card_metadata]. rewrite andb_true_r.
  destruct (String.eqb_spec (sanitized_task fi) c) as [<-|Hne].
  - rewrite entries_at_insert_eq. unfold entries_at. by rewrite Hes.
  - rewrite entries_at_insert_ne by done. by rewrite app_nil_r.
Qed.

Lemma merge_special_at (fi : file_info) (st : build_state) (special_task c : string) :
  (str.contains (re.sub_W special_task) (sanitized_task fi) = true ->
   special_config_name special_task (task_name fi) <> c) ->
  entries_at (card_metadata (merge_special fi st special_task)) c
  = entries_at (card_metadata st) c.
Proof.
  intros Hne. unfold merge_special.
  destruct (str.contains _ _); [specialize (Hne eq_refl) | reflexivity].
  set (key := special_config_name special_task (task_name fi)) in *.
  match goal with
  | |- context [if _ then match card_metadata ?s !! key with _ => _ end else _] =>
      assert (H1 : entries_at (card_metadata s) c = entries_at (card_metadata st) c);
      [|set (st1 := s) in *]
  end.
  { destruct (card_metadata st !! key); cbn [card_metadata];
      by rewrite entries_at_insert_ne. }
  clearbody st1. destruct (String.eqb _ _); [|exact H1].
  destruct (card_metadata st1 !! key); [|exact H1].
  cbn [card_metadata]. by rewrite entries_at_insert_ne.
Qed.

Lemma merge_specials_at (fi : file_info) (specials : list string) (st : build_state)
    (c : string) :
  (forall special_task, In special_task specials ->
     str.contains (re.sub_W special_task) (sanitized_task fi) = true ->
     special_config_name special_task (task_name fi) <> c) ->
  entries_at (card_metadata (fold_left (merge_special fi) specials st)) c
  = entries_at (card_metadata st) c.
Proof.
  revert st. induction specials as [|sp l IH]; intros st Hne; [reflexivity|].
  simpl. rewrite IH by (intros sp' Hsp'; apply Hne; by right).
  apply merge_special_at, Hne. by left.
Qed.

Lemma not_special_config_names (sub_file c : string) :
  ~ In c (special_config_names sub_file) ->
  forall special_task, In special_task SPECIAL_TASKS ->
    str.contains (re.sub_W special_task) (detail_sanitized_task sub_file) = true ->
    special_config_name special_task (second_pass_task_name sub_file) <> c.
Proof.
  intros Hn sp Hsp Hc Heq. apply Hn. unfold special_config_names.
  apply in_flat_map. exists sp. split; [exact Hsp|]. rewrite Hc. by left.
Qed.

(** One turn of the second pass, seen from a config that is neither
    ["results"] nor a merged config of the file. *)
Lemma add_file_at (multiple_results : bool) (last : list (string * string))
    (max_last : string) (st st' : build_state) (sub_file c : string) :
  add_file multiple_results last max_last st sub_file = Ok st' ->
  c <> "results" ->
  (is_results sub_file = false -> ~ In c (special_config_names sub_file)) ->
  entries_at (card_metadata st') c
  = entries_at (card_metadata st) c
    ++ (if negb (is_results sub_file) && String.eqb (detail_sanitized_task sub_file) c
        then detail_entries last sub_file
        else []).
Proof.
  unfold add_file, read_file_info, detail_entries. intros H Hc Hsp.
  destruct (is_results sub_file) eqn:Hr.
  - cbn [mbind result_bind negb andb] in *.
    set (fi := mk_file_info _ _ _ _ _) in H.
    destruct (add_entry multiple_results fi st) as [st1|] eqn:E1; [|discriminate].
    cbn [mbind result_bind] in H. injection H as <-.
    destruct (add_entry_at _ _ _ _ c E1) as [Hsome Hat].
    rewrite (add_latest_at fi st1 c Hsome), Hat.
    assert (String.eqb (sanitized_task fi) c = false) as ->
        by (apply String.eqb_neq; intros Heq; apply Hc; by rewrite <- Heq).
    by rewrite !app_nil_r.
  - specialize (Hsp eq_refl).
    destruct (dict.get last (second_pass_task_name sub_file)) as [last_date|];
      [|discriminate].
    cbn [mbind result_bind negb andb] in *.
    set (fi := mk_file_info _ _ _ _ _) in H.
    destruct (add_entry multiple_results fi st) as [st1|] eqn:E1; [|discriminate].
    cbn [mbind result_bind] in H.
    assert (st' = fold_left (merge_special fi) SPECIAL_TASKS (add_latest fi st1)) as ->
        by congruence.
    destruct (add_entry_at _ _ _ _ c E1) as [Hsome Hat].
    rewrite (merge_specials_at fi SPECIAL_TASKS)
      by (apply not_special_config_names, Hsp).
    rewrite (add_latest_at fi st1 c Hsome), Hat. cbn [sanitized_task fi].
    subst fi. cbn [sanitized_task sanitized_eval_date sanitized_last_eval_date_results
                   repo_file_name].
    destruct (String.eqb (detail_sanitized_task sub_file) c); cbn [andb].
    + rewrite <- app_assoc. reflexivity.
    + by rewrite !app_nil_r.
Qed.

Lemma add_files_at (multiple_results : bool) (last : list (string * string))
    (max_last : string) (parquet_files : list string) (st st' : build_state)
    (c : string) :
  add_files multiple_results last max_last st parquet_files = Ok st' ->
  c <> "results" ->
  ~ is_special_config parquet_files c ->
  entries_at (card_metadata st') c
  = entries_at (card_metadata st) c ++ task_config_entries last c parquet_files.
Proof.
  revert st. induction parquet_files as [|f l IH]; intros st; simpl.
  - intros [= ->] _ _. by rewrite app_nil_r.
  - destruct (add_file _ _ _ st f) as [st1|] eqn:E; [|discriminate].
    cbn [mbind result_bind]. intros H Hc Hsp.
    rewrite (IH _ H Hc).
    + rewrite (add_file_at _ _ _ _ _ _ _ E Hc).
      * by rewrite <- app_assoc.
      * intros Hr Hin. apply Hsp. exists f. split; [by left | done].
    + intros (g & Hg & Hr & Hin). apply Hsp. exists g. split; [by right | done].
Qed.

Lemma sub_not_w_dot_date_id (s : string) :
  re.sub_not_w_dot (str.replace ":" "-" s) = re.sub_not_w_dot s.
Proof.
  rewrite replace_char_sub_chars. unfold re.sub_not_w_dot.
  induction s as [|x s IH]; simpl; [reflexivity|]. rewrite IH. f_equal.
  destruct (Ascii.eqb_spec x ":") as [->|Hne]; reflexivity.
Qed.

(** ** C2: the ["latest"] split of a task *)

(** C2, amended: when the call completes, the config of the task of
    every detail file of the listing has a split named with the
    sanitized directory name of the file whose path list holds the
    pattern of the file; and it has a split named ["latest"] whose path
    list holds that pattern whenever the sanitized directory name is the
    sanitized ISO form of the largest date registered for the task -
    which is so when the directory name is the token [save] writes for
    that date.  When the config is not ["results"] and not the merged
    config of a family, its entries are exactly, in the order of the
    files, the dated entry of each of its detail files, followed, for a
    file with the largest date of its task, by a ["latest"] entry with
    the same path list. *)
Theorem C2_latest_of_a_task (files_in_repo : list string) (sub_file : string) :
  is_ok (recreate_metadata_card files_in_repo) = true ->
  In sub_file (parquet_files_of files_in_repo) ->
  is_results sub_file = false ->
  exists (data_files : list data_file) (last_date : datetime.t),
    data_files_of (recreate_metadata_card files_in_repo) (detail_sanitized_task sub_file)
    = Some data_files
    /\ latest_date (eval_dates_of (second_pass_task_name sub_file)
                      (parquet_files_of files_in_repo)) = Some last_date
    /\ has_path data_files (detail_sanitized_eval_date sub_file)
         (detail_repo_file_name sub_file)
    /\ (detail_sanitized_eval_date sub_file
        = re.sub_not_w_dot (datetime.isoformat last_date) ->
        has_path data_files "latest" (detail_repo_file_name sub_file))
    /\ (os_path.dirname sub_file = date_id last_date ->
        has_path data_files "latest" (detail_repo_file_name sub_file))
    /\ (detail_sanitized_task sub_file <> "results" ->
        ~ is_special_config (parquet_files_of files_in_repo)
            (detail_sanitized_task sub_file) ->
        exists last,
          last_eval_dates [] (parquet_files_of files_in_repo) = Ok last
          /\ data_files
             = task_config_entries (iso_dates last) (detail_sanitized_task sub_file)
                 (parquet_files_of files_in_repo)).
Proof.
  unfold recreate_metadata_card. intros Hok Hin Hr.
  destruct (configs_of _ _) as [configs|] eqn:E; [clear Hok | discriminate Hok].
  apply configs_of_Ok in E as (last & max_last & st & Hl & _ & Hst & ->).
  destruct (add_files_adds _ _ _ _ _ _ _ Hin Hr Hst) as (iso & Hget & Hd & Hlatest).
  rewrite dict_get_iso_dates in Hget.
  destruct (dict.get last (second_pass_task_name sub_file)) as [last_date|] eqn:Hreg;
    [|discriminate Hget].
  injection Hget as <-.
  rewrite (last_eval_dates_get _ _ _ _ Hl) in Hreg.
  destruct Hd as (data_files & Hk & Hp).
  assert (Hl' : detail_sanitized_eval_date sub_file
                = re.sub_not_w_dot (datetime.isoformat last_date) ->
                has_path data_files "latest" (detail_repo_file_name sub_file)).
  { intros Heq. destruct (Hlatest Heq) as (es & Hes & Hpl). congruence. }
  exists data_files, last_date. cbn [data_files_of].
  split; [exact Hk|]. split; [exact Hreg|]. split; [exact Hp|]. split; [exact Hl'|].
  split.
  - intros Hdir. apply Hl'. unfold detail_sanitized_eval_date. rewrite Hdir.
    apply sub_not_w_dot_date_id.
  - intros Hres Hsp. exists last. split; [exact Hl|].
    pose proof (add_files_at _ _ _ _ _ _ _ Hst Hres Hsp) as Hat.
    unfold entries_at in Hat. cbn [card_metadata] in Hat.
    rewrite Hk, lookup_empty in Hat. exact Hat.
Qed.

Lemma C2_latest_of_a_task_witness :
  let files_in_repo := ["a.json"; "b.json"; jan_file; feb_file] in
  exists (data_files : list data_file) (last_date : datetime.t),
    data_files_of (recreate_metadata_card files_in_repo) (detail_sanitized_task feb_file)
    = Some data_files
    /\ latest_date (eval_dates_of (second_pass_task_name feb_file)
                      (parquet_files_of files_in_repo)) = Some last_date
    /\ has_path data_files (detail_sanitized_eval_date feb_file)
         (detail_repo_file_name feb_file)
    /\ (detail_sanitized_eval_date feb_file
        = re.sub_not_w_dot (datetime.isoformat last_date) ->
        has_path data_files "latest" (detail_repo_file_name feb_file))
    /\ (os_path.dirname feb_file = date_id last_date ->
        has_path data_files "latest" (detail_repo_file_name feb_file))
    /\ (detail_sanitized_task feb_file <> "results" ->
        ~ is_special_config (parquet_files_of files_in_repo)
            (detail_sanitized_task feb_file) ->
        exists last,
          last_eval_dates [] (parquet_files_of files_in_repo) = Ok last
          /\ data_files
             = task_config_entries (iso_dates last) (detail_sanitized_task feb_file)
                 (parquet_files_of files_in_repo)).
Proof.
  apply (C2_latest_of_a_task ["a.json"; "b.json"; jan_file; feb_file] feb_file).
  - vm_compute. reflexivity.
  - vm_compute. right. left. reflexivity.
  - vm_compute. reflexivity.
Defined.

(** * Properties of the other functions *)

(** ** More on strings *)

Lemma prefix_nil_l (s : string) : String.prefix "" s = true.
Proof. by destruct s. Qed.

Lemma prefix_cons (x y : ascii) (p s : string) :
  String.prefix (String x p) (String y s) = Ascii.eqb x y && String.prefix p s.
Proof.
  simpl. destruct (ascii_dec x y) as [->|Hne].
  - by rewrite Ascii.eqb_refl.
  - apply Ascii.eqb_neq in Hne. by rewrite Hne.
Qed.

Lemma prefix_cons_nil (x : ascii) (p : string) : String.prefix (String x p) "" = false.
Proof. reflexivity. Qed.

(** A prefix of [s] has no more of a character than [s]. *)
Lemma prefix_count (c : ascii) (p s : string) :
  String.prefix p s = true -> (str.count c p <= str.count c s)%nat.
Proof.
  revert s. induction p as [|x p IH]; intros s H; simpl; [lia|].
  destruct s as [|y s]; [discriminate|].
  rewrite prefix_cons in H. apply andb_true_iff in H as [Hxy Hp].
  apply Ascii.eqb_eq in Hxy as <-. specialize (IH _ Hp). simpl. lia.
Qed.

Lemma prefix_app_l (p r s : string) :
  String.prefix (p +:+ r) s = true -> String.prefix p s = true.
Proof.
  revert s. induction p as [|x p IH]; intros s H; [apply prefix_nil_l|].
  destruct s as [|y s]; [discriminate|].
  change (String x p +:+ r) with (String x (p +:+ r)) in H.
  rewrite prefix_cons in *. apply andb_true_iff in H as [-> Hp]. simpl. by apply IH.
Qed.

Lemma contains_nil (pat : string) : pat <> "" -> str.contains pat "" = false.
Proof. by destruct pat. Qed.

Lemma contains_cons (pat : string) (x : ascii) (s : string) :
  str.contains pat (String x s) = String.prefix pat (String x s) || str.contains pat s.
Proof. reflexivity. Qed.

(** A pattern that holds a character [s] has not is not in [s]. *)
Lemma contains_no_char (c : ascii) (pat s : string) :
  (0 < str.count c pat)%nat -> str.count c s = 0%nat -> str.contains pat s = false.
Proof.
  intros Hp. induction s as [|x s IH]; intros Hs.
  - apply contains_nil. intros ->. simpl in Hp. lia.
  - simpl in Hs. rewrite contains_cons, IH by lia.
    destruct (String.prefix pat (String x s)) eqn:E; [|reflexivity].
    apply (prefix_count c) in E. simpl in E. lia.
Qed.

(** A longer pattern is found only where its beginning is found. *)
Lemma contains_app_l (p r s : string) :
  str.contains (p +:+ r) s = true -> str.contains p s = true.
Proof.
  induction s as [|x s IH]; cbn [str.contains]; intros H.
  - rewrite orb_false_r in *. by apply prefix_app_l in H.
  - apply orb_true_iff in H as [H|H].
    + apply prefix_app_l in H. by rewrite H.
    + rewrite (IH H). apply orb_true_r.
Qed.

(** *** A pattern whose last character the tail has not *)

Lemma prefix_app_no_last (l : ascii) (q s b : string) :
  str.count l b = 0%nat ->
  String.prefix (q +:+ String l "") (s +:+ b) = String.prefix (q +:+ String l "") s.
Proof.
  intros Hb. revert q. induction s as [|y s IH]; intros q.
  - cbn [String.append]. destruct (String.prefix _ b) eqn:E.
    + apply (prefix_count l) in E. rewrite count_app in E. simpl in E.
      rewrite Ascii.eqb_refl in E. lia.
    + by destruct q.
  - destruct q as [|x q]; cbn [String.append]; rewrite !prefix_cons.
    + f_equal. destruct s; cbn [String.append]; [|apply prefix_nil_l].
      apply prefix_nil_l.
    + f_equal. apply (IH q).
Qed.

Lemma contains_app_no_last (l : ascii) (q a b : string) :
  str.count l b = 0%nat ->
  str.contains (q +:+ String l "") (a +:+ b) = str.contains (q +:+ String l "") a.
Proof.
  intros Hb. induction a as [|x a IH].
  - cbn [String.append]. rewrite contains_nil by (by destruct q).
    apply (contains_no_char l); [|exact Hb].
    rewrite count_app. simpl. rewrite Ascii.eqb_refl. lia.
  - change (String x a +:+ b) with (String x (a +:+ b)).
    rewrite !contains_cons, IH. f_equal.
    apply (prefix_app_no_last l q (String x a) b Hb).
Qed.

(** *** A pattern whose first character comes once in it *)

Lemma prefix_app_no_first (h : ascii) (q s b : string) :
  str.count h q = 0%nat ->
  String.prefix q (s +:+ String h b) = true -> String.prefix q s = true.
Proof.
  intros Hq. revert q Hq. induction s as [|y s IH]; intros q Hq H.
  - destruct q as [|x q]; [reflexivity|].
    cbn [String.append] in H. rewrite prefix_cons in H.
    apply andb_true_iff in H as [Hx _]. apply Ascii.eqb_eq in Hx as ->.
    simpl in Hq. rewrite Ascii.eqb_refl in Hq. lia.
  - destruct q as [|x q]; [reflexivity|].
    change (String y s +:+ String h b) with (String y (s +:+ String h b)) in H.
    rewrite prefix_cons in *. apply andb_true_iff in H as [-> H]. simpl.
    apply IH; [|exact H]. simpl in Hq. destruct (Ascii.eqb x h); simpl in Hq; lia.
Qed.

(** Cutting at a separator that begins the tail: nothing of the head is
    lost when the head has not the separator. *)
Lemma split_head_app (h : ascii) (q a b : string) :
  str.count h q = 0%nat ->
  str.contains (String h q) a = false ->
  String.prefix (String h q) (String h b) = true ->
  str.split_head (String h q) (a +:+ String h b) = a.
Proof.
  intros Hq Ha Hb. induction a as [|x a IH].
  - cbn [String.append str.split_head]. by rewrite Hb.
  - change (String x a +:+ String h b) with (String x (a +:+ String h b)).
    rewrite contains_cons in Ha. apply orb_false_iff in Ha as [Hp Ha].
    cbn [str.split_head].
    destruct (String.prefix (String h q) (String x (a +:+ String h b))) eqn:E.
    + rewrite prefix_cons in E, Hp. apply andb_true_iff in E as [Ehx E].
      apply prefix_app_no_first in E; [|exact Hq]. by rewrite Ehx, E in Hp.
    + by rewrite (IH Ha).
Qed.

Lemma contains_app_first (h : ascii) (q a b : string) :
  str.count h q = 0%nat ->
  str.contains (String h q) (a +:+ String h b)
  = str.contains (String h q) a || str.contains (String h q) (String h b).
Proof.
  intros Hq. induction a as [|x a IH].
  - cbn [String.append]. by rewrite contains_nil.
  - change (String x a +:+ String h b) with (String x (a +:+ String h b)).
    rewrite !contains_cons, IH, <- orb_assoc. f_equal.
    destruct (String.prefix (String h q) (String x (a +:+ String h b))) eqn:E.
    + rewrite prefix_cons in E |- *. apply andb_true_iff in E as [-> E].
      apply prefix_app_no_first in E; [|exact Hq]. by rewrite E.
    + destruct (String.prefix (String h q) (String x a)) eqn:E'; [|reflexivity].
      apply prefix_app with (c := String h b) in E'.
      change (String x a +:+ String h b) with (String x (a +:+ String h b)) in E'.
      congruence.
Qed.

(** *** [replace] *)

Lemma replace_from_absent (old new s : string) :
  str.contains old s = false -> str.replace_from 0 old new s = s.
Proof.
  induction s as [|x s IH]; [reflexivity|].
  rewrite contains_cons. intros H. apply orb_false_iff in H as [Hp Hs].
  cbn [str.replace_from]. by rewrite Hp, IH.
Qed.

Lemma replace_from_skip (old new a s : string) :
  str.replace_from (String.length a) old new (a +:+ s) = str.replace_from 0 old new s.
Proof. induction a as [|x a IH]; [reflexivity|]. simpl. exact IH. Qed.

(** An occurrence at the head is replaced, and the scan goes on behind
    it. *)
Lemma replace_head (x : ascii) (old new s : string) :
  str.replace (String x old) new (String x old +:+ s)
  = new +:+ str.replace (String x old) new s.
Proof.
  unfold str.replace.
  change (String x old +:+ s) with (String x (old +:+ s)).
  cbn [str.replace_from].
  assert (String.prefix (String x old) (String x (old +:+ s)) = true) as ->.
  { apply (prefix_app (String x old) (String x old) s).
    clear. induction (String x old) as [|y p IH]; [reflexivity|].
    by rewrite prefix_cons, Ascii.eqb_refl. }
  f_equal. simpl. rewrite Nat.sub_0_r. apply replace_from_skip.
Qed.

Lemma replace_absent (old new s : string) :
  str.contains old s = false -> str.replace old new s = s.
Proof. apply replace_from_absent. Qed.

(** Text that has not the first character of [old] is passed over. *)
Lemma replace_no_first (h : ascii) (old new a s : string) :
  str.count h a = 0%nat ->
  str.replace (String h old) new (a +:+ s) = a +:+ str.replace (String h old) new s.
Proof.
  unfold str.replace. induction a as [|x a IH]; [reflexivity|]. intros Ha.
  change (String x a +:+ s) with (String x (a +:+ s)).
  simpl in Ha. cbn [str.replace_from]. rewrite prefix_cons.
  destruct (Ascii.eqb_spec h x) as [->|Hne].
  - rewrite Ascii.eqb_refl in Ha. simpl in Ha. lia.
  - cbn [andb]. rewrite IH; [reflexivity|].
    destruct (Ascii.eqb x h); simpl in Ha; lia.
Qed.

(** *** Paths *)

Lemma basename_app (a b : string) :
  str.count "/" b = 0%nat -> os_path.basename (a +:+ String "/" b) = b.
Proof.
  intros Hb. induction a as [|x a IH].
  - cbn [String.append os_path.basename]. unfold os_path.sep. by rewrite Hb.
  - change (String x a +:+ String "/" b) with (String x (a +:+ String "/" b)).
    cbn [os_path.basename]. unfold os_path.sep. rewrite count_app. simpl.
    replace (0 <? str.count "/" a + S (str.count "/" b))%nat with true
      by (symmetry; apply Nat.ltb_lt; lia).
    exact IH.
Qed.

Lemma basename_no_sep (b : string) :
  str.count "/" b = 0%nat -> os_path.basename b = b.
Proof.
  destruct b as [|x b]; [reflexivity|]. intros H. simpl in H.
  cbn [os_path.basename]. unfold os_path.sep.
  destruct (Ascii.eqb x "/"); simpl in H; [lia|]. by rewrite H.
Qed.

Lemma head_app (a b : string) :
  str.count "/" b = 0%nat -> os_path.head (a +:+ String "/" b) = a +:+ "/".
Proof.
  intros Hb. induction a as [|x a IH].
  - cbn [String.append os_path.head]. unfold os_path.sep. by rewrite Hb.
  - change (String x a +:+ String "/" b) with (String x (a +:+ String "/" b)).
    cbn [os_path.head]. unfold os_path.sep. rewrite count_app. simpl.
    replace (0 <? str.count "/" a + S (str.count "/" b))%nat with true
      by (symmetry; apply Nat.ltb_lt; lia).
    by rewrite IH.
Qed.

Lemma rstrip_app_sep (c : ascii) (a : string) :
  str.count c a = 0%nat -> a <> "" -> str.rstrip c (a +:+ String c "") = a.
Proof.
  induction a as [|x a IH]; [done|]. intros Ha _.
  simpl in Ha. destruct (Ascii.eqb x c) eqn:E; simpl in Ha; [lia|].
  change (String x a +:+ String c "") with (String x (a +:+ String c "")).
  cbn [str.rstrip]. destruct a as [|y a].
  - simpl. by rewrite Ascii.eqb_refl, E.
  - rewrite IH by (done || lia). reflexivity.
Qed.

(** The directory of a file that lies one level deep. *)
Lemma dirname_app (a b : string) :
  str.count "/" a = 0%nat -> a <> "" -> str.count "/" b = 0%nat ->
  os_path.dirname (a +:+ String "/" b) = a.
Proof.
  intros Ha Hne Hb. unfold os_path.dirname. rewrite head_app by exact Hb.
  unfold os_path.sep.
  assert ((str.count "/" (a +:+ "/") =? String.length (a +:+ "/"))%nat = false) as ->.
  { apply Nat.eqb_neq. rewrite count_app, string_length_app, Ha.
    destruct a; [done | simpl; lia]. }
  by apply rstrip_app_sep.
Qed.

(** *** The token of [save], character by character *)

Section date_ids.

Local Open Scope N_scope.

Lemma date_id_explicit (now : datetime.t) :
  date_id now
  = datetime.pad 4 (datetime.year now) +:+ "-" +:+ datetime.pad 2 (datetime.month now)
    +:+ "-" +:+ datetime.pad 2 (datetime.day now) +:+ "T"
    +:+ datetime.pad 2 (datetime.hour now) +:+ "-"
    +:+ datetime.pad 2 (datetime.minute now) +:+ "-"
    +:+ datetime.pad 2 (datetime.second now)
    +:+ (if datetime.microsecond now =? 0 then ""
         else "." +:+ datetime.pad 6 (datetime.microsecond now)).
Proof.
  unfold date_id, datetime.isoformat.
  rewrite replace_char_sub_chars, !sub_chars_app.
  assert (Hpad : forall w n,
             re.sub_chars (fun x => negb (Ascii.eqb x ":")) "-" (datetime.pad w n)
             = datetime.pad w n).
  { intros w n. rewrite <- replace_char_sub_chars. apply replace_char_absent.
    by apply count_pad. }
  rewrite !Hpad. destruct (_ =? 0); [reflexivity|].
  rewrite sub_chars_app, Hpad. reflexivity.
Qed.

(** The token is made of digits, hyphens, a [T] and at most one dot. *)
Lemma date_id_count (c : ascii) (now : datetime.t) :
  datetime.digit_val c = None -> c <> "-"%char -> c <> "T"%char -> c <> "."%char ->
  str.count c (date_id now) = 0%nat.
Proof.
  intros Hd H1 H2 H3. rewrite date_id_explicit.
  assert (E1 : Ascii.eqb "-" c = false) by (apply Ascii.eqb_neq; congruence).
  assert (E2 : Ascii.eqb "T" c = false) by (apply Ascii.eqb_neq; congruence).
  assert (E3 : Ascii.eqb "." c = false) by (apply Ascii.eqb_neq; congruence).
  rewrite !count_app, !count_pad by exact Hd. cbn [str.count]. rewrite E1, E2.
  destruct (_ =? 0); [reflexivity|].
  rewrite count_app, count_pad by exact Hd. cbn [str.count]. by rewrite E3.
Qed.

Lemma date_id_not_empty (now : datetime.t) : date_id now <> "".
Proof.
  rewrite date_id_explicit. intros H. apply (f_equal String.length) in H.
  rewrite !string_length_app, !length_pad in H. simpl in H. lia.
Qed.

(** What line 324 makes of the token, and how it parses. *)
Lemma iso_date_of_dir_date_id (now : datetime.t) :
  datetime.valid now = true ->
  datetime.fromisoformat (iso_date_of_dir (date_id now)) = Some now.
Proof.
  intros Hv.
  assert (H : iso_date_of_dir (date_id now) = datetime.isoformat now).
  { unfold date_id.
    destruct (isoformat_shape now) as (a & b & c & -> & Ha & Hb & Hb' & Hc & Hc').
    by apply iso_date_of_dir_recovers. }
  rewrite H. by apply isoformat_fromisoformat.
Qed.

(** The first digits of a year of the 2020s. *)
Lemma pad_year_202 (y : N) :
  2020 <= y <= 2029 ->
  datetime.pad 4 y = String "2" (String "0" (String "2" (String (datetime.digit_char y) ""))).
Proof.
  intros Hy.
  assert (y = 2020 \/ y = 2021 \/ y = 2022 \/ y = 2023 \/ y = 2024 \/ y = 2025
          \/ y = 2026 \/ y = 2027 \/ y = 2028 \/ y = 2029) as H by lia.
  repeat (destruct H as [->|H]; [reflexivity|]). by subst.
Qed.

End date_ids.

(** ** The names [save] writes and [details_to_hub] uploads *)

Lemma pad_first (w : nat) (n : N) :
  exists (d : ascii) (rest : string),
    datetime.pad (S w) n = String d rest /\ datetime.digit_val d <> None.
Proof.
  revert n. induction w as [|w IH]; intros n.
  - exists (datetime.digit_char n), "". split; [reflexivity|].
    by rewrite digit_val_digit_char.
  - destruct (IH (n / 10)%N) as (d & rest & Hd & Hv).
    exists d, (rest +:+ String (datetime.digit_char n) "").
    split; [|exact Hv]. change (datetime.pad (S (S w)) n)
      with (datetime.pad (S w) (n / 10)%N +:+ String (datetime.digit_char n) "").
    by rewrite Hd.
Qed.

Lemma contains_no_first_l (h : ascii) (q a b : string) :
  str.count h a = 0%nat ->
  str.contains (String h q) (a +:+ b) = str.contains (String h q) b.
Proof.
  induction a as [|x a IH]; [reflexivity|]. intros Ha. simpl in Ha.
  change (String x a +:+ b) with (String x (a +:+ b)).
  rewrite contains_cons, prefix_cons.
  destruct (Ascii.eqb_spec h x) as [->|Hne].
  - rewrite Ascii.eqb_refl in Ha. simpl in Ha. lia.
  - cbn [andb orb]. apply IH. destruct (Ascii.eqb x h); simpl in Ha; lia.
Qed.

Lemma contains_count_0 (c : ascii) (s : string) :
  str.count c s = 0%nat -> str.contains (String c "") s = false.
Proof.
  intros H. apply (contains_no_char c); [|exact H]. simpl. rewrite Ascii.eqb_refl. lia.
Qed.

Lemma replace_step (x : ascii) (old new s : string) :
  String.prefix old (String x s) = false ->
  str.replace old new (String x s) = String x (str.replace old new s).
Proof. unfold str.replace. cbn [str.replace_from]. by intros ->. Qed.

(** The fraction of a token, if any, and the extension behind it. *)
Lemma replace_json (new pre : string) (now : datetime.t) :
  str.count "." pre = 0%nat ->
  let frac := if (datetime.microsecond now =? 0)%N then ""
              else "." +:+ datetime.pad 6 (datetime.microsecond now) in
  str.replace ".json" new (pre +:+ frac +:+ ".json") = pre +:+ frac +:+ new.
Proof.
  intros Hpre frac. rewrite (replace_no_first "." "json" new pre) by exact Hpre.
  f_equal. subst frac.
  assert (Hend : str.replace ".json" new ".json" = new).
  { change ".json" with (".json" +:+ "") at 2.
    rewrite (replace_head "." "json" new ""). apply string_app_nil_r. }
  destruct (_ =? _)%N; [exact Hend|].
  destruct (pad_first 5 (datetime.microsecond now)) as (d & rest & Hpad & Hd).
  assert (Hcnt : str.count "." (datetime.pad 6 (datetime.microsecond now)) = 0%nat)
    by (by apply count_pad).
  set (P := datetime.pad 6 (datetime.microsecond now)) in *.
  change (("." +:+ P) +:+ ".json") with (String "." (P +:+ ".json")).
  change (("." +:+ P) +:+ new) with (String "." (P +:+ new)).
  rewrite replace_step.
  - f_equal. rewrite (replace_no_first "." "json" new P ".json") by exact Hcnt.
    by rewrite Hend.
  - rewrite Hpad. change (String d rest +:+ ".json") with (String d (rest +:+ ".json")).
    rewrite !prefix_cons.
    destruct (Ascii.eqb_spec "j" d) as [<-|]; [by destruct Hd | by rewrite andb_false_r].
Qed.

Lemma date_id_frac (now : datetime.t) :
  exists pre : string,
    str.count "." pre = 0%nat
    /\ date_id now
       = pre +:+ (if (datetime.microsecond now =? 0)%N then ""
                  else "." +:+ datetime.pad 6 (datetime.microsecond now)).
Proof.
  exists (datetime.pad 4 (datetime.year now) +:+ "-" +:+ datetime.pad 2 (datetime.month now)
          +:+ "-" +:+ datetime.pad 2 (datetime.day now) +:+ "T"
          +:+ datetime.pad 2 (datetime.hour now) +:+ "-"
          +:+ datetime.pad 2 (datetime.minute now) +:+ "-"
          +:+ datetime.pad 2 (datetime.second now)).
  split.
  - rewrite !count_app, !count_pad by reflexivity. reflexivity.
  - rewrite date_id_explicit, !string_app_assoc. reflexivity.
Qed.

Lemma results_file_name_replace (new : string) (now : datetime.t) :
  str.replace ".json" new (results_file_name (date_id now))
  = "results_" +:+ date_id now +:+ new.
Proof.
  unfold results_file_name.
  destruct (date_id_frac now) as (pre & Hpre & ->).
  rewrite <- !string_app_assoc, (string_app_assoc _ _ ".json"),
    (string_app_assoc _ _ new).
  apply (replace_json new ("results_" +:+ pre) now).
  rewrite count_app, Hpre. reflexivity.
Qed.

Lemma results_file_name_no_sep (now : datetime.t) :
  str.count "/" (results_file_name (date_id now)) = 0%nat.
Proof.
  unfold results_file_name. rewrite !count_app, date_id_count by done. reflexivity.
Qed.

(** The folder the details go to in the repository bears the token of
    the run, and the parquet version of the results file its name with
    the other extension. *)
Lemma sub_folder_path_of_save (output_dir : string) (now : datetime.t) :
  sub_folder_path (output_dir +:+ String "/" (results_file_name (date_id now)))
  = date_id now
  /\ parquet_name (output_dir +:+ String "/" (results_file_name (date_id now)))
     = "results_" +:+ date_id now +:+ ".parquet".
Proof.
  unfold sub_folder_path, parquet_name.
  rewrite basename_app by apply results_file_name_no_sep.
  rewrite !results_file_name_replace. split; [|reflexivity].
  rewrite string_app_nil_r. rewrite (replace_head "r" "esults_" "" (date_id now)).
  apply replace_absent, (contains_no_char "r"); [simpl; lia|].
  by apply date_id_count.
Qed.

(** X1: what one run leaves in the repository.  For the results file
    [save] writes in a folder and the details files it writes for the
    tasks, [details_to_hub] uploads the results file and its parquet
    version under their own names and every details file under the
    token of the run: the paths are those of [run_files], and the token
    [details_to_hub] cuts out of the name of the results file is the one
    [save] has put in it. *)
Theorem X1_saved_run_upload_paths (output_dir : string) (now : datetime.t)
    (task_names : list string) :
  uploaded_paths (output_dir +:+ String "/" (results_file_name (date_id now)))
    (map (fun t => details_file_name t (date_id now)) task_names)
  = run_files now task_names
  /\ sub_folder_path (output_dir +:+ String "/" (results_file_name (date_id now)))
     = date_id now.
Proof.
  split; [|apply sub_folder_path_of_save].
  unfold uploaded_paths, run_files.
  destruct (sub_folder_path_of_save output_dir now) as [-> ->].
  rewrite basename_app by apply results_file_name_no_sep.
  by rewrite map_map.
Qed.

(** ** How the two passes read the names [save] wrote *)

Section details_paths.

Variable task_name : string.
Variable now : datetime.t.

Lemma details_repo_path_basename :
  str.count "/" task_name = 0%nat ->
  os_path.basename (details_repo_path task_name now)
  = "details_" +:+ task_name +:+ "_" +:+ date_id now +:+ ".parquet".
Proof.
  intros Ht. unfold details_repo_path, details_file_name.
  change (date_id now +:+ "/" +:+ ?x) with (date_id now +:+ String "/" x).
  apply basename_app.
  rewrite !count_app, Ht, date_id_count by done. reflexivity.
Qed.

Lemma details_repo_path_dirname :
  str.count "/" task_name = 0%nat ->
  os_path.dirname (details_repo_path task_name now) = date_id now.
Proof.
  intros Ht. unfold details_repo_path, details_file_name.
  change (date_id now +:+ "/" +:+ ?x) with (date_id now +:+ String "/" x).
  apply dirname_app.
  - by apply date_id_count.
  - apply date_id_not_empty.
  - rewrite !count_app, Ht, date_id_count by done. reflexivity.
Qed.

Lemma date_id_tail_no_underscore :
  str.count "_" (date_id now +:+ ".parquet") = 0%nat.
Proof. rewrite count_app, date_id_count by done. reflexivity. Qed.

(** A details file is taken for a results file exactly when the name of
    its task, with the underscore that follows it, has ["results_"] in
    it. *)
Lemma details_repo_path_is_results :
  is_results (details_repo_path task_name now)
  = str.contains "results_" (task_name +:+ "_").
Proof.
  unfold is_results, details_repo_path, details_file_name.
  rewrite (contains_no_first_l "r" "esults_" (date_id now)) by (by apply date_id_count).
  rewrite (contains_no_first_l "r" "esults_" "/") by reflexivity.
  rewrite (contains_no_first_l "r" "esults_" "details_") by reflexivity.
  rewrite <- (string_app_assoc task_name "_").
  apply (contains_app_no_last "_" "results" (task_name +:+ "_")).
  apply date_id_tail_no_underscore.
Qed.

(** What is left of the base name once ["details_"] is taken out. *)
Lemma details_repo_path_replace :
  str.count "/" task_name = 0%nat ->
  str.contains "details_" (task_name +:+ "_") = false ->
  str.replace "details_" "" (os_path.basename (details_repo_path task_name now))
  = task_name +:+ "_" +:+ date_id now +:+ ".parquet".
Proof.
  intros Ht Hd. rewrite details_repo_path_basename by exact Ht.
  rewrite (replace_head "d" "etails_" ""
             (task_name +:+ "_" +:+ date_id now +:+ ".parquet")).
  change ("" +:+ ?x) with x. apply replace_absent.
  rewrite <- (string_app_assoc task_name "_").
  rewrite (contains_app_no_last "_" "details" (task_name +:+ "_"));
    [exact Hd | apply date_id_tail_no_underscore].
Qed.

(** The first pass reads the date of the run off the folder. *)
Lemma details_repo_path_eval_date :
  datetime.valid now = true ->
  str.count "/" task_name = 0%nat ->
  eval_date_of (details_repo_path task_name now) = Some now.
Proof.
  intros Hv Ht. unfold eval_date_of, iso_date_of.
  rewrite details_repo_path_dirname by exact Ht. by apply iso_date_of_dir_date_id.
Qed.

Lemma date_id_starts_202 :
  (2020 <= datetime.year now <= 2029)%N ->
  exists tail : string,
    date_id now
    = String "2" (String "0" (String "2"
        (String (datetime.digit_char (datetime.year now)) tail))).
Proof.
  intros Hy. rewrite date_id_explicit, (pad_year_202 _ Hy). eexists. reflexivity.
Qed.

(** The task name of the first pass is the name of the task, for a run
    of the 2020s. *)
Lemma details_repo_path_first_pass :
  (2020 <= datetime.year now <= 2029)%N ->
  str.count "/" task_name = 0%nat ->
  str.contains "details_" (task_name +:+ "_") = false ->
  str.contains "_202" task_name = false ->
  first_pass_task_name (details_repo_path task_name now) = task_name.
Proof.
  intros Hy Ht Hd H202. unfold first_pass_task_name.
  rewrite details_repo_path_replace by assumption.
  apply (split_head_app "_" "202" task_name (date_id now +:+ ".parquet"));
    [reflexivity | exact H202 |].
  destruct (date_id_starts_202 Hy) as [tail ->]. reflexivity.
Qed.

Lemma contains_2023_2024 :
  str.contains "_202" task_name = false ->
  str.contains "_2023" task_name = false /\ str.contains "_2024" task_name = false.
Proof.
  intros H. split.
  - destruct (str.contains "_2023" task_name) eqn:E; [|reflexivity].
    apply (contains_app_l "_202" "3") in E. congruence.
  - destruct (str.contains "_2024" task_name) eqn:E; [|reflexivity].
    apply (contains_app_l "_202" "4") in E. congruence.
Qed.

(** So is the task name of the second pass, for a run of 2023 or 2024. *)
Lemma details_repo_path_second_pass :
  datetime.year now = 2023%N \/ datetime.year now = 2024%N ->
  str.count "/" task_name = 0%nat ->
  str.contains "details_" (task_name +:+ "_") = false ->
  str.contains "_202" task_name = false ->
  second_pass_task_name (details_repo_path task_name now) = task_name.
Proof.
  intros Hy Ht Hd H202. unfold second_pass_task_name.
  rewrite details_repo_path_replace by assumption.
  change (task_name +:+ "_" +:+ date_id now +:+ ".parquet")
    with (task_name +:+ String "_" (date_id now +:+ ".parquet")).
  destruct (contains_2023_2024 H202) as [H23 H24].
  assert (Hy' : (2020 <= datetime.year now <= 2029)%N) by lia.
  destruct (date_id_starts_202 Hy') as [tail Htail].
  destruct Hy as [Hy|Hy].
  - rewrite (split_head_app "_" "2023" task_name (date_id now +:+ ".parquet"));
      [by apply split_head_absent | reflexivity | exact H23 |].
    rewrite Htail, Hy. cbn [String.append]. by rewrite !prefix_cons, prefix_nil_l.
  - rewrite (split_head_absent "_2023").
    + apply (split_head_app "_" "2024" task_name (date_id now +:+ ".parquet"));
        [reflexivity | exact H24 |].
      rewrite Htail, Hy. cbn [String.append]. by rewrite !prefix_cons, prefix_nil_l.
    + rewrite (contains_app_first "_" "2023" task_name (date_id now +:+ ".parquet"))
        by reflexivity.
      rewrite H23, contains_cons.
      rewrite (contains_no_char "_" "_2023" (date_id now +:+ ".parquet"));
        [|simpl; lia | apply date_id_tail_no_underscore].
      rewrite Htail, Hy. cbn [String.append]. by rewrite !prefix_cons, prefix_nil_l.
Qed.

(** For a run of another year of the 2020s the second pass cuts
    nothing, and keeps a name the registry has not. *)
Lemma details_repo_path_second_pass_stale :
  (2020 <= datetime.year now <= 2029)%N ->
  datetime.year now <> 2023%N -> datetime.year now <> 2024%N ->
  str.count "/" task_name = 0%nat ->
  str.contains "details_" (task_name +:+ "_") = false ->
  str.contains "_202" task_name = false ->
  second_pass_task_name (details_repo_path task_name now)
  = task_name +:+ "_" +:+ date_id now +:+ ".parquet"
  /\ str.contains "_202" (second_pass_task_name (details_repo_path task_name now))
     = true.
Proof.
  intros Hy H23 H24 Ht Hd H202.
  destruct (contains_2023_2024 H202) as [Hc23 Hc24].
  destruct (date_id_starts_202 Hy) as [tail Htail].
  assert (Hdigit : datetime.digit_char (datetime.year now) <> "3"%char
                   /\ datetime.digit_char (datetime.year now) <> "4"%char).
  { assert (datetime.year now = 2020 \/ datetime.year now = 2021
            \/ datetime.year now = 2022 \/ datetime.year now = 2025
            \/ datetime.year now = 2026 \/ datetime.year now = 2027
            \/ datetime.year now = 2028 \/ datetime.year now = 2029)%N as H by lia.
    repeat (destruct H as [->|H]; [by split|]). rewrite H. by split. }
  pose proof (details_repo_path_replace Ht Hd) as Hrep. rewrite <- Hrep.
  apply second_pass_task_name_uncut; rewrite Hrep;
    change (task_name +:+ "_" +:+ date_id now +:+ ".parquet")
      with (task_name +:+ String "_" (date_id now +:+ ".parquet")).
  - rewrite (contains_app_first "_" "2023" task_name (date_id now +:+ ".parquet"))
      by reflexivity.
    rewrite Hc23, contains_cons.
    rewrite (contains_no_char "_" "_2023" (date_id now +:+ ".parquet"));
      [|simpl; lia | apply date_id_tail_no_underscore].
    rewrite Htail. cbn [String.append]. rewrite !prefix_cons.
    destruct Hdigit as [H3 _]. apply not_eq_sym, Ascii.eqb_neq in H3. rewrite H3.
    reflexivity.
  - rewrite (contains_app_first "_" "2024" task_name (date_id now +:+ ".parquet"))
      by reflexivity.
    rewrite Hc24, contains_cons.
    rewrite (contains_no_char "_" "_2024" (date_id now +:+ ".parquet"));
      [|simpl; lia | apply date_id_tail_no_underscore].
    rewrite Htail. cbn [String.append]. rewrite !prefix_cons.
    destruct Hdigit as [_ H4]. apply not_eq_sym, Ascii.eqb_neq in H4. rewrite H4.
    reflexivity.
  - rewrite (contains_app_first "_" "202" task_name (date_id now +:+ ".parquet"))
      by reflexivity.
    rewrite H202, contains_cons, Htail. reflexivity.
Qed.

End details_paths.

(** ** When the call completes in multiple-results mode *)

Lemma dict_keys_set_mono {V} (d : list (string * V)) (k : string) (v : V) (x : string) :
  In x (dict.keys d) -> In x (dict.keys (dict.set d k v)).
Proof. intros H. apply dict_keys_set. by right. Qed.

Lemma last_eval_dates_keys_mono (parquet_files : list string)
    (last last' : list (string * datetime.t)) (k : string) :
  last_eval_dates last parquet_files = Ok last' ->
  In k (dict.keys last) -> In k (dict.keys last').
Proof.
  revert last. induction parquet_files as [|f l IH]; intros last; simpl.
  - by intros [= ->].
  - unfold record_eval_date. destruct (is_results f); simpl; [apply IH|].
    destruct (datetime.fromisoformat _); [|discriminate].
    cbn [mbind result_bind]. intros H Hk. apply (IH _ H).
    by apply dict_keys_set_mono.
Qed.

(** Every detail file leaves its task name in the registry. *)
Lemma last_eval_dates_has_key (parquet_files : list string)
    (last last' : list (string * datetime.t)) (g : string) :
  last_eval_dates last parquet_files = Ok last' ->
  In g parquet_files -> is_results g = false ->
  In (first_pass_task_name g) (dict.keys last').
Proof.
  revert last. induction parquet_files as [|f l IH]; intros last; [intros _ []|].
  simpl. unfold record_eval_date. intros H [->|Hin] Hr.
  - rewrite Hr in H. destruct (datetime.fromisoformat _); [|discriminate].
    cbn [mbind result_bind] in H. apply (last_eval_dates_keys_mono _ _ _ _ H).
    apply dict_keys_set. by left.
  - destruct (is_results f); simpl in H; [by apply (IH _ H)|].
    destruct (datetime.fromisoformat _); [|discriminate].
    by apply (IH _ H).
Qed.

Lemma registry_has_key (parquet_files : list string)
    (last : list (string * datetime.t)) (k : string) :
  last_eval_dates [] parquet_files = Ok last ->
  match dict.get (iso_dates last) k with Some _ => true | None => false end
  = existsb (fun g => negb (is_results g) && String.eqb (first_pass_task_name g) k)
      parquet_files.
Proof.
  intros Hl. rewrite dict_get_iso_dates. apply eq_true_iff_eq. split.
  - intros H. apply existsb_exists.
    assert (Hk : In k (dict.keys last)).
    { destruct (dict.get last k) eqn:E; [|discriminate].
      destruct (in_dec string_dec k (dict.keys last)) as [?|Hn]; [done|].
      apply dict_get_None in Hn. congruence. }
    destruct (last_eval_dates_keys _ _ _ _ Hl Hk) as [[]|(f & Hf & Hr & ->)].
    exists f. split; [exact Hf|]. by rewrite Hr, String.eqb_refl.
  - intros H. apply existsb_exists in H as (g & Hg & H).
    apply andb_true_iff in H as [Hr Hk]. apply negb_true_iff in Hr.
    apply String.eqb_eq in Hk as <-.
    pose proof (last_eval_dates_has_key _ _ _ _ Hl Hg Hr) as Hin.
    destruct (dict.get last (first_pass_task_name g)) eqn:E; [reflexivity|].
    by apply dict_get_None in E.
Qed.

Lemma registry_empty (parquet_files : list string) (last : list (string * datetime.t)) :
  last_eval_dates [] parquet_files = Ok last ->
  is_ok (max_last_eval_date last) = existsb (fun f => negb (is_results f)) parquet_files.
Proof.
  intros Hl. apply eq_true_iff_eq. split.
  - intros H. apply existsb_exists. destruct last as [|[k v] last]; [discriminate|].
    destruct (last_eval_dates_keys _ _ _ k Hl) as [[]|(f & Hf & Hr & _)]; [by left|].
    exists f. by rewrite Hr.
  - intros H. apply existsb_exists in H as (g & Hg & Hr). apply negb_true_iff in Hr.
    pose proof (last_eval_dates_has_key _ _ _ _ Hl Hg Hr) as Hin.
    destruct last; [destruct Hin | reflexivity].
Qed.

(** In multiple-results mode a turn of the second pass raises only when
    the registry has not the task name of the file. *)
Lemma add_file_multiple_is_ok (last : list (string * string)) (max_last : string)
    (st : build_state) (sub_file : string) :
  is_ok (add_file true last max_last st sub_file)
  = is_results sub_file
    || match dict.get last (second_pass_task_name sub_file) with
       | Some _ => true | None => false end.
Proof.
  unfold add_file, read_file_info. destruct (is_results sub_file).
  - cbn [mbind result_bind]. unfold add_entry.
    by destruct (card_metadata st !! _).
  - destruct (dict.get last _); [|reflexivity].
    cbn [mbind result_bind]. unfold add_entry.
    by destruct (card_metadata st !! _).
Qed.

Lemma add_files_multiple_is_ok (last : list (string * string)) (max_last : string)
    (parquet_files : list string) (st : build_state) :
  is_ok (add_files true last max_last st parquet_files)
  = forallb (fun f => is_results f
                      || match dict.get last (second_pass_task_name f) with
                         | Some _ => true | None => false end)
      parquet_files.
Proof.
  revert st. induction parquet_files as [|f l IH]; intros st; [reflexivity|].
  cbn [add_files forallb]. rewrite <- add_file_multiple_is_ok with (max_last := max_last) (st := st).
  destruct (add_file true last max_last st f) as [st1|]; [apply IH | reflexivity].
Qed.

Lemma forallb_ext_in {A} (p q : A -> bool) (l : list A) :
  (forall x, In x l -> p x = q x) -> forallb p l = forallb q l.
Proof.
  induction l as [|x l IH]; intros H; [reflexivity|]. simpl.
  rewrite (H x) by (by left). f_equal. apply IH. intros y Hy. apply H. by right.
Qed.

(** In multiple-results mode the call completes exactly when the first
    pass reads every file, there is a detail file, and the second pass
    finds the date of every detail file. *)
Lemma configs_of_multiple_is_ok (parquet_files : list string) :
  is_ok (configs_of true parquet_files) = completes_multiple parquet_files.
Proof.
  unfold configs_of, completes_multiple.
  rewrite <- (last_eval_dates_is_ok parquet_files []).
  destruct (last_eval_dates [] parquet_files) as [last|] eqn:Hl; [|reflexivity].
  cbn [mbind result_bind is_ok andb].
  rewrite <- (registry_empty _ _ Hl).
  destruct (max_last_eval_date last) as [max_last|]; [|reflexivity].
  cbn [mbind result_bind is_ok andb].
  rewrite (forallb_ext_in (second_pass_finds parquet_files)
             (fun f => is_results f
                       || match dict.get (iso_dates last) (second_pass_task_name f) with
                          | Some _ => true | None => false end)).
  - rewrite <- (add_files_multiple_is_ok _ (datetime.isoformat max_last) _
                  (mk_build_state ∅ false)).
    by destruct (add_files _ _ _ _ _).
  - intros f _. unfold second_pass_finds. by rewrite (registry_has_key _ _ _ Hl).
Qed.

(** ** The files of a run, as the two passes read them *)

Lemma good_task_name_spec (task_name : string) :
  good_task_name task_name = true ->
  str.count "/" task_name = 0%nat
  /\ str.contains "details_" (task_name +:+ "_") = false
  /\ str.contains "results_" (task_name +:+ "_") = false
  /\ str.contains "_202" task_name = false.
Proof.
  unfold good_task_name. intros H.
  apply andb_true_iff in H as [H H4]. apply andb_true_iff in H as [H H3].
  apply andb_true_iff in H as [H1 H2].
  apply Nat.eqb_eq in H1. apply negb_true_iff in H2, H3, H4. done.
Qed.

Lemma run_2023_2024_spec (now : datetime.t) :
  run_2023_2024 now = true ->
  datetime.valid now = true
  /\ (datetime.year now = 2023%N \/ datetime.year now = 2024%N).
Proof.
  unfold run_2023_2024. intros H. apply andb_true_iff in H as [Hv Hy].
  split; [exact Hv|]. apply orb_true_iff in Hy as [Hy|Hy]; apply N.eqb_eq in Hy; auto.
Qed.

Lemma join_stars (name : string) :
  String.prefix "/" name = false ->
  os_path.join "**" name = "**/" +:+ name.
Proof. unfold os_path.join. by intros ->. Qed.

Lemma details_repo_path_repo_file_name (task_name : string) (now : datetime.t) :
  str.count "/" task_name = 0%nat ->
  detail_repo_file_name (details_repo_path task_name now)
  = "**/" +:+ details_file_name task_name (date_id now).
Proof.
  intros Ht. unfold detail_repo_file_name.
  rewrite details_repo_path_basename by exact Ht.
  apply join_stars. reflexivity.
Qed.

Lemma details_repo_path_sanitized_eval_date (task_name : string) (now : datetime.t) :
  str.count "/" task_name = 0%nat ->
  detail_sanitized_eval_date (details_repo_path task_name now)
  = re.sub_not_w_dot (datetime.isoformat now).
Proof.
  intros Ht. unfold detail_sanitized_eval_date.
  rewrite details_repo_path_dirname by exact Ht. apply sub_not_w_dot_date_id.
Qed.

Lemma prefix_refl_app (s b : string) : String.prefix s (s +:+ b) = true.
Proof.
  induction s as [|x s IH]; [apply prefix_nil_l|].
  change (String x s +:+ b) with (String x (s +:+ b)).
  by rewrite prefix_cons, Ascii.eqb_refl, IH.
Qed.

(** [s in a + s + b] *)
Lemma contains_infix (s a b : string) : str.contains s (a +:+ s +:+ b) = true.
Proof.
  induction a as [|x a IH].
  - change ("" +:+ s +:+ b) with (s +:+ b).
    destruct (s +:+ b) eqn:E.
    + destruct s; [reflexivity | discriminate].
    + rewrite contains_cons, <- E, prefix_refl_app. reflexivity.
  - change (String x a +:+ s +:+ b) with (String x (a +:+ s +:+ b)).
    by rewrite contains_cons, IH, orb_true_r.
Qed.

Lemma contains_app_r (s a b : string) :
  str.contains s b = true -> str.contains s (a +:+ b) = true.
Proof.
  intros H. induction a as [|x a IH]; [exact H|].
  change (String x a +:+ b) with (String x (a +:+ b)).
  by rewrite contains_cons, IH, orb_true_r.
Qed.

Lemma details_repo_path_is_parquet (task_name : string) (now : datetime.t) :
  str.contains ".parquet" (details_repo_path task_name now) = true.
Proof.
  unfold details_repo_path, details_file_name.
  do 6 apply contains_app_r. reflexivity.
Qed.

(** X2: the details file [save] writes for a task is taken by both
    passes for a results file exactly when the name of the task,
    followed by the underscore [save] puts behind it, has ["results_"]
    in it: the timestamp token and the folder never make it one. *)
Theorem X2_details_file_taken_for_results (task_name : string) (now : datetime.t) :
  is_results (details_repo_path task_name now)
  = str.contains "results_" (task_name +:+ "_").
Proof. apply details_repo_path_is_results. Qed.

(** X3: a turn of the first pass on the details file [save] wrote for
    a task in the years 2020 to 2029 registers the date of the run
    under the name of the task: the date itself for a task not yet
    registered, the larger of the two otherwise.  The name of the task
    has no slash and none of ["details_"], ["results_"] (up to the
    underscore that follows it) and ["_202"]. *)
Theorem X3_first_pass_registers_saved_file (last : list (string * datetime.t))
    (task_name : string) (now : datetime.t) :
  good_task_name task_name = true ->
  datetime.valid now = true ->
  (2020 <= datetime.year now <= 2029)%N ->
  record_eval_date last (details_repo_path task_name now)
  = Ok (dict.set last task_name
          (match dict.get last task_name with
           | Some d => datetime.max d now
           | None => now
           end)).
Proof.
  intros Hg Hv Hy. apply good_task_name_spec in Hg as (Ht & Hd & Hr & H202).
  unfold record_eval_date.
  rewrite details_repo_path_is_results, Hr.
  pose proof (details_repo_path_eval_date task_name now Hv Ht) as He.
  unfold eval_date_of in He. rewrite He.
  by rewrite (details_repo_path_first_pass task_name now Hy Ht Hd H202).
Qed.

Lemma X3_first_pass_registers_saved_file_witness :
  record_eval_date [("harness|arc|25", datetime.mk 2024 1 15 10 30 0 0)]
    (details_repo_path "harness|arc|25" (datetime.mk 2025 3 2 8 5 59 120))
  = Ok [("harness|arc|25", datetime.mk 2025 3 2 8 5 59 120)].
Proof.
  apply (X3_first_pass_registers_saved_file
           [("harness|arc|25", datetime.mk 2024 1 15 10 30 0 0)]
           "harness|arc|25" (datetime.mk 2025 3 2 8 5 59 120)).
  - reflexivity.
  - reflexivity.
  - simpl. lia.
Defined.

(** X4: for a run of 2023 or 2024 the second pass reads back from the
    details file of a task what [save] put in its name: the task, whose
    sanitized name is the config; the timestamp, whose sanitized ISO
    form is the split; and the file name, which behind ["**/"] is the
    path pattern.  The turn raises [KeyError] only when the registry has
    not the task. *)
Theorem X4_second_pass_reads_saved_file (last : list (string * string))
    (max_last task_name : string) (now : datetime.t) :
  good_task_name task_name = true ->
  datetime.year now = 2023%N \/ datetime.year now = 2024%N ->
  read_file_info last max_last (details_repo_path task_name now)
  = match dict.get last task_name with
    | None => Raise (KeyError task_name)
    | Some last_date =>
        Ok (mk_file_info task_name (re.sub_W task_name)
              (re.sub_not_w_dot (datetime.isoformat now))
              (re.sub_not_w_dot last_date)
              ("**/" +:+ details_file_name task_name (date_id now)))
    end.
Proof.
  intros Hg Hy. apply good_task_name_spec in Hg as (Ht & Hd & Hr & H202).
  unfold read_file_info, detail_sanitized_task.
  rewrite details_repo_path_is_results, Hr.
  rewrite (details_repo_path_second_pass task_name now Hy Ht Hd H202).
  rewrite (details_repo_path_sanitized_eval_date _ _ Ht).
  by rewrite (details_repo_path_repo_file_name _ _ Ht).
Qed.

Lemma X4_second_pass_reads_saved_file_witness :
  read_file_info [("harness|arc|25", "2024-01-15T10:30:00")] "2024-01-15T10:30:00"
    (details_repo_path "harness|arc|25" (datetime.mk 2023 11 2 8 5 59 120))
  = Ok (mk_file_info "harness|arc|25" "harness_arc_25" "2023_11_02T08_05_59.000120"
          "2024_01_15T10_30_00"
          "**/details_harness|arc|25_2023-11-02T08-05-59.000120.parquet").
Proof.
  apply (X4_second_pass_reads_saved_file
           [("harness|arc|25", "2024-01-15T10:30:00")] "2024-01-15T10:30:00"
           "harness|arc|25" (datetime.mk 2023 11 2 8 5 59 120)).
  - reflexivity.
  - left. reflexivity.
Defined.

(** X5: a run of 2020-2022 or of 2025-2029 breaks the card for good.
    The first pass cuts the name of its details file at ["_202"], the
    second at ["_2023"] and ["_2024"] only, so the second looks up the
    task with the timestamp still on it: on every listing that holds
    such a file the call raises and builds no config. *)
Theorem X5_saved_run_of_other_year_never_completes (files_in_repo : list string)
    (task_name : string) (now : datetime.t) :
  good_task_name task_name = true ->
  (2020 <= datetime.year now <= 2029)%N ->
  datetime.year now <> 2023%N -> datetime.year now <> 2024%N ->
  In (details_repo_path task_name now) files_in_repo ->
  is_ok (recreate_metadata_card files_in_repo) = false.
Proof.
  intros Hg Hy H23 H24 Hin. apply good_task_name_spec in Hg as (Ht & Hd & Hr & H202).
  destruct (details_repo_path_second_pass_stale task_name now Hy H23 H24 Ht Hd H202)
    as [_ Hk].
  assert (Hres : is_results (details_repo_path task_name now) = false)
    by (by rewrite details_repo_path_is_results).
  assert (Hp : In (details_repo_path task_name now) (parquet_files_of files_in_repo)).
  { apply filter_In. split; [exact Hin | apply details_repo_path_is_parquet]. }
  unfold recreate_metadata_card, configs_of.
  destruct (last_eval_dates [] _) as [last|] eqn:Hl; [|reflexivity].
  cbn [mbind result_bind].
  destruct (max_last_eval_date last) as [max_last|]; [|reflexivity].
  cbn [mbind result_bind].
  match goal with
  | |- context [add_files ?m ?l ?x ?s ?p] =>
      pose proof (add_files_raises m l x p _ Hp) as Hraise
  end.
  rewrite (fun H => is_ok_bind_false _ _ (Hraise H _)); [reflexivity|].
  intros st. by rewrite (add_file_stale_name _ _ _ _ _ _ Hl Hres Hk).
Qed.

Lemma X5_saved_run_of_other_year_never_completes_witness :
  is_ok (recreate_metadata_card
           ["results_2025-03-02T08-05-59.000120.json";
            "results_2025-03-02T08-05-59.000120.parquet";
            details_repo_path "harness|arc|25" (datetime.mk 2025 3 2 8 5 59 120)])
  = false.
Proof.
  apply (X5_saved_run_of_other_year_never_completes _ "harness|arc|25"
           (datetime.mk 2025 3 2 8 5 59 120)).
  - reflexivity.
  - simpl. lia.
  - discriminate.
  - discriminate.
  - simpl. right. right. left. reflexivity.
Defined.

(** The first pass reads a detail file of a folder [save] has named. *)
Lemma saved_folder_reads (sub_file : string) :
  saved_folder sub_file -> first_pass_reads sub_file = true.
Proof.
  intros (now & Hv & Hd). unfold first_pass_reads, eval_date_of, iso_date_of.
  rewrite Hd, (iso_date_of_dir_date_id now Hv). apply orb_true_r.
Qed.

(** X6: with more than one [.json] file in the listing, and every
    detail file in a folder named with the token of a date, as [save]
    names it, the call completes exactly when there is a detail file
    and the task name the second pass cuts from each detail file is one
    the first pass has cut from some detail file. *)
Theorem X6_multiple_results_completion (files_in_repo : list string) :
  (1 < length (results_files_of files_in_repo))%nat ->
  (forall f, In f (parquet_files_of files_in_repo) -> is_results f = false ->
     saved_folder f) ->
  is_ok (recreate_metadata_card files_in_repo)
  = completes_saved (parquet_files_of files_in_repo).
Proof.
  intros Hm Hs. unfold recreate_metadata_card.
  apply Nat.ltb_lt in Hm. rewrite Hm, configs_of_multiple_is_ok.
  unfold completes_multiple, completes_saved.
  assert (forallb first_pass_reads (parquet_files_of files_in_repo) = true) as ->;
    [|reflexivity].
  apply forallb_forall. intros f Hf. destruct (is_results f) eqn:Hr.
  - unfold first_pass_reads. by rewrite Hr.
  - by apply saved_folder_reads, Hs.
Qed.

Lemma X6_multiple_results_completion_witness :
  is_ok (recreate_metadata_card ["a.json"; "b.json"; jan_file; foo_2025_file])
  = completes_saved (parquet_files_of ["a.json"; "b.json"; jan_file; foo_2025_file]).
Proof.
  apply (X6_multiple_results_completion ["a.json"; "b.json"; jan_file; foo_2025_file]).
  - simpl. lia.
  - intros f Hf _. vm_compute in Hf. destruct Hf as [<-|[<-|[]]].
    + exists (datetime.mk 2024 1 15 10 30 0 123456). split; reflexivity.
    + exists (datetime.mk 2025 1 15 10 30 0 123456). split; reflexivity.
Defined.

(** ** A repository filled by runs of 2023 and 2024 *)

Section history.

Local Open Scope N_scope.

Lemma history_file_reads (task_name : string) (now : datetime.t) :
  good_task_name task_name = true -> run_2023_2024 now = true ->
  is_results (details_repo_path task_name now) = false
  /\ first_pass_task_name (details_repo_path task_name now) = task_name
  /\ second_pass_task_name (details_repo_path task_name now) = task_name
  /\ eval_date_of (details_repo_path task_name now) = Some now.
Proof.
  intros Hg Hr. apply good_task_name_spec in Hg as (Ht & Hd & Hres & H202).
  apply run_2023_2024_spec in Hr as [Hv Hy].
  split; [by rewrite details_repo_path_is_results|]. split.
  - apply details_repo_path_first_pass; [lia | done..].
  - split; [by apply details_repo_path_second_pass|].
    by apply details_repo_path_eval_date.
Qed.

Lemma from_history_reads (sub_file : string) :
  from_history sub_file ->
  first_pass_reads sub_file = true
  /\ (is_results sub_file = false ->
      first_pass_task_name sub_file = second_pass_task_name sub_file).
Proof.
  unfold first_pass_reads. intros [Hr|(t & now & Hg & Hn & ->)].
  - rewrite Hr. split; [reflexivity | discriminate].
  - destruct (history_file_reads t now Hg Hn) as (_ & H1 & H2 & ->).
    split; [apply orb_true_r | congruence].
Qed.

Lemma history_completes_multiple (parquet_files : list string) :
  (forall f, In f parquet_files -> from_history f) ->
  (exists f, In f parquet_files /\ is_results f = false) ->
  completes_multiple parquet_files = true.
Proof.
  intros Hh (f0 & Hf0 & Hr0). unfold completes_multiple.
  rewrite !andb_true_iff. repeat split.
  - apply forallb_forall. intros f Hf. by apply from_history_reads, Hh.
  - apply existsb_exists. exists f0. by rewrite Hr0.
  - apply forallb_forall. intros f Hf. unfold second_pass_finds.
    destruct (is_results f) eqn:Hr; [reflexivity|]. cbn [orb].
    apply existsb_exists. exists f. split; [exact Hf|]. rewrite Hr. cbn [negb andb].
    apply String.eqb_eq. by apply (from_history_reads f (Hh f Hf)).
Qed.

Lemma eval_dates_of_In (task : string) (parquet_files : list string) (d : datetime.t) :
  In d (eval_dates_of task parquet_files)
  <-> exists g, In g parquet_files /\ is_results g = false
                /\ first_pass_task_name g = task /\ eval_date_of g = Some d.
Proof.
  unfold eval_dates_of. rewrite in_flat_map. split.
  - intros (g & Hg & Hd). exists g. split; [exact Hg|].
    destruct (is_results g); [destruct Hd|]. cbn [negb andb] in Hd.
    destruct (String.eqb_spec (first_pass_task_name g) task) as [->|]; [|destruct Hd].
    destruct (eval_date_of g) as [d'|]; [|destruct Hd].
    destruct Hd as [->|[]]. done.
  - intros (g & Hg & Hr & <- & He). exists g. split; [exact Hg|].
    rewrite Hr, String.eqb_refl, He. by left.
Qed.

Lemma latest_date_is (l : list datetime.t) (d : datetime.t) :
  List.Forall (fun x => datetime.valid x = true) l ->
  In d l ->
  (forall x, In x l -> datetime.packed x <= datetime.packed d) ->
  latest_date l = Some d.
Proof.
  intros Hv Hin Hmax. destruct l as [|a l]; [destruct Hin|].
  unfold latest_date. cbn [latest_from fold_left]. fold (latest_from (Some a) l).
  rewrite latest_from_Some. f_equal.
  destruct (fold_max_spec l a) as [Hm Hle].
  rewrite List.Forall_forall in Hv.
  apply packed_inj.
  - apply fold_max_valid; [apply Hv; by left|].
    apply List.Forall_forall. intros x Hx. apply Hv. by right.
  - by apply Hv.
  - apply N.le_antisymm; [by apply Hmax | by apply Hle].
Qed.

(** The date the first pass registers for a task of the history: that
    of its latest run. *)
Lemma history_latest_date (parquet_files : list string) (task_name : string)
    (now : datetime.t) :
  (forall f, In f parquet_files -> from_history f) ->
  good_task_name task_name = true -> run_2023_2024 now = true ->
  In (details_repo_path task_name now) parquet_files ->
  (forall now', run_2023_2024 now' = true ->
     In (details_repo_path task_name now') parquet_files ->
     datetime.ltb now now' = false) ->
  latest_date (eval_dates_of task_name parquet_files) = Some now.
Proof.
  intros Hh Hg Hn Hin Hlast.
  destruct (history_file_reads _ _ Hg Hn) as (Hr & H1 & _ & He).
  apply latest_date_is.
  - apply eval_dates_of_valid.
  - apply eval_dates_of_In. by exists (details_repo_path task_name now).
  - intros x Hx. apply eval_dates_of_In in Hx as (g & Hgin & Hgr & Hgt & Hgd).
    destruct (Hh g Hgin) as [Hres|(t' & now' & Hg' & Hn' & ->)]; [congruence|].
    destruct (history_file_reads _ _ Hg' Hn') as (_ & H1' & _ & He').
    assert (t' = task_name) as -> by congruence.
    assert (now' = x) as -> by congruence.
    specialize (Hlast x Hn' Hgin). unfold datetime.ltb in Hlast.
    apply N.ltb_ge in Hlast. exact Hlast.
Qed.

End history.

(** The parquet files of [two_runs], one by one. *)
Ltac two_runs_from_history :=
  let f := fresh "f" in
  let Hf := fresh "Hf" in
  intros f Hf; vm_compute in Hf;
  destruct Hf as [<-|[<-|[<-|[<-|[<-|[]]]]]];
  [ left; reflexivity
  | right; exists "harness|arc|25", run_nov_2023; repeat split; reflexivity
  | right; exists "mmlu", run_nov_2023; repeat split; reflexivity
  | left; reflexivity
  | right; exists "harness|arc|25", run_jan_2024; repeat split; reflexivity ].

(** X7: a repository filled by two runs or more of 2023 and 2024 gets
    its configs.  When the listing has more than one [.json] file, each
    of its parquet files is a results file or the details file [save]
    wrote for a well-named task in a run of these two years, and there
    is a details file, the call completes, whatever the order of the
    listing and whatever else it lists. *)
Theorem X7_history_completes (files_in_repo : list string) :
  (1 < length (results_files_of files_in_repo))%nat ->
  (forall f, In f (parquet_files_of files_in_repo) -> from_history f) ->
  (exists f, In f (parquet_files_of files_in_repo) /\ is_results f = false) ->
  is_ok (recreate_metadata_card files_in_repo) = true.
Proof.
  intros Hm Hh Hd. unfold recreate_metadata_card.
  apply Nat.ltb_lt in Hm. rewrite Hm, configs_of_multiple_is_ok.
  by apply history_completes_multiple.
Qed.

Lemma X7_history_completes_witness :
  is_ok (recreate_metadata_card two_runs) = true.
Proof.
  apply X7_history_completes.
  - vm_compute. lia.
  - two_runs_from_history.
  - exists (details_repo_path "mmlu" run_nov_2023).
    split; [|reflexivity]. vm_compute. right. right. left. reflexivity.
Defined.

(** X8: in such a repository the config of a task points its
    ["latest"] split at the latest run of the task.  When the call
    completes and every parquet file of the listing is a results file
    or the details file of a well-named task in a run of 2023 or 2024,
    then for the details file of a task in a run that no listed run of
    the task follows, the config named with the sanitized task name has
    a split named with the sanitized timestamp of the run and a split
    ["latest"], and both list the file behind ["**/"]. *)
Theorem X8_history_latest_split (files_in_repo : list string) (task_name : string)
    (now : datetime.t) :
  is_ok (recreate_metadata_card files_in_repo) = true ->
  (forall f, In f (parquet_files_of files_in_repo) -> from_history f) ->
  good_task_name task_name = true -> run_2023_2024 now = true ->
  In (details_repo_path task_name now) files_in_repo ->
  (forall now', run_2023_2024 now' = true ->
     In (details_repo_path task_name now') files_in_repo ->
     datetime.ltb now now' = false) ->
  exists data_files : list data_file,
    data_files_of (recreate_metadata_card files_in_repo) (re.sub_W task_name)
    = Some data_files
    /\ has_path data_files (re.sub_not_w_dot (datetime.isoformat now))
         ("**/" +:+ details_file_name task_name (date_id now))
    /\ has_path data_files "latest"
         ("**/" +:+ details_file_name task_name (date_id now)).
Proof.
  unfold recreate_metadata_card. intros Hok Hh Hg Hn Hin Hlast.
  assert (Hp : In (details_repo_path task_name now) (parquet_files_of files_in_repo)).
  { apply filter_In. split; [exact Hin | apply details_repo_path_is_parquet]. }
  assert (Hdate : latest_date (eval_dates_of task_name (parquet_files_of files_in_repo))
                  = Some now).
  { apply history_latest_date; try assumption.
    intros now' Hn' Hin'. apply Hlast; [exact Hn'|].
    by apply filter_In in Hin' as [? _]. }
  destruct (history_file_reads _ _ Hg Hn) as (Hr & _ & H2 & _).
  pose proof (good_task_name_spec _ Hg) as (Ht & _).
  destruct (configs_of _ _) as [configs|] eqn:E; [clear Hok | discriminate Hok].
  apply configs_of_Ok in E as (last & max_last & st & Hl & _ & Hst & ->).
  destruct (add_files_adds _ _ _ _ _ _ _ Hp Hr Hst) as (iso & Hget & Hd & Hlatest).
  unfold detail_sanitized_task in Hd, Hlatest. rewrite H2 in Hget, Hd, Hlatest.
  rewrite (details_repo_path_sanitized_eval_date _ _ Ht) in Hd, Hlatest.
  rewrite (details_repo_path_repo_file_name _ _ Ht) in Hd, Hlatest.
  rewrite dict_get_iso_dates, (last_eval_dates_get _ _ _ _ Hl) in Hget.
  cbn [dict.get] in Hget. fold (latest_date (eval_dates_of task_name
                                   (parquet_files_of files_in_repo))) in Hget.
  rewrite Hdate in Hget. injection Hget as <-.
  destruct Hd as (data_files & Hk & Hpath).
  destruct (Hlatest eq_refl) as (data_files' & Hk' & Hpath').
  exists data_files. cbn [data_files_of]. split; [exact Hk|]. split; [exact Hpath|].
  congruence.
Qed.

Lemma X8_history_latest_split_witness :
  exists data_files : list data_file,
    data_files_of (recreate_metadata_card two_runs) "harness_arc_25"
    = Some data_files
    /\ has_path data_files "2024_01_15T10_30_00"
         "**/details_harness|arc|25_2024-01-15T10-30-00.parquet"
    /\ has_path data_files "latest"
         "**/details_harness|arc|25_2024-01-15T10-30-00.parquet".
Proof.
  apply (X8_history_latest_split two_runs "harness|arc|25" run_jan_2024).
  - vm_compute. reflexivity.
  - two_runs_from_history.
  - reflexivity.
  - reflexivity.
  - vm_compute. do 7 right. left. reflexivity.
  - intros now' Hn' Hin'.
    assert (E : eval_date_of (details_repo_path "harness|arc|25" now') = Some now').
    { apply run_2023_2024_spec in Hn' as [Hv _].
      by apply details_repo_path_eval_date. }
    cbn [two_runs run_files app map In] in Hin'.
    destruct Hin' as [H|[H|[H|[H|[H|[H|[H|[H|[]]]]]]]]];
      rewrite <- H in E; vm_compute in E; try discriminate E;
      injection E as <-; reflexivity.
Defined.

(** ** The repository of the details *)

(** Replacing one character by a string works piece by piece. *)
Lemma replace_char_app (c : ascii) (new a b : string) :
  str.replace (String c "") new (a +:+ b)
  = str.replace (String c "") new a +:+ str.replace (String c "") new b.
Proof.
  unfold str.replace. induction a as [|x a IH]; [reflexivity|].
  change (String x a +:+ b) with (String x (a +:+ b)).
  cbn [str.replace_from]. rewrite !prefix_cons, !prefix_nil_l, !andb_true_r.
  cbn [String.length Nat.sub]. rewrite IH.
  destruct (Ascii.eqb c x); [by rewrite string_app_assoc | reflexivity].
Qed.

Lemma replace_char_self (c : ascii) (new : string) :
  str.replace (String c "") new (String c "") = new.
Proof.
  unfold str.replace. cbn [str.replace_from].
  rewrite prefix_cons, Ascii.eqb_refl. cbn. apply string_app_nil_r.
Qed.

(** The replaced character is left only where [new] brings it back. *)
Lemma count_replace_char (c : ascii) (new s : string) :
  str.count c (str.replace (String c "") new s) = (str.count c s * str.count c new)%nat.
Proof.
  induction s as [|x s IH]; [reflexivity|].
  change (String x s) with (String x "" +:+ s).
  rewrite replace_char_app, !count_app, IH.
  destruct (Ascii.eqb_spec x c) as [->|Hne].
  - rewrite replace_char_self. cbn [str.count]. rewrite Ascii.eqb_refl. lia.
  - apply Ascii.eqb_neq in Hne.
    rewrite (replace_absent (String c "") new (String x "")).
    + cbn [str.count]. rewrite Hne. lia.
    + apply contains_count_0. cbn [str.count]. by rewrite Hne.
Qed.

Lemma sanitized_model_name_no_slash (model_name : string) :
  str.count "/" (sanitized_model_name model_name) = 0%nat.
Proof. unfold sanitized_model_name. rewrite count_replace_char. cbn. lia. Qed.

(** X9: the repository of the details has the organisation before its
    one slash, whatever slashes the model name has; so the card is
    that of the Open LLM Leaderboard exactly when the organisation is
    ["open-llm-leaderboard"], for public and private details alike. *)
Theorem X9_details_repo_id_organisation (hub_results_org model_name : string)
    (public : bool) :
  str.count "/" hub_results_org = 0%nat ->
  str.count "/" (details_repo_id hub_results_org model_name public) = 1%nat
  /\ str.split_head "/" (details_repo_id hub_results_org model_name public)
     = hub_results_org
  /\ is_open_llm_leaderboard (details_repo_id hub_results_org model_name public)
     = String.eqb hub_results_org "open-llm-leaderboard".
Proof.
  intros Horg.
  assert (Hshape : exists rest,
             details_repo_id hub_results_org model_name public
             = hub_results_org +:+ String "/" rest
             /\ str.count "/" rest = 0%nat).
  { unfold details_repo_id. cbv zeta.
    destruct public.
    - exists ("details_" +:+ sanitized_model_name model_name). split; [reflexivity|].
      rewrite count_app, sanitized_model_name_no_slash. reflexivity.
    - exists ("details_" +:+ sanitized_model_name model_name +:+ "_private").
      split.
      + rewrite !string_app_assoc. reflexivity.
      + rewrite !count_app, sanitized_model_name_no_slash. reflexivity. }
  destruct Hshape as (rest & -> & Hrest).
  assert (Hhead : str.split_head "/" (hub_results_org +:+ String "/" rest)
                  = hub_results_org).
  { apply (split_head_app "/" "" hub_results_org rest); [reflexivity| |].
    - by apply contains_count_0.
    - by rewrite prefix_cons, Ascii.eqb_refl, prefix_nil_l. }
  split; [|split].
  - rewrite count_app, Horg. cbn [str.count]. rewrite Hrest. reflexivity.
  - exact Hhead.
  - unfold is_open_llm_leaderboard. by rewrite Hhead.
Qed.

Lemma X9_details_repo_id_organisation_witness :
  str.count "/" (details_repo_id "open-llm-leaderboard" "meta/llama/7b" false) = 1%nat
  /\ str.split_head "/" (details_repo_id "open-llm-leaderboard" "meta/llama/7b" false)
     = "open-llm-leaderboard"
  /\ is_open_llm_leaderboard (details_repo_id "open-llm-leaderboard" "meta/llama/7b" false)
     = String.eqb "open-llm-leaderboard" "open-llm-leaderboard".
Proof.
  apply (X9_details_repo_id_organisation "open-llm-leaderboard" "meta/llama/7b" false).
  reflexivity.
Defined.

(** X10: the repository does not tell a slash of the model name from
    two underscores: the details of the models [a/b] and [a__b] of one
    organisation go to the same repository. *)
Theorem X10_details_repo_id_collision (hub_results_org a b : string) (public : bool) :
  details_repo_id hub_results_org (a +:+ "/" +:+ b) public
  = details_repo_id hub_results_org (a +:+ "__" +:+ b) public.
Proof.
  unfold details_repo_id, sanitized_model_name. cbv zeta.
  rewrite !replace_char_app.
  rewrite (replace_char_self "/" "__").
  rewrite (replace_absent "/" "__" "__") by reflexivity.
  reflexivity.
Qed.

(** ** The final dict *)

Lemma rename_eval_names_snoc {V} (v : list (string * V)) (k : string) (x : V) :
  rename_eval_names (v ++ [(k, x)])
  = dict.set (rename_eval_names v) (str.replace "|" ":" k) x.
Proof. unfold rename_eval_names. by rewrite fold_left_app. Qed.

Lemma dict_set_new {V} (d : list (string * V)) (k : string) (x : V) :
  ~ In k (dict.keys d) -> dict.set d k x = d ++ [(k, x)].
Proof.
  induction d as [|[k' x'] d IH]; [reflexivity|]. cbn [dict.keys map fst In dict.set].
  intros Hn. destruct (String.eqb_spec k' k) as [->|Hne]; [tauto|].
  cbn [app]. f_equal. apply IH. unfold dict.keys. tauto.
Qed.

Lemma rename_eval_names_keys {V} (v : list (string * V)) (name : string) :
  In name (dict.keys (rename_eval_names v))
  <-> In name (map (fun kv => str.replace "|" ":" (fst kv)) v).
Proof.
  induction v as [|[k x] v IH] using rev_ind; [reflexivity|].
  rewrite rename_eval_names_snoc, dict_keys_set, map_app, in_app_iff, IH.
  cbn [map fst In]. intuition.
Qed.

Lemma rename_eval_names_NoDup {V} (v : list (string * V)) :
  List.NoDup (dict.keys (rename_eval_names v)).
Proof.
  induction v as [|[k x] v IH] using rev_ind; [constructor|].
  rewrite rename_eval_names_snoc. by apply dict_keys_set_NoDup.
Qed.

Lemma generate_final_dict_get {V} (to_dump : list (string * list (string * V)))
    (section : string) :
  dict.get (generate_final_dict to_dump) section
  = rename_eval_names <$> dict.get to_dump section.
Proof.
  induction to_dump as [|[k v] to_dump IH]; [reflexivity|].
  cbn [generate_final_dict map fst snd dict.get].
  destruct (String.eqb k section); [reflexivity | exact IH].
Qed.

(** X11: what [generate_final_dict] makes of a section.  No name of
    the final section has a ["|"]; a name has the score of the last
    entry of the section that is renamed to it, and is missing when
    there is none; and the final section is the section with every
    name rewritten, in the same order, exactly when no two entries get
    the same name - otherwise it has lost an entry. *)
Theorem X11_generate_final_dict_section {V} (to_dump : list (string * list (string * V)))
    (section : string) (scores : list (string * V)) :
  dict.get to_dump section = Some scores ->
  exists final : list (string * V),
    dict.get (generate_final_dict to_dump) section = Some final
    /\ (forall name, In name (dict.keys final) -> str.count "|" name = 0%nat)
    /\ (forall name,
          dict.get final name
          = snd <$> List.find (fun kv => String.eqb (str.replace "|" ":" (fst kv)) name)
                      (rev scores))
    /\ (List.NoDup (map (fun kv => str.replace "|" ":" (fst kv)) scores)
        <-> final = map (fun kv => (str.replace "|" ":" (fst kv), snd kv)) scores).
Proof.
  intros Hget. exists (rename_eval_names scores).
  split; [by rewrite generate_final_dict_get, Hget|]. clear Hget. split; [|split].
  - intros name Hin. apply rename_eval_names_keys, in_map_iff in Hin as (kv & <- & _).
    rewrite count_replace_char. cbn. lia.
  - intros name. induction scores as [|[k x] v IH] using rev_ind; [reflexivity|].
    rewrite rename_eval_names_snoc, rev_app_distr. cbn [rev app List.find fst].
    destruct (String.eqb_spec (str.replace "|" ":" k) name) as [->|Hne].
    + by rewrite dict_get_set_eq.
    + by rewrite dict_get_set_ne.
  - split; [|intros Heq].
    2: { pose proof (rename_eval_names_NoDup scores) as Hnd. rewrite Heq in Hnd.
         unfold dict.keys in Hnd. by rewrite map_map in Hnd. }
    induction scores as [|[k x] v IH] using rev_ind; [reflexivity|].
    rewrite map_app. cbn [map fst snd]. intros Hnd.
    apply List.NoDup_app_remove_r in Hnd as Hv.
    rewrite rename_eval_names_snoc, map_app. cbn [map fst snd].
    rewrite <- (IH Hv). apply dict_set_new.
    rewrite rename_eval_names_keys. intros Hin.
    apply List.NoDup_remove_2 in Hnd. rewrite app_nil_r in Hnd. contradiction.
Qed.

Lemma X11_generate_final_dict_section_witness :
  exists final : list (string * nat),
    dict.get (generate_final_dict
                [("results", [("a|b:c|5", 1%nat); ("all", 2%nat); ("a:b:c|5", 3%nat)])])
      "results" = Some final
    /\ (forall name, In name (dict.keys final) -> str.count "|" name = 0%nat)
    /\ (forall name,
          dict.get final name
          = snd <$> List.find (fun kv => String.eqb (str.replace "|" ":" (fst kv)) name)
                      (rev [("a|b:c|5", 1%nat); ("all", 2%nat); ("a:b:c|5", 3%nat)]))
    /\ (List.NoDup (map (fun kv => str.replace "|" ":" (fst kv))
                      [("a|b:c|5", 1%nat); ("all", 2%nat); ("a:b:c|5", 3%nat)])
        <-> final = map (fun kv => (str.replace "|" ":" (fst kv), snd kv))
                  [("a|b:c|5", 1%nat); ("all", 2%nat); ("a:b:c|5", 3%nat)]).
Proof.
  apply (X11_generate_final_dict_section
           [("results", [("a|b:c|5", 1%nat); ("all", 2%nat); ("a:b:c|5", 3%nat)])]
           "results").
  reflexivity.
Defined.

(** ** The files of the tensorboard folder *)

Section tensorboard.

Local Open Scope N_scope.

Lemma compare_cons (c d : ascii) (x y : string) :
  String.compare (String c x) (String d y)
  = match Ascii.compare c d with
    | Eq => String.compare x y
    | Lt => Lt
    | Gt => Gt
    end.
Proof. reflexivity. Qed.

Lemma compare_digit_char (a b : N) :
  Ascii.compare (datetime.digit_char a) (datetime.digit_char b)
  = N.compare (a mod 10) (b mod 10).
Proof.
  unfold Ascii.compare, datetime.digit_char.
  assert (Ha : a mod 10 < 10) by (apply N.mod_lt; lia).
  assert (Hb : b mod 10 < 10) by (apply N.mod_lt; lia).
  set (r := a mod 10) in *. set (q := b mod 10) in *. clearbody r q.
  rewrite !N_ascii_embedding by lia.
  destruct (N.compare_spec r q), (N.compare_spec (48 + r) (48 + q)); try reflexivity; lia.
Qed.

Lemma pad_S_app (w : nat) (n : N) (x : string) :
  datetime.pad (S w) n +:+ x
  = datetime.pad w (n / 10) +:+ String (datetime.digit_char n) x.
Proof.
  change (datetime.pad (S w) n)
    with (datetime.pad w (n / 10) +:+ String (datetime.digit_char n) "").
  by rewrite string_app_assoc.
Qed.

(** Numbers padded to one width compare as they do, whatever follows
    them. *)
Lemma compare_pad (w : nat) (a b : N) (x y : string) :
  (a mod 10 ^ N.of_nat w < b mod 10 ^ N.of_nat w ->
   String.compare (datetime.pad w a +:+ x) (datetime.pad w b +:+ y) = Lt)
  /\ (a mod 10 ^ N.of_nat w = b mod 10 ^ N.of_nat w ->
      String.compare (datetime.pad w a +:+ x) (datetime.pad w b +:+ y)
      = String.compare x y).
Proof.
  revert a b x y. induction w as [|w IH]; intros a b x y.
  - change (10 ^ N.of_nat 0) with 1. rewrite !N.mod_1_r. split; [lia | reflexivity].
  - rewrite !pad_S_app, Nat2N.inj_succ, N.pow_succ_r'.
    rewrite !N.Div0.mod_mul_r.
    destruct (IH (a / 10) (b / 10) (String (datetime.digit_char a) x)
                (String (datetime.digit_char b) y)) as [Hlt Heq].
    assert (Ha : a mod 10 < 10) by (apply N.mod_lt; lia).
    assert (Hb : b mod 10 < 10) by (apply N.mod_lt; lia).
    pose proof (compare_digit_char a b) as Hd.
    set (P := 10 ^ N.of_nat w) in *.
    set (ra := a mod 10) in *. set (rb := b mod 10) in *.
    set (qa := (a / 10) mod P) in *. set (qb := (b / 10) mod P) in *.
    clearbody ra rb qa qb. split; intros H.
    + destruct (N.lt_total qa qb) as [Hq|[Hq|Hq]]; [by apply Hlt | | lia].
      rewrite (Heq Hq), compare_cons, Hd.
      assert (ra < rb) as Hr by lia. by apply N.compare_lt_iff in Hr as ->.
    + assert (qa = qb /\ ra = rb) as [Hq Hr] by lia.
      rewrite (Heq Hq), compare_cons, Hd. subst rb. by rewrite N.compare_refl.
Qed.

(** X12: the prefix line 573 puts on the files of the folder sorts
    them by step, as the renaming is meant to: below ten million steps
    a file of an earlier step stands before every file of a later one
    in the order of the names.  Beyond, the prefix grows and the order
    is lost: the files of step 10000000 stand before those of step
    9999999. *)
Theorem X12_tensorboard_files_sorted_by_step (a b : N) (file file' : string) :
  a < b -> b < 10000000 ->
  String.compare (tensorboard_file_name a file) (tensorboard_file_name b file') = Lt
  /\ String.compare (tensorboard_file_name 10000000 file)
       (tensorboard_file_name 9999999 file') = Lt.
Proof.
  intros Hab Hb. split; [|reflexivity].
  unfold tensorboard_file_name, format_07d.
  assert ((a <? 10000000) = true) as -> by (apply N.ltb_lt; lia).
  assert ((b <? 10000000) = true) as -> by (by apply N.ltb_lt).
  apply compare_pad. change (10 ^ N.of_nat 7) with 10000000.
  rewrite !N.mod_small by lia. exact Hab.
Qed.

Lemma X12_tensorboard_files_sorted_by_step_witness :
  String.compare (tensorboard_file_name 900 "events.out.tfevents.2")
                 (tensorboard_file_name 1000 "events.out.tfevents.1") = Lt
  /\ String.compare (tensorboard_file_name 10000000 "events.out.tfevents.2")
       (tensorboard_file_name 9999999 "events.out.tfevents.1") = Lt.
Proof.
  apply (X12_tensorboard_files_sorted_by_step 900 1000); reflexivity.
Defined.

End tensorboard.

(** ** The results files of a history *)

Section history_results.

Local Open Scope N_scope.

Lemma add_file_adds_results (multiple_results : bool) (last : list (string * string))
    (max_last : string) (st st' : build_state) (sub_file : string) :
  is_results sub_file = true ->
  add_file multiple_results last max_last st sub_file = Ok st' ->
  config_has_path (card_metadata st') "results" (results_sanitized_eval_date sub_file)
    (os_path.basename sub_file)
  /\ (results_sanitized_eval_date sub_file = re.sub_not_w_dot max_last ->
      config_has_path (card_metadata st') "results" "latest"
        (os_path.basename sub_file)).
Proof.
  unfold add_file, read_file_info. intros Hr H. rewrite Hr in H.
  cbn [mbind result_bind] in H.
  set (fi := mk_file_info _ _ _ _ _) in H.
  destruct (add_entry multiple_results fi st) as [st1|] eqn:E1; [|discriminate].
  cbn [mbind result_bind] in H. injection H as <-.
  pose proof (add_entry_adds _ _ _ _ E1) as Hd. split.
  - by apply add_latest_keeps.
  - intros Heq. by apply (add_latest_adds fi st1 _ _ Heq Hd).
Qed.

Lemma add_files_adds_results (multiple_results : bool) (last : list (string * string))
    (max_last : string) (parquet_files : list string) (st st' : build_state)
    (sub_file : string) :
  In sub_file parquet_files -> is_results sub_file = true ->
  add_files multiple_results last max_last st parquet_files = Ok st' ->
  config_has_path (card_metadata st') "results" (results_sanitized_eval_date sub_file)
    (os_path.basename sub_file)
  /\ (results_sanitized_eval_date sub_file = re.sub_not_w_dot max_last ->
      config_has_path (card_metadata st') "results" "latest"
        (os_path.basename sub_file)).
Proof.
  intros Hin Hr. revert st. induction parquet_files as [|g l IH]; [destruct Hin|].
  intros st. simpl.
  destruct (add_file _ _ _ st g) as [st1|] eqn:E; [|discriminate].
  cbn [mbind result_bind]. intros H.
  destruct Hin as [->|Hin]; [|by apply (IH Hin st1)].
  destruct (add_file_adds_results _ _ _ _ _ _ Hr E) as [Hd Hlatest].
  split.
  - by apply (add_files_keeps _ _ _ _ _ _ _ _ _ H).
  - intros Heq. by apply (add_files_keeps _ _ _ _ _ _ _ _ _ H), Hlatest.
Qed.

Lemma latest_date_In (l : list datetime.t) (d : datetime.t) :
  latest_date l = Some d -> In d l.
Proof.
  destruct l as [|a l]; [discriminate|].
  unfold latest_date. cbn [latest_from fold_left]. fold (latest_from (Some a) l).
  rewrite latest_from_Some. intros [= <-]. apply fold_max_spec.
Qed.

(** The largest date of the registry of a history is that of the run
    no listed run follows. *)
Lemma history_max_last (parquet_files : list string) (last : list (string * datetime.t))
    (max_last : datetime.t) (task_name : string) (now : datetime.t) :
  (forall f, In f parquet_files -> from_history f) ->
  good_task_name task_name = true -> run_2023_2024 now = true ->
  In (details_repo_path task_name now) parquet_files ->
  (forall task_name' now',
     good_task_name task_name' = true -> run_2023_2024 now' = true ->
     In (details_repo_path task_name' now') parquet_files ->
     datetime.ltb now now' = false) ->
  last_eval_dates [] parquet_files = Ok last ->
  max_last_eval_date last = Ok max_last ->
  max_last = now.
Proof.
  intros Hh Hg Hn Hin Hlast Hl Hm.
  assert (Hnd : List.NoDup (dict.keys last))
    by (apply (last_eval_dates_NoDup _ _ _ Hl); constructor).
  assert (Hget : forall k d, dict.get last k = Some d ->
                 In d (eval_dates_of k parquet_files)).
  { intros k d Hk. rewrite (last_eval_dates_get _ _ _ _ Hl) in Hk.
    by apply latest_date_In. }
  assert (Hnow : dict.get last task_name = Some now).
  { rewrite (last_eval_dates_get _ _ _ _ Hl). cbn [dict.get].
    apply history_latest_date; try assumption.
    intros now' Hn'. by apply Hlast. }
  rewrite max_last_eval_date_fold in Hm.
  destruct (dict.values last) as [|d0 rest] eqn:Ev; [discriminate|].
  injection Hm as <-.
  destruct (fold_max_spec rest d0) as [Hmin Hmax]. rewrite <- Ev in Hmin, Hmax.
  set (m := fold_left datetime.max rest d0) in *. clearbody m.
  assert (Hmk : exists k, dict.get last k = Some m).
  { apply in_map_iff in Hmin as [[k v] [Hv Hkv]]. simpl in Hv. subst v.
    exists k. by apply dict_get_In. }
  destruct Hmk as [k Hk]. apply Hget, eval_dates_of_In in Hk as (g & Hgin & Hgr & _ & Hgd).
  destruct (Hh g Hgin) as [Hres|(t' & now' & Hg' & Hn' & ->)]; [congruence|].
  destruct (history_file_reads _ _ Hg' Hn') as (_ & _ & _ & He').
  assert (now' = m) as -> by congruence.
  apply run_2023_2024_spec in Hn as Hv. apply run_2023_2024_spec in Hn' as Hv'.
  apply packed_inj; [tauto | tauto |].
  apply N.le_antisymm.
  - specialize (Hlast t' m Hg' Hn' Hgin). unfold datetime.ltb in Hlast.
    by apply N.ltb_ge in Hlast.
  - apply Hmax. apply in_map_iff. exists (task_name, now). split; [reflexivity|].
    by apply dict_get_In.
Qed.

(** The extension behind the token of a run, as [replace] rewrites
    it. *)
Lemma replace_extension (e : ascii) (ext new pre : string) (now : datetime.t) :
  datetime.digit_val e = None ->
  str.count "." pre = 0%nat ->
  let frac := if (datetime.microsecond now =? 0)%N then ""
              else "." +:+ datetime.pad 6 (datetime.microsecond now) in
  str.replace (String "." (String e ext)) new (pre +:+ frac +:+ String "." (String e ext))
  = pre +:+ frac +:+ new.
Proof.
  intros He Hpre frac.
  rewrite (replace_no_first "." (String e ext) new pre) by exact Hpre.
  f_equal. subst frac.
  assert (Hend : str.replace (String "." (String e ext)) new (String "." (String e ext))
                 = new).
  { rewrite <- (string_app_nil_r (String "." (String e ext))) at 2.
    rewrite (replace_head "." (String e ext) new ""). apply string_app_nil_r. }
  destruct (_ =? _)%N; [exact Hend|].
  destruct (pad_first 5 (datetime.microsecond now)) as (d & rest & Hpad & Hd).
  assert (Hcnt : str.count "." (datetime.pad 6 (datetime.microsecond now)) = 0%nat)
    by (by apply count_pad).
  set (P := datetime.pad 6 (datetime.microsecond now)) in *.
  set (E := String "." (String e ext)) in *.
  change (("." +:+ P) +:+ E) with (String "." (P +:+ E)).
  change (("." +:+ P) +:+ new) with (String "." (P +:+ new)).
  rewrite replace_step.
  - f_equal. subst E. rewrite (replace_no_first "." (String e ext) new P) by exact Hcnt.
    by rewrite Hend.
  - rewrite Hpad. subst E.
    change (String d rest +:+ ?x) with (String d (rest +:+ x)).
    rewrite !prefix_cons.
    destruct (Ascii.eqb_spec e d) as [<-|]; [by destruct Hd | by rewrite andb_false_r].
Qed.

Lemma results_parquet_reads (now : datetime.t) :
  is_results ("results_" +:+ date_id now +:+ ".parquet") = true
  /\ str.contains ".parquet" ("results_" +:+ date_id now +:+ ".parquet") = true
  /\ os_path.basename ("results_" +:+ date_id now +:+ ".parquet")
     = "results_" +:+ date_id now +:+ ".parquet"
  /\ results_sanitized_eval_date ("results_" +:+ date_id now +:+ ".parquet")
     = re.sub_not_w_dot (datetime.isoformat now).
Proof.
  assert (Hb : os_path.basename ("results_" +:+ date_id now +:+ ".parquet")
               = "results_" +:+ date_id now +:+ ".parquet").
  { apply basename_no_sep. rewrite !count_app, date_id_count by done. reflexivity. }
  split; [|split; [|split; [exact Hb|]]].
  - unfold is_results. apply (contains_infix "results_" "" (date_id now +:+ ".parquet")).
  - do 2 apply contains_app_r. reflexivity.
  - unfold results_sanitized_eval_date. rewrite Hb.
    rewrite (replace_head "r" "esults_" "" (date_id now +:+ ".parquet")).
    rewrite (replace_absent "results_" "" (date_id now +:+ ".parquet")).
    + change ("" +:+ ?x) with x.
      destruct (date_id_frac now) as (pre & Hpre & Hd). rewrite Hd at 1.
      rewrite string_app_assoc.
      rewrite (replace_extension "p" "arquet" "" pre now eq_refl Hpre).
      rewrite string_app_nil_r, <- Hd. apply sub_not_w_dot_date_id.
    + apply (contains_no_char "s"); [simpl; lia|].
      rewrite count_app, date_id_count by done. reflexivity.
Qed.

End history_results.

(** No details file of [two_runs] is of a run after [run_jan_2024]. *)
Ltac two_runs_latest :=
  let now' := fresh "now'" in
  let Hg := fresh "Hg" in
  let Hn := fresh "Hn" in
  let Hin := fresh "Hin" in
  let E := fresh "E" in
  let H := fresh "H" in
  intros ? now' Hg Hn Hin;
  match type of Hin with
  | In (details_repo_path ?t now') _ =>
      assert (E : eval_date_of (details_repo_path t now') = Some now')
        by (apply details_repo_path_eval_date;
            [ apply run_2023_2024_spec in Hn; tauto
            | apply good_task_name_spec in Hg; tauto ])
  end;
  cbn [two_runs run_files app map In] in Hin;
  destruct Hin as [H|[H|[H|[H|[H|[H|[H|[H|[]]]]]]]]];
  rewrite <- H in E; vm_compute in E; try discriminate E;
  injection E as <-; reflexivity.

(** X13: in a repository filled by runs of 2023 and 2024, the results
    file the card quotes is one of the latest run.  When the configs
    are built, the run of a details file is followed by no listed run
    of any task, and its results file is listed, then line 445 does not
    raise: it picks a [.json] file of the listing that has the token of
    that run in its name. *)
Theorem X13_history_last_results_file (files_in_repo : list string) (task_name : string)
    (now : datetime.t) :
  is_ok (recreate_metadata_card files_in_repo) = true ->
  (forall f, In f (parquet_files_of files_in_repo) -> from_history f) ->
  good_task_name task_name = true -> run_2023_2024 now = true ->
  In (details_repo_path task_name now) files_in_repo ->
  (forall task_name' now',
     good_task_name task_name' = true -> run_2023_2024 now' = true ->
     In (details_repo_path task_name' now') files_in_repo ->
     datetime.ltb now now' = false) ->
  In (results_file_name (date_id now)) files_in_repo ->
  exists f : string,
    last_results_file_of files_in_repo = Ok f
    /\ In f (results_files_of files_in_repo)
    /\ str.contains (date_id now) f = true.
Proof.
  unfold last_results_file_of, max_last_eval_date_results, recreate_metadata_card.
  intros Hok Hh Hg Hn Hin Hlast Hjson.
  assert (Hp : In (details_repo_path task_name now) (parquet_files_of files_in_repo)).
  { apply filter_In. split; [exact Hin | apply details_repo_path_is_parquet]. }
  destruct (configs_of _ _) as [configs|] eqn:E; [clear Hok | discriminate Hok].
  apply configs_of_Ok in E as (last & max_last & st & Hl & Hm & _ & _).
  rewrite Hl. cbn [mbind result_bind]. rewrite Hm. cbn [mbind result_bind].
  assert (max_last = now) as ->.
  { apply (history_max_last _ last max_last _ _ Hh Hg Hn Hp); [|exact Hl | exact Hm].
    intros t' now' Hg' Hn' Hin'. apply (Hlast t' now' Hg' Hn').
    by apply filter_In in Hin' as [? _]. }
  unfold last_results_file. fold (date_id now).
  assert (Hf : In (results_file_name (date_id now))
                 (List.filter (str.contains (date_id now))
                    (results_files_of files_in_repo))).
  { apply filter_In. split.
    - apply filter_In. split; [exact Hjson|].
      unfold results_file_name. do 2 apply contains_app_r. reflexivity.
    - unfold results_file_name. apply contains_infix. }
  destruct (List.filter _ _) as [|f l] eqn:Ef; [destruct Hf|].
  exists f. split; [reflexivity|].
  assert (Hfin : In f (List.filter (str.contains (date_id now))
                         (results_files_of files_in_repo)))
    by (rewrite Ef; by left).
  by apply filter_In in Hfin.
Qed.

Lemma X13_history_last_results_file_witness :
  exists f : string,
    last_results_file_of two_runs = Ok f
    /\ In f (results_files_of two_runs)
    /\ str.contains (date_id run_jan_2024) f = true.
Proof.
  apply (X13_history_last_results_file two_runs "harness|arc|25" run_jan_2024).
  - vm_compute. reflexivity.
  - two_runs_from_history.
  - reflexivity.
  - reflexivity.
  - vm_compute. do 7 right. left. reflexivity.
  - two_runs_latest.
  - vm_compute. do 5 right. left. reflexivity.
Defined.

(** X14: in such a repository the ["results"] config points its
    ["latest"] split at the results of the latest run.  When the configs
    are built and the run of a details file is followed by no listed
    run of any task, the parquet version of the results file of that
    run, if listed, is in the ["results"] config under the sanitized
    timestamp of the run and under ["latest"]. *)
Theorem X14_history_latest_results (files_in_repo : list string) (task_name : string)
    (now : datetime.t) :
  is_ok (recreate_metadata_card files_in_repo) = true ->
  (forall f, In f (parquet_files_of files_in_repo) -> from_history f) ->
  good_task_name task_name = true -> run_2023_2024 now = true ->
  In (details_repo_path task_name now) files_in_repo ->
  (forall task_name' now',
     good_task_name task_name' = true -> run_2023_2024 now' = true ->
     In (details_repo_path task_name' now') files_in_repo ->
     datetime.ltb now now' = false) ->
  In ("results_" +:+ date_id now +:+ ".parquet") files_in_repo ->
  exists data_files : list data_file,
    data_files_of (recreate_metadata_card files_in_repo) "results" = Some data_files
    /\ has_path data_files (re.sub_not_w_dot (datetime.isoformat now))
         ("results_" +:+ date_id now +:+ ".parquet")
    /\ has_path data_files "latest" ("results_" +:+ date_id now +:+ ".parquet").
Proof.
  unfold recreate_metadata_card. intros Hok Hh Hg Hn Hin Hlast Hres.
  assert (Hp : In (details_repo_path task_name now) (parquet_files_of files_in_repo)).
  { apply filter_In. split; [exact Hin | apply details_repo_path_is_parquet]. }
  destruct (results_parquet_reads now) as (Hr & Hq & Hb & Hd).
  assert (Hrp : In ("results_" +:+ date_id now +:+ ".parquet")
                  (parquet_files_of files_in_repo))
    by (apply filter_In; by split).
  destruct (configs_of _ _) as [configs|] eqn:E; [clear Hok | discriminate Hok].
  apply configs_of_Ok in E as (last & max_last & st & Hl & Hm & Hst & ->).
  assert (max_last = now) as ->.
  { apply (history_max_last _ last max_last _ _ Hh Hg Hn Hp); [|exact Hl | exact Hm].
    intros t' now' Hg' Hn' Hin'. apply (Hlast t' now' Hg' Hn').
    by apply filter_In in Hin' as [? _]. }
  destruct (add_files_adds_results _ _ _ _ _ _ _ Hrp Hr Hst) as [Hdated Hlatest].
  rewrite Hb, Hd in Hdated, Hlatest.
  destruct Hdated as (data_files & Hk & Hpath).
  destruct (Hlatest eq_refl) as (data_files' & Hk' & Hpath').
  exists data_files. cbn [data_files_of]. split; [exact Hk|]. split; [exact Hpath|].
  congruence.
Qed.

Lemma X14_history_latest_results_witness :
  exists data_files : list data_file,
    data_files_of (recreate_metadata_card two_runs) "results" = Some data_files
    /\ has_path data_files "2024_01_15T10_30_00" "results_2024-01-15T10-30-00.parquet"
    /\ has_path data_files "latest" "results_2024-01-15T10-30-00.parquet".
Proof.
  apply (X14_history_latest_results two_runs "harness|arc|25" run_jan_2024).
  - vm_compute. reflexivity.
  - two_runs_from_history.
  - reflexivity.
  - reflexivity.
  - vm_compute. do 7 right. left. reflexivity.
  - two_runs_latest.
  - vm_compute. do 6 right. left. reflexivity.
Defined.

(** ** When the call completes in single-result mode *)

Lemma insert_is_Some (configs : card) (k c : string) (es : list data_file) :
  is_Some (<[k := es]> configs !! c) <-> k = c \/ is_Some (configs !! c).
Proof.
  destruct (decide (k = c)) as [->|Hne].
  - rewrite lookup_insert_eq. split; [by left | by eexists].
  - rewrite lookup_insert_ne by done. split; [by right | by intros [?|?]].
Qed.

Lemma add_entry_single_dom (fi : file_info) (st st' : build_state) (c : string) :
  add_entry false fi st = Ok st' ->
  is_Some (card_metadata st' !! c)
  <-> sanitized_task fi = c \/ is_Some (card_metadata st !! c).
Proof.
  unfold add_entry. destruct (card_metadata st !! sanitized_task fi); [discriminate|].
  intros [= <-]. cbn [card_metadata]. apply insert_is_Some.
Qed.

Lemma add_latest_dom (fi : file_info) (st : build_state) (c : string) :
  is_Some (card_metadata (add_latest fi st) !! c) <-> is_Some (card_metadata st !! c).
Proof.
  unfold add_latest. destruct (String.eqb _ _); [|reflexivity].
  destruct (card_metadata st !! sanitized_task fi) as [es|] eqn:E; [|reflexivity].
  cbn [card_metadata]. rewrite insert_is_Some. split; [|by right].
  intros [<-|H]; [by rewrite E | exact H].
Qed.

Lemma merge_special_dom (fi : file_info) (st : build_state) (special_task c : string) :
  is_Some (card_metadata (merge_special fi st special_task) !! c)
  <-> is_Some (card_metadata st !! c)
      \/ (str.contains (re.sub_W special_task) (sanitized_task fi) = true
          /\ special_config_name special_task (task_name fi) = c).
Proof.
  unfold merge_special. destruct (str.contains _ _); [|split; [by left | by intros [?|[? _]]]].
  set (key := special_config_name special_task (task_name fi)).
  match goal with
  | |- context [if _ then match card_metadata ?s !! key with _ => _ end else _] =>
      assert (H1 : is_Some (card_metadata s !! c)
                   <-> key = c \/ is_Some (card_metadata st !! c));
      [|set (st1 := s) in *]
  end.
  { destruct (card_metadata st !! key); cbn [card_metadata]; apply insert_is_Some. }
  clearbody st1.
  assert (H2 : is_Some (card_metadata
                 (if String.eqb (sanitized_eval_date fi) (sanitized_last_eval_date_results fi)
                  then match card_metadata st1 !! key with
                       | Some former_entry =>
                           mk_build_state
                             (<[key := extend_split "latest" (repo_file_name fi) former_entry]>
                                (card_metadata st1)) true
                       | None => st1
                       end
                  else st1) !! c)
               <-> is_Some (card_metadata st1 !! c)).
  { destruct (String.eqb _ _); [|reflexivity].
    destruct (card_metadata st1 !! key) as [es|] eqn:E; [|reflexivity].
    cbn [card_metadata]. rewrite insert_is_Some. split; [|by right].
    intros [<-|H]; [by rewrite E | exact H]. }
  rewrite H2, H1. tauto.
Qed.

Lemma merge_specials_dom (fi : file_info) (specials : list string) (st : build_state)
    (c : string) :
  is_Some (card_metadata (fold_left (merge_special fi) specials st) !! c)
  <-> is_Some (card_metadata st !! c)
      \/ In c (flat_map (fun special_task =>
                           if str.contains (re.sub_W special_task) (sanitized_task fi)
                           then [special_config_name special_task (task_name fi)]
                           else [])
                 specials).
Proof.
  revert st. induction specials as [|sp l IH]; intros st.
  - simpl. tauto.
  - cbn [fold_left flat_map]. rewrite IH, merge_special_dom, in_app_iff.
    destruct (str.contains (re.sub_W sp) (sanitized_task fi)); simpl; intuition congruence.
Qed.

(** One turn of the second pass in single-result mode: when it
    completes, and which configs there are afterwards. *)
Lemma add_file_single (last : list (string * string)) (max_last : string)
    (st : build_state) (sub_file : string) (seen : list string) :
  (forall c, is_Some (card_metadata st !! c) <-> In c seen) ->
  is_ok (add_file false last max_last st sub_file)
  = (is_results sub_file
     || match dict.get last (second_pass_task_name sub_file) with
        | Some _ => true | None => false end)
    && negb (existsb (String.eqb (config_name_of sub_file)) seen)
  /\ forall st', add_file false last max_last st sub_file = Ok st' ->
       forall c, is_Some (card_metadata st' !! c)
                 <-> In c (config_names_of sub_file ++ seen).
Proof.
  intros Hseen.
  assert (Hclash : forall c,
             negb (existsb (String.eqb c) seen)
             = match card_metadata st !! c with Some _ => false | None => true end).
  { intros c. destruct (card_metadata st !! c) as [es|] eqn:E.
    - apply negb_false_iff, existsb_exists. exists c. split; [|apply String.eqb_refl].
      apply Hseen. rewrite E. by eexists.
    - apply negb_true_iff. destruct (existsb _ seen) eqn:Ex; [|reflexivity].
      apply existsb_exists in Ex as (x & Hx & Heq). apply String.eqb_eq in Heq as <-.
      apply Hseen in Hx. rewrite E in Hx. by destruct Hx. }
  unfold add_file, read_file_info, config_names_of, config_name_of.
  destruct (is_results sub_file) eqn:Hr.
  - cbn [mbind result_bind orb andb]. rewrite Hclash.
    set (fi := mk_file_info _ _ _ _ _).
    destruct (add_entry false fi st) as [st1|] eqn:E1.
    + cbn [mbind result_bind is_ok].
      unfold add_entry in E1. cbn [sanitized_task fi] in E1.
      split.
      * subst fi. cbn [sanitized_task] in E1.
        by destruct (card_metadata st !! "results").
      * intros st' [= <-] c. rewrite add_latest_dom.
        assert (E1' : add_entry false fi st = Ok st1).
        { unfold add_entry. exact E1. }
        rewrite (add_entry_single_dom fi st st1 c E1'), Hseen. reflexivity.
    + cbn [mbind result_bind is_ok]. split; [|discriminate].
      unfold add_entry in E1. subst fi. cbn [sanitized_task] in E1.
      by destruct (card_metadata st !! "results").
  - destruct (dict.get last (second_pass_task_name sub_file)) as [last_date|];
      [|split; [reflexivity | discriminate]].
    cbn [mbind result_bind orb andb]. rewrite Hclash.
    set (fi := mk_file_info _ _ _ _ _).
    destruct (add_entry false fi st) as [st1|] eqn:E1.
    + cbn [mbind result_bind is_ok]. split.
      * unfold add_entry in E1. subst fi. cbn [sanitized_task] in E1.
        by destruct (card_metadata st !! detail_sanitized_task sub_file).
      * intros st' Hst c.
        assert (st' = fold_left (merge_special fi) SPECIAL_TASKS (add_latest fi st1))
          as -> by congruence.
        rewrite (merge_specials_dom fi SPECIAL_TASKS), add_latest_dom.
        rewrite (add_entry_single_dom fi st st1 c E1), Hseen.
        unfold special_config_names. subst fi. cbn [sanitized_task task_name].
        cbn [app In]. rewrite in_app_iff. tauto.
    + cbn [mbind result_bind is_ok]. split; [|discriminate].
      unfold add_entry in E1. subst fi. cbn [sanitized_task] in E1.
      by destruct (card_metadata st !! detail_sanitized_task sub_file).
Qed.

Lemma add_files_single_is_ok (last : list (string * string)) (max_last : string)
    (parquet_files : list string) (st : build_state) (seen : list string) :
  (forall c, is_Some (card_metadata st !! c) <-> In c seen) ->
  is_ok (add_files false last max_last st parquet_files)
  = forallb (fun f => is_results f
                      || match dict.get last (second_pass_task_name f) with
                         | Some _ => true | None => false end)
      parquet_files
    && no_config_twice seen parquet_files.
Proof.
  revert st seen. induction parquet_files as [|f l IH]; intros st seen Hseen;
    [reflexivity|].
  cbn [add_files forallb no_config_twice].
  destruct (add_file_single last max_last st f seen Hseen) as [Hok Hdom].
  destruct (add_file false last max_last st f) as [st1|].
  - cbn [mbind result_bind]. rewrite (IH st1 _ (Hdom st1 eq_refl)).
    cbn [is_ok] in Hok. symmetry in Hok. apply andb_true_iff in Hok as [-> ->].
    reflexivity.
  - cbn [mbind result_bind is_ok] in *.
    destruct (_ || _); cbn [andb] in *; [|reflexivity].
    destruct (negb _); [discriminate | by rewrite andb_false_r].
Qed.

Lemma configs_of_single_is_ok (parquet_files : list string) :
  is_ok (configs_of false parquet_files)
  = completes_multiple parquet_files && no_config_twice [] parquet_files.
Proof.
  unfold configs_of, completes_multiple.
  rewrite <- (last_eval_dates_is_ok parquet_files []).
  destruct (last_eval_dates [] parquet_files) as [last|] eqn:Hl; [|reflexivity].
  cbn [mbind result_bind is_ok andb].
  rewrite <- (registry_empty _ _ Hl).
  destruct (max_last_eval_date last) as [max_last|]; [|reflexivity].
  cbn [mbind result_bind is_ok andb].
  rewrite (forallb_ext_in (second_pass_finds parquet_files)
             (fun f => is_results f
                       || match dict.get (iso_dates last) (second_pass_task_name f) with
                          | Some _ => true | None => false end)).
  - rewrite <- (add_files_single_is_ok _ (datetime.isoformat max_last) _
                  (mk_build_state ∅ false) []).
    + by destruct (add_files _ _ _ _ _).
    + intros c. cbn [card_metadata]. rewrite lookup_empty. split; [by intros [] | intros []].
  - intros f _. unfold second_pass_finds. by rewrite (registry_has_key _ _ _ Hl).
Qed.

(** X15: with one [.json] file at most in the listing the call
    completes exactly when lines 306-441 would complete on the same
    parquet files in multiple-results mode and, besides, no parquet file
    finds the config it writes to - ["results"], or the sanitized name
    of its task - among the configs the files before it have written
    to, merged configs included. *)
Theorem X15_single_result_completion (files_in_repo : list string) :
  (length (results_files_of files_in_repo) <= 1)%nat ->
  is_ok (recreate_metadata_card files_in_repo)
  = is_ok (configs_of true (parquet_files_of files_in_repo))
    && no_config_twice [] (parquet_files_of files_in_repo).
Proof.
  intros Hm. unfold recreate_metadata_card.
  assert ((1 <? length (results_files_of files_in_repo))%nat = false) as ->
      by (apply Nat.ltb_ge; exact Hm).
  by rewrite configs_of_single_is_ok, configs_of_multiple_is_ok.
Qed.

Lemma X15_single_result_completion_witness :
  is_ok (recreate_metadata_card
           (["README.md"] ++ run_files run_nov_2023 ["harness|arc|25"; "harness:arc:25"]))
  = is_ok (configs_of true
             (parquet_files_of
                (["README.md"]
                 ++ run_files run_nov_2023 ["harness|arc|25"; "harness:arc:25"])))
    && no_config_twice []
         (parquet_files_of
            (["README.md"] ++ run_files run_nov_2023 ["harness|arc|25"; "harness:arc:25"])).
Proof.
  apply (X15_single_result_completion
           (["README.md"] ++ run_files run_nov_2023 ["harness|arc|25"; "harness:arc:25"])).
  vm_compute. lia.
Defined.

(** ** The configs of the card *)

Lemma add_entry_dom (multiple_results : bool) (fi : file_info) (st st' : build_state)
    (c : string) :
  add_entry multiple_results fi st = Ok st' ->
  is_Some (card_metadata st' !! c)
  <-> sanitized_task fi = c \/ is_Some (card_metadata st !! c).
Proof.
  unfold add_entry.
  destruct multiple_results, (card_metadata st !! sanitized_task fi);
    try discriminate; intros [= <-]; cbn [card_metadata]; apply insert_is_Some.
Qed.

Lemma add_file_dom (multiple_results : bool) (last : list (string * string))
    (max_last : string) (st st' : build_state) (sub_file c : string) :
  add_file multiple_results last max_last st sub_file = Ok st' ->
  is_Some (card_metadata st' !! c)
  <-> In c (config_names_of sub_file) \/ is_Some (card_metadata st !! c).
Proof.
  unfold add_file, read_file_info, config_names_of, config_name_of.
  destruct (is_results sub_file) eqn:Hr.
  - cbn [mbind result_bind].
    set (fi := mk_file_info _ _ _ _ _).
    destruct (add_entry multiple_results fi st) as [st1|] eqn:E1; [|discriminate].
    cbn [mbind result_bind]. intros [= <-].
    rewrite add_latest_dom, (add_entry_dom _ fi st st1 c E1).
    subst fi. cbn [sanitized_task In]. tauto.
  - destruct (dict.get last (second_pass_task_name sub_file)) as [last_date|];
      [|discriminate].
    cbn [mbind result_bind].
    set (fi := mk_file_info _ _ _ _ _).
    destruct (add_entry multiple_results fi st) as [st1|] eqn:E1; [|discriminate].
    cbn [mbind result_bind]. intros Hst.
    assert (st' = fold_left (merge_special fi) SPECIAL_TASKS (add_latest fi st1))
      as -> by congruence.
    rewrite (merge_specials_dom fi SPECIAL_TASKS), add_latest_dom.
    rewrite (add_entry_dom _ fi st st1 c E1).
    unfold special_config_names. subst fi. cbn [sanitized_task task_name In]. tauto.
Qed.

Lemma add_files_dom (multiple_results : bool) (last : list (string * string))
    (max_last : string) (parquet_files : list string) (st st' : build_state)
    (c : string) :
  add_files multiple_results last max_last st parquet_files = Ok st' ->
  is_Some (card_metadata st' !! c)
  <-> (exists f, In f parquet_files /\ In c (config_names_of f))
      \/ is_Some (card_metadata st !! c).
Proof.
  revert st. induction parquet_files as [|g l IH]; intros st; simpl.
  - intros [= ->]. split; [by right | by intros [[? [[] _]]|?]].
  - destruct (add_file _ _ _ st g) as [st1|] eqn:E; [|discriminate].
    cbn [mbind result_bind]. intros H.
    rewrite (IH _ H), (add_file_dom _ _ _ _ _ _ _ E). split.
    + intros [(f & Hf & Hc)|[Hc|Hc]].
      * left. exists f. split; [by right | done].
      * left. exists g. split; [by left | done].
      * by right.
    + intros [(f & [->|Hf] & Hc)|Hc].
      * right. by left.
      * left. by exists f.
      * right. by right.
Qed.

(** X16: the configs of the card are those its parquet files write
    to, and no other.  When the call completes, a name is a config
    exactly when the listing has a results parquet file and the name is
    ["results"], or has a detail file and the name is the sanitized name
    of its task or one of its merged configs. *)
Theorem X16_configs_of_the_card (files_in_repo : list string) (config_name : string) :
  is_ok (recreate_metadata_card files_in_repo) = true ->
  is_Some (data_files_of (recreate_metadata_card files_in_repo) config_name)
  <-> exists f, In f (parquet_files_of files_in_repo)
                /\ In config_name (config_names_of f).
Proof.
  unfold recreate_metadata_card. intros Hok.
  destruct (configs_of _ _) as [configs|] eqn:E; [clear Hok | discriminate Hok].
  apply configs_of_Ok in E as (last & max_last & st & _ & _ & Hst & ->).
  cbn [data_files_of]. rewrite (add_files_dom _ _ _ _ _ _ _ Hst).
  cbn [card_metadata]. rewrite lookup_empty. split; [|by left].
  intros [H|[? ?]]; [exact H | discriminate].
Qed.

Lemma X16_configs_of_the_card_witness :
  is_Some (data_files_of (recreate_metadata_card two_runs) "mmlu")
  <-> exists f, In f (parquet_files_of two_runs) /\ In "mmlu" (config_names_of f).
Proof.
  apply (X16_configs_of_the_card two_runs "mmlu"). vm_compute. reflexivity.
Defined.

(** ** The merged configs *)

Lemma merge_special_adds (fi : file_info) (st : build_state) (special_task : string) :
  str.contains (re.sub_W special_task) (sanitized_task fi) = true ->
  config_has_path (card_metadata (merge_special fi st special_task))
    (special_config_name special_task (task_name fi))
    (sanitized_eval_date fi) (repo_file_name fi)
  /\ (sanitized_eval_date fi = sanitized_last_eval_date_results fi ->
      config_has_path (card_metadata (merge_special fi st special_task))
        (special_config_name special_task (task_name fi))
        "latest" (repo_file_name fi)).
Proof.
  intros Hc. unfold merge_special. rewrite Hc.
  set (key := special_config_name special_task (task_name fi)).
  match goal with
  | |- context [if _ then match card_metadata ?s !! key with _ => _ end else _] =>
      assert (H1 : config_has_path (card_metadata s) key (sanitized_eval_date fi)
                     (repo_file_name fi));
      [|set (st1 := s) in *]
  end.
  { destruct (card_metadata st !! key) as [fe|]; cbn [card_metadata];
      apply config_has_path_insert_eq; [apply extend_split_adds | apply (has_path_last [])]. }
  clearbody st1. destruct H1 as (es & Hes & Hp).
  destruct (String.eqb_spec (sanitized_eval_date fi) (sanitized_last_eval_date_results fi))
    as [Heq|Hne].
  - rewrite Hes. cbn [card_metadata]. split.
    + apply config_has_path_insert_eq. by apply extend_split_keeps.
    + intros _. apply config_has_path_insert_eq, extend_split_adds.
  - split; [by exists es | done].
Qed.

Lemma merge_specials_adds (fi : file_info) (specials : list string) (st : build_state)
    (special_task : string) :
  In special_task specials ->
  str.contains (re.sub_W special_task) (sanitized_task fi) = true ->
  config_has_path (card_metadata (fold_left (merge_special fi) specials st))
    (special_config_name special_task (task_name fi))
    (sanitized_eval_date fi) (repo_file_name fi)
  /\ (sanitized_eval_date fi = sanitized_last_eval_date_results fi ->
      config_has_path (card_metadata (fold_left (merge_special fi) specials st))
        (special_config_name special_task (task_name fi))
        "latest" (repo_file_name fi)).
Proof.
  intros Hin Hc. revert st. induction specials as [|sp l IH]; [destruct Hin|].
  intros st. cbn [fold_left]. destruct Hin as [->|Hin]; [|by apply IH].
  destruct (merge_special_adds fi st special_task Hc) as [Hd Hl]. split.
  - by apply merge_specials_keeps.
  - intros Heq. by apply merge_specials_keeps, Hl.
Qed.

Lemma add_file_adds_merged (multiple_results : bool) (last : list (string * string))
    (max_last : string) (st st' : build_state) (sub_file c : string) :
  is_results sub_file = false ->
  In c (special_config_names sub_file) ->
  add_file multiple_results last max_last st sub_file = Ok st' ->
  exists last_date,
    dict.get last (second_pass_task_name sub_file) = Some last_date
    /\ config_has_path (card_metadata st') c
         (detail_sanitized_eval_date sub_file) (detail_repo_file_name sub_file)
    /\ (detail_sanitized_eval_date sub_file = re.sub_not_w_dot last_date ->
        config_has_path (card_metadata st') c "latest" (detail_repo_file_name sub_file)).
Proof.
  unfold add_file, read_file_info, special_config_names. intros Hr Hc H. rewrite Hr in H.
  apply in_flat_map in Hc as (sp & Hsp & Hc).
  destruct (str.contains (re.sub_W sp) (detail_sanitized_task sub_file)) eqn:Hin;
    [|destruct Hc].
  destruct Hc as [<-|[]].
  destruct (dict.get last (second_pass_task_name sub_file)) as [last_date|];
    [|discriminate].
  exists last_date. split; [reflexivity|].
  cbn [mbind result_bind] in H.
  set (fi := mk_file_info _ _ _ _ _) in H.
  destruct (add_entry multiple_results fi st) as [st1|] eqn:E1; [|discriminate].
  cbn [mbind result_bind] in H.
  assert (st' = fold_left (merge_special fi) SPECIAL_TASKS (add_latest fi st1)) as ->
      by congruence.
  exact (merge_specials_adds fi SPECIAL_TASKS (add_latest fi st1) sp Hsp Hin).
Qed.

Lemma add_files_adds_merged (multiple_results : bool) (last : list (string * string))
    (max_last : string) (parquet_files : list string) (st st' : build_state)
    (sub_file c : string) :
  In sub_file parquet_files -> is_results sub_file = false ->
  In c (special_config_names sub_file) ->
  add_files multiple_results last max_last st parquet_files = Ok st' ->
  exists last_date,
    dict.get last (second_pass_task_name sub_file) = Some last_date
    /\ config_has_path (card_metadata st') c
         (detail_sanitized_eval_date sub_file) (detail_repo_file_name sub_file)
    /\ (detail_sanitized_eval_date sub_file = re.sub_not_w_dot last_date ->
        config_has_path (card_metadata st') c "latest" (detail_repo_file_name sub_file)).
Proof.
  intros Hin Hr Hc. revert st. induction parquet_files as [|g l IH]; [destruct Hin|].
  intros st. simpl.
  destruct (add_file _ _ _ st g) as [st1|] eqn:E; [|discriminate].
  cbn [mbind result_bind]. intros H.
  destruct Hin as [->|Hin]; [|by apply (IH Hin st1)].
  destruct (add_file_adds_merged _ _ _ _ _ _ _ Hr Hc E) as (last_date & Hl & Hd & Hlatest).
  exists last_date. split; [exact Hl|]. split.
  - by apply (add_files_keeps _ _ _ _ _ _ _ _ _ H).
  - intros Heq. by apply (add_files_keeps _ _ _ _ _ _ _ _ _ H), Hlatest.
Qed.

(** X17: a merged config lists every file of its family.  When the
    call completes, each merged config of a detail file of the listing
    (["lighteval_mmlu"] or ["original_mmlu"], with the shots of the
    task behind it) has a split named with the sanitized folder of the
    file that lists the pattern of the file; and its ["latest"] split
    lists it too when the folder bears the token of the largest date
    registered for the task. *)
Theorem X17_merged_config_lists_every_file (files_in_repo : list string)
    (sub_file config_name : string) :
  is_ok (recreate_metadata_card files_in_repo) = true ->
  In sub_file (parquet_files_of files_in_repo) ->
  is_results sub_file = false ->
  In config_name (special_config_names sub_file) ->
  exists (data_files : list data_file) (last_date : datetime.t),
    data_files_of (recreate_metadata_card files_in_repo) config_name = Some data_files
    /\ latest_date (eval_dates_of (second_pass_task_name sub_file)
                      (parquet_files_of files_in_repo)) = Some last_date
    /\ has_path data_files (detail_sanitized_eval_date sub_file)
         (detail_repo_file_name sub_file)
    /\ (os_path.dirname sub_file = date_id last_date ->
        has_path data_files "latest" (detail_repo_file_name sub_file)).
Proof.
  unfold recreate_metadata_card. intros Hok Hin Hr Hc.
  destruct (configs_of _ _) as [configs|] eqn:E; [clear Hok | discriminate Hok].
  apply configs_of_Ok in E as (last & max_last & st & Hl & _ & Hst & ->).
  destruct (add_files_adds_merged _ _ _ _ _ _ _ _ Hin Hr Hc Hst)
    as (iso & Hget & Hd & Hlatest).
  rewrite dict_get_iso_dates in Hget.
  destruct (dict.get last (second_pass_task_name sub_file)) as [last_date|] eqn:Hreg;
    [|discriminate Hget].
  injection Hget as <-.
  rewrite (last_eval_dates_get _ _ _ _ Hl) in Hreg.
  destruct Hd as (data_files & Hk & Hp).
  exists data_files, last_date. cbn [data_files_of].
  split; [exact Hk|]. split; [exact Hreg|]. split; [exact Hp|].
  intros Hdir. destruct Hlatest as (es & Hes & Hpl).
  - unfold detail_sanitized_eval_date. rewrite Hdir. apply sub_not_w_dot_date_id.
  - congruence.
Qed.

Lemma X17_merged_config_lists_every_file_witness :
  exists (data_files : list data_file) (last_date : datetime.t),
    data_files_of (recreate_metadata_card ["a.json"; us_history_file; world_religions_file])
      "lighteval_mmlu_5" = Some data_files
    /\ latest_date (eval_dates_of (second_pass_task_name world_religions_file)
                      (parquet_files_of ["a.json"; us_history_file; world_religions_file]))
       = Some last_date
    /\ has_path data_files (detail_sanitized_eval_date world_religions_file)
         (detail_repo_file_name world_religions_file)
    /\ (os_path.dirname world_religions_file = date_id last_date ->
        has_path data_files "latest" (detail_repo_file_name world_religions_file)).
Proof.
  apply (X17_merged_config_lists_every_file
           ["a.json"; us_history_file; world_religions_file] world_religions_file
           "lighteval_mmlu_5").
  - vm_compute. reflexivity.
  - vm_compute. right. left. reflexivity.
  - reflexivity.
  - vm_compute. left. reflexivity.
Defined.

(** ** The averages of the suites *)

Section bench_averages.

Context {V : Type}.

Implicit Types (bench_averages : list (string * list (string * list V))).

Lemma averaged_add_bench_value bench_averages (s m : string) (v : V) (s' m' : string) :
  averaged_values (add_bench_value bench_averages s m v) s' m'
  = if String.eqb s s' && String.eqb m m'
    then Some (values_so_far bench_averages s m ++ [v])
    else averaged_values bench_averages s' m'.
Proof.
  unfold add_bench_value, values_so_far, averaged_values.
  destruct (String.eqb_spec s s') as [<-|Hs]; cbn [andb].
  - rewrite dict_get_set_eq. cbn [mbind option_bind].
    destruct (dict.get bench_averages s) as [of_suite|] eqn:E.
    + rewrite E. cbn [default mbind option_bind].
      destruct (String.eqb_spec m m') as [<-|Hm].
      * by rewrite dict_get_set_eq.
      * by rewrite dict_get_set_ne.
    + rewrite dict_get_set_eq. simpl. destruct (String.eqb m m'); reflexivity.
  - rewrite dict_get_set_ne by done.
    destruct (dict.get bench_averages s); [reflexivity|].
    by rewrite dict_get_set_ne.
Qed.

Lemma add_bench_value_no_empty bench_averages (s m : string) (v : V) :
  no_empty_average bench_averages ->
  no_empty_average (add_bench_value bench_averages s m v).
Proof.
  intros H s' m'. rewrite averaged_add_bench_value.
  destruct (_ && _); [|apply H]. intros [= Heq]. by destruct (values_so_far _ _ _).
Qed.

Lemma values_add_bench_value bench_averages (s m : string) (v : V) (s' m' : string) :
  values_so_far (add_bench_value bench_averages s m v) s' m'
  = values_so_far bench_averages s' m'
    ++ (if String.eqb s s' && String.eqb m m' then [v] else []).
Proof.
  unfold values_so_far at 1. rewrite averaged_add_bench_value.
  destruct (String.eqb_spec s s') as [<-|Hs]; cbn [andb];
    [|by rewrite app_nil_r].
  destruct (String.eqb_spec m m') as [<-|Hm]; [reflexivity | by rewrite app_nil_r].
Qed.

Lemma add_bench_values_spec (s : string) (values : list (string * V)) bench_averages :
  no_empty_average bench_averages ->
  no_empty_average (add_bench_values s bench_averages values)
  /\ forall s' m',
       values_so_far (add_bench_values s bench_averages values) s' m'
       = values_so_far bench_averages s' m'
         ++ (if String.eqb s s'
             then flat_map (fun mv =>
                              if String.eqb (fst mv) m'
                                 && negb (str.contains "stderr" (fst mv))
                              then [snd mv] else [])
                    values
             else []).
Proof.
  unfold add_bench_values. revert bench_averages.
  induction values as [|[m v] values IH]; intros bench_averages Hne.
  - split; [exact Hne|]. intros s' m'. cbn [fold_left flat_map].
    destruct (String.eqb s s'); by rewrite app_nil_r.
  - cbn [fold_left flat_map fst snd].
    destruct (str.contains "stderr" m) eqn:Hst.
    + destruct (IH bench_averages Hne) as [H1 H2]. split; [exact H1|].
      intros s' m'. rewrite H2. by rewrite andb_false_r.
    + destruct (IH (add_bench_value bench_averages s m v)
                  (add_bench_value_no_empty _ _ _ _ Hne)) as [H1 H2].
      split; [exact H1|]. intros s' m'.
      rewrite H2, values_add_bench_value, andb_true_r, <- app_assoc. f_equal.
      destruct (String.eqb s s'); cbn [andb]; [|reflexivity].
      destruct (String.eqb m m'); reflexivity.
Qed.

Lemma bench_averages_fold (results : list (string * list (string * V))) bench_averages :
  no_empty_average bench_averages ->
  let after :=
    fold_left (fun acc nv =>
                 match bench_suite_of (fst nv) with
                 | Some bench_suite => add_bench_values bench_suite acc (snd nv)
                 | None => acc
                 end)
      results bench_averages in
  no_empty_average after
  /\ forall s' m',
       values_so_far after s' m'
       = values_so_far bench_averages s' m' ++ suite_values results s' m'.
Proof.
  revert bench_averages. induction results as [|[name values] results IH];
    intros bench_averages Hne; cbn zeta.
  - split; [exact Hne|]. intros s' m'. by rewrite app_nil_r.
  - cbn [fold_left fst snd]. unfold suite_values. cbn [flat_map fst snd].
    fold (suite_values results).
    destruct (bench_suite_of name) as [s|].
    + destruct (add_bench_values_spec s values bench_averages Hne) as [H1 H2].
      destruct (IH _ H1) as [H3 H4]. split; [exact H3|].
      intros s' m'. rewrite H4, H2, <- app_assoc. f_equal. f_equal.
      destruct (String.eqb_spec s s') as [->|Hs].
      * by rewrite bool_decide_eq_true_2.
      * rewrite bool_decide_eq_false_2; [reflexivity | congruence].
    + destruct (IH _ Hne) as [H3 H4]. split; [exact H3|].
      intros s' m'. rewrite H4. by rewrite bool_decide_eq_false_2.
Qed.

Lemma suite_values_stderr (results : list (string * list (string * V)))
    (bench_suite metric : string) :
  str.contains "stderr" metric = true -> suite_values results bench_suite metric = [].
Proof.
  intros Hst. unfold suite_values.
  induction results as [|[name values] results IH]; [reflexivity|].
  cbn [flat_map fst snd]. rewrite IH, app_nil_r.
  destruct (bool_decide _); [|reflexivity].
  induction values as [|[m v] values IHv]; [reflexivity|].
  cbn [flat_map fst snd]. rewrite IHv, app_nil_r.
  destruct (String.eqb_spec m metric) as [->|]; [|reflexivity]. by rewrite Hst.
Qed.

(** X18: what line 553 averages.  For a suite and a metric, the
    values averaged are those the metric has in the tasks of the suite
    - the entries of [results] whose task name, cut at its first
    colon, is the suite - in the order of [results]; there is no
    average when there is no such value, so the list divided by its
    length is never empty; and no metric with ["stderr"] in its name is
    averaged. *)
Theorem X18_bench_averages (results : list (string * list (string * V)))
    (bench_suite metric : string) :
  averaged_values (bench_averages_of results) bench_suite metric
  = match suite_values results bench_suite metric with
    | [] => None
    | values => Some values
    end
  /\ (str.contains "stderr" metric = true ->
      averaged_values (bench_averages_of results) bench_suite metric = None).
Proof.
  assert (Hne : no_empty_average ([] : list (string * list (string * list V))))
    by (intros s m; discriminate).
  destruct (bench_averages_fold results [] Hne) as [H1 H2]. cbn zeta in H1, H2.
  fold (bench_averages_of results) in H1, H2.
  assert (Heq : averaged_values (bench_averages_of results) bench_suite metric
                = match suite_values results bench_suite metric with
                  | [] => None
                  | values => Some values
                  end).
  { specialize (H2 bench_suite metric). specialize (H1 bench_suite metric).
    unfold values_so_far in H2. cbn [averaged_values dict.get mbind option_bind default app]
      in H2.
    destruct (averaged_values (bench_averages_of results) bench_suite metric) as [l|];
      cbn [default] in H2; rewrite <- H2; [|reflexivity].
    destruct l; [congruence | reflexivity]. }
  split; [exact Heq|]. intros Hst. rewrite Heq.
  by rewrite (suite_values_stderr results bench_suite metric Hst).
Qed.

End bench_averages.

Lemma X18_bench_averages_witness :
  averaged_values
    (bench_averages_of
       [("lighteval|mmlu:anatomy|5", [("acc", 1%nat); ("acc_stderr", 2%nat)]);
        ("lighteval|arc|25", [("acc", 3%nat)]);
        ("lighteval|mmlu:virology|5", [("acc", 4%nat); ("acc_stderr", 5%nat)])])
    "mmlu" "acc_stderr"
  = None.
Proof.
  apply (X18_bench_averages
           [("lighteval|mmlu:anatomy|5", [("acc", 1%nat); ("acc_stderr", 2%nat)]);
            ("lighteval|arc|25", [("acc", 3%nat)]);
            ("lighteval|mmlu:virology|5", [("acc", 4%nat); ("acc_stderr", 5%nat)])]
           "mmlu" "acc_stderr").
  reflexivity.
Defined.

(** ** The sanitized timestamp tells the run *)

Section sanitized_tokens.

Local Open Scope N_scope.

(** Putting hyphens back for the underscores restores a string made of
    kept characters and hyphens. *)
Lemma replace_underscore_sub (s : string) :
  (forall c, str.count c s <> 0%nat ->
     (re.is_word c || Ascii.eqb c ".") = true \/ c = "-"%char) ->
  str.count "_" s = 0%nat ->
  str.replace "_" "-" (re.sub_not_w_dot s) = s.
Proof.
  rewrite replace_char_sub_chars. unfold re.sub_not_w_dot.
  induction s as [|x s IH]; intros Hc Hu; [reflexivity|].
  cbn [re.sub_chars]. cbn [str.count] in Hu.
  destruct (Ascii.eqb_spec x "_") as [->|Hx]; [simpl in Hu; lia|].
  rewrite IH.
  - f_equal. destruct (Hc x) as [Hk| ->].
    + cbn [str.count]. rewrite Ascii.eqb_refl. simpl. lia.
    + rewrite Hk. apply Ascii.eqb_neq in Hx. by rewrite Hx.
    + reflexivity.
  - intros c Hcount. apply Hc. cbn [str.count]. lia.
  - simpl in Hu. exact Hu.
Qed.

Lemma digit_is_word (c : ascii) :
  datetime.digit_val c <> None -> re.is_word c = true.
Proof.
  unfold datetime.digit_val, re.is_word. cbv zeta.
  destruct (_ && _); [reflexivity | congruence].
Qed.

Lemma replace_underscore_date_id (now : datetime.t) :
  str.replace "_" "-" (re.sub_not_w_dot (datetime.isoformat now)) = date_id now.
Proof.
  rewrite <- sub_not_w_dot_date_id. fold (date_id now).
  apply replace_underscore_sub; [|by apply date_id_count].
  intros c Hc.
  destruct (datetime.digit_val c) eqn:Hd.
  - left. rewrite digit_is_word by congruence. reflexivity.
  - destruct (Ascii.eqb_spec c "-") as [->|H1]; [by right|].
    destruct (Ascii.eqb_spec c "T") as [->|H2]; [by left|].
    destruct (Ascii.eqb_spec c ".") as [->|H3]; [by left|].
    destruct Hc. by apply date_id_count.
Qed.

(** Two valid dates with the same sanitized ISO form are one date. *)
Lemma sub_isoformat_inj (a b : datetime.t) :
  datetime.valid a = true -> datetime.valid b = true ->
  re.sub_not_w_dot (datetime.isoformat a) = re.sub_not_w_dot (datetime.isoformat b) ->
  a = b.
Proof.
  intros Ha Hb H. apply (f_equal (str.replace "_" "-")) in H.
  rewrite !replace_underscore_date_id in H.
  pose proof (iso_date_of_dir_date_id a Ha) as Ea.
  pose proof (iso_date_of_dir_date_id b Hb) as Eb.
  rewrite H in Ea. congruence.
Qed.

End sanitized_tokens.

(** ** Split names in multiple-results mode *)

Lemma distinct_splits_entries_at (configs : card) (c : string) :
  distinct_splits configs -> List.NoDup (map split (entries_at configs c)).
Proof.
  intros H. unfold entries_at. destruct (configs !! c) as [es|] eqn:E; [|constructor].
  by apply (H c).
Qed.

Lemma NoDup_snoc {A} (l : list A) (x : A) :
  List.NoDup l -> ~ In x l -> List.NoDup (l ++ [x]).
Proof.
  intros Hl Hx. apply List.NoDup_app; [exact Hl | |].
  - constructor; [intros [] | constructor].
  - intros y Hy [->|[]]. by apply Hx.
Qed.

(** What lines 344-356 compute, by the names used here. *)
Lemma read_file_info_fields (last : list (string * string)) (max_last : string)
    (sub_file : string) (fi : file_info) :
  read_file_info last max_last sub_file = Ok fi ->
  sanitized_task fi = config_name_of sub_file
  /\ sanitized_eval_date fi = own_split sub_file
  /\ sanitized_last_eval_date_results fi = last_split_of last max_last sub_file
  /\ (is_results sub_file = false -> task_name fi = second_pass_task_name sub_file).
Proof.
  unfold read_file_info, config_name_of, own_split, last_split_of.
  destruct (is_results sub_file).
  - intros [= <-]. repeat split. discriminate.
  - destruct (dict.get last (second_pass_task_name sub_file)); [|discriminate].
    intros [= <-]. repeat split.
Qed.

Lemma add_entry_multiple_card (fi : file_info) (st st' : build_state) :
  add_entry true fi st = Ok st' ->
  card_metadata st'
  = <[sanitized_task fi :=
        entries_at (card_metadata st) (sanitized_task fi)
        ++ [mk_data_file (sanitized_eval_date fi) [repo_file_name fi]]]> (card_metadata st).
Proof.
  unfold add_entry, entries_at.
  destruct (card_metadata st !! sanitized_task fi); intros [= <-]; reflexivity.
Qed.

Lemma add_latest_card (fi : file_info) (st : build_state) :
  is_Some (card_metadata st !! sanitized_task fi) ->
  card_metadata (add_latest fi st)
  = if String.eqb (sanitized_eval_date fi) (sanitized_last_eval_date_results fi)
    then <[sanitized_task fi :=
             entries_at (card_metadata st) (sanitized_task fi)
             ++ [mk_data_file "latest" [repo_file_name fi]]]> (card_metadata st)
    else card_metadata st.
Proof.
  intros [es Hes]. unfold add_latest, entries_at. rewrite Hes.
  by destruct (String.eqb _ _).
Qed.

Lemma split_written_mono (last : list (string * string)) (max_last : string)
    (written : list string) (f c n : string) :
  split_written last max_last written c n ->
  split_written last max_last (written ++ [f]) c n.
Proof.
  intros [(g & Hg & H)|(g & Hg & H)]; [left | right]; exists g;
    (split; [apply in_or_app; by left | exact H]).
Qed.

(** One turn of the second pass in multiple-results mode, for a file
    that appends no split its config has already. *)
Lemma add_file_multiple_separate (last : list (string * string)) (max_last : string)
    (st st' : build_state) (written : list string) (sub_file : string) :
  add_file true last max_last st sub_file = Ok st' ->
  distinct_splits (card_metadata st) ->
  (forall c e, In e (entries_at (card_metadata st) c) ->
     split_written last max_last written c (split e)) ->
  (forall g, In g written -> config_name_of g = config_name_of sub_file ->
     own_split g <> own_split sub_file
     /\ last_split_of last max_last g = last_split_of last max_last sub_file) ->
  (forall g, In g written -> is_results g = false ->
     ~ In (config_name_of sub_file) (special_config_names g)) ->
  (forall g, In g (written ++ [sub_file]) -> own_split g <> "latest") ->
  distinct_splits (card_metadata st')
  /\ (forall c e, In e (entries_at (card_metadata st') c) ->
        split_written last max_last (written ++ [sub_file]) c (split e)).
Proof.
  intros H Hd Hw Hsame Hmerged Hlatest. unfold add_file in H.
  destruct (read_file_info last max_last sub_file) as [fi|] eqn:Hfi; [|discriminate].
  destruct (read_file_info_fields _ _ _ _ Hfi) as (Hc & Hs & Hl & Ht).
  cbn [mbind result_bind] in H.
  destruct (add_entry true fi st) as [st1|] eqn:E1; [|discriminate].
  cbn [mbind result_bind] in H.
  assert (Hf : In sub_file (written ++ [sub_file])) by (apply in_or_app; right; by left).
  (* the split of the file is new in its config *)
  assert (Hnew : ~ In (own_split sub_file)
                     (map split (entries_at (card_metadata st) (config_name_of sub_file)))).
  { intros Hin. apply in_map_iff in Hin as (e & He & Hin).
    destruct (Hw _ _ Hin) as [(g & Hg & Hr & Hsp)|(g & Hg & Hcg & [Hn|[Hn _]])].
    - by apply (Hmerged g Hg Hr).
    - apply (Hsame g Hg Hcg). congruence.
    - apply (Hlatest sub_file Hf). congruence. }
  (* and so is ["latest"], when the file is given it *)
  assert (Hnew' : own_split sub_file = last_split_of last max_last sub_file ->
                  ~ In "latest"
                      (map split (entries_at (card_metadata st) (config_name_of sub_file)
                                  ++ [mk_data_file (own_split sub_file) [repo_file_name fi]]))).
  { intros Heq Hin. rewrite map_app in Hin. apply in_app_or in Hin as [Hin|[Hin|[]]].
    - apply in_map_iff in Hin as (e & He & Hin).
      destruct (Hw _ _ Hin) as [(g & Hg & Hr & Hsp)|(g & Hg & Hcg & [Hn|[_ Hn]])].
      + by apply (Hmerged g Hg Hr).
      + apply (Hlatest g); [apply in_or_app; by left | congruence].
      + destruct (Hsame g Hg Hcg) as [Hne Hlg]. apply Hne. congruence.
    - cbn [split] in Hin. by apply (Hlatest sub_file Hf). }
  pose proof (add_entry_multiple_card _ _ _ E1) as Hcard1.
  rewrite Hc, Hs in Hcard1.
  assert (Hd1 : distinct_splits (card_metadata st1)).
  { rewrite Hcard1. apply distinct_splits_insert; [exact Hd|].
    rewrite map_app. apply NoDup_snoc; [by apply distinct_splits_entries_at | exact Hnew]. }
  assert (Hsome1 : is_Some (card_metadata st1 !! sanitized_task fi)).
  { rewrite Hcard1, Hc, lookup_insert_eq. by eexists. }
  pose proof (add_latest_card fi st1 Hsome1) as Hcard2.
  rewrite Hc, Hs, Hl in Hcard2.
  assert (Hd2 : distinct_splits (card_metadata (add_latest fi st1))).
  { rewrite Hcard2.
    destruct (String.eqb_spec (own_split sub_file) (last_split_of last max_last sub_file))
      as [Heq|Hne]; [|exact Hd1].
    apply distinct_splits_insert; [exact Hd1|].
    rewrite Hcard1, entries_at_insert_eq.
    rewrite map_app. apply NoDup_snoc.
    - rewrite map_app. apply NoDup_snoc; [by apply distinct_splits_entries_at | exact Hnew].
    - by apply Hnew'. }
  (* where the entries of a config come from, before the merges *)
  assert (Hw2 : forall c e, In e (entries_at (card_metadata (add_latest fi st1)) c) ->
                  split_written last max_last (written ++ [sub_file]) c (split e)).
  { intros c e. destruct (add_entry_at _ _ _ _ c E1) as [_ Hat].
    rewrite (add_latest_at fi st1 c Hsome1), Hat, Hc, Hs, Hl.
    intros Hin. apply in_app_or in Hin as [Hin|Hin];
      [apply in_app_or in Hin as [Hin|Hin]|].
    - by apply split_written_mono, Hw.
    - destruct (String.eqb_spec (config_name_of sub_file) c) as [<-|]; [|destruct Hin].
      destruct Hin as [<-|[]]. right. exists sub_file. split; [exact Hf|].
      split; [reflexivity | by left].
    - destruct (String.eqb_spec (config_name_of sub_file) c) as [<-|]; [|destruct Hin].
      cbn [andb] in Hin.
      destruct (String.eqb_spec (own_split sub_file) (last_split_of last max_last sub_file))
        as [Heq|]; [|destruct Hin].
      destruct Hin as [<-|[]]. right. exists sub_file. split; [exact Hf|].
      split; [reflexivity | by right]. }
  destruct (is_results sub_file) eqn:Hr.
  - injection H as <-. split; [exact Hd2 | exact Hw2].
  - assert (st' = fold_left (merge_special fi) SPECIAL_TASKS (add_latest fi st1)) as ->
        by congruence.
    split; [by apply merge_specials_distinct|].
    intros c e Hin.
    destruct (in_dec string_dec c (special_config_names sub_file)) as [Hsp|Hsp].
    + left. exists sub_file. split; [exact Hf|]. by split.
    + rewrite (merge_specials_at fi SPECIAL_TASKS) in Hin; [by apply Hw2|].
      rewrite Hc, (Ht eq_refl). unfold config_name_of. rewrite Hr.
      by apply not_special_config_names.
Qed.

Lemma NoDup_map_middle {A B} (k : A -> B) (w r : list A) (f g : A) :
  List.NoDup (map k (w ++ f :: r)) -> In g w -> k g <> k f.
Proof.
  rewrite map_app. cbn [map]. intros Hnd Hg Heq.
  apply List.NoDup_remove_2 in Hnd. apply Hnd, in_or_app. left.
  rewrite <- Heq. by apply in_map.
Qed.

Lemma last_split_of_task_key (last : list (string * string)) (max_last : string)
    (f g : string) :
  task_key f = task_key g ->
  last_split_of last max_last f = last_split_of last max_last g.
Proof.
  unfold task_key, last_split_of.
  destruct (is_results f), (is_results g); try discriminate; [reflexivity|].
  by intros [= ->].
Qed.

Lemma add_files_multiple_separate (last : list (string * string)) (max_last : string)
    (parquet_files : list string) (written : list string) (st st' : build_state) :
  add_files true last max_last st parquet_files = Ok st' ->
  distinct_splits (card_metadata st) ->
  (forall c e, In e (entries_at (card_metadata st) c) ->
     split_written last max_last written c (split e)) ->
  separate_splits (written ++ parquet_files) ->
  distinct_splits (card_metadata st').
Proof.
  revert written st. induction parquet_files as [|f l IH]; intros written st; simpl.
  - by intros [= ->].
  - destruct (add_file true last max_last st f) as [st1|] eqn:E; [|discriminate].
    cbn [mbind result_bind]. intros H Hd Hw Hsep.
    destruct Hsep as (Ha & Hb & Hc & Hl).
    assert (Hf : In f (written ++ f :: l)) by (apply in_or_app; right; by left).
    assert (Hin : forall g, In g written -> In g (written ++ f :: l))
      by (intros g Hg; apply in_or_app; by left).
    destruct (add_file_multiple_separate _ _ _ _ written _ E Hd Hw) as [Hd1 Hw1].
    + intros g Hg Hcg. split.
      * intros Heq. apply (NoDup_map_middle _ _ _ _ _ Ha Hg). by rewrite Hcg, Heq.
      * apply last_split_of_task_key, Hb; auto.
    + intros g Hg Hr. apply Hc; auto.
    + intros g Hg. apply Hl. apply in_app_or in Hg as [Hg|[<-|[]]]; auto.
    + apply (IH (written ++ [f]) st1 H Hd1 Hw1).
      rewrite <- app_assoc. cbn [app]. done.
Qed.

(** C6, amended: when the call completes, no config names a split
    twice - its dated names are pairwise distinct and at most one of its
    entries is named ["latest"] - in single-result mode (at most one
    [.json] file in the listing), and in any mode when no two parquet
    files append the same split to one config: the files of one config
    have different splits and are of one task, no config of a file is a
    merged config, and no split is named ["latest"]. *)
Theorem C6_distinct_splits (files_in_repo : list string)
    (config_name : string) (data_files : list data_file) :
  (length (results_files_of files_in_repo) <= 1)%nat
  \/ separate_splits (parquet_files_of files_in_repo) ->
  data_files_of (recreate_metadata_card files_in_repo) config_name = Some data_files ->
  List.NoDup (map split data_files).
Proof.
  intros Hm. unfold recreate_metadata_card.
  assert (Hempty : distinct_splits (card_metadata (mk_build_state ∅ false))).
  { intros k es. cbn [card_metadata]. by rewrite lookup_empty. }
  destruct (1 <? length (results_files_of files_in_repo))%nat eqn:Hmode.
  - destruct Hm as [Hm|Hsep]; [apply Nat.ltb_lt in Hmode; lia|].
    destruct (configs_of true _) as [configs|] eqn:E; [|discriminate].
    cbn [data_files_of]. intros Hk.
    apply configs_of_Ok in E as (last & max_last & st & _ & _ & Hst & ->).
    apply (add_files_multiple_separate _ _ _ [] _ _ Hst Hempty) in Hk;
      [exact Hk | | exact Hsep].
    intros c e. unfold entries_at. cbn [card_metadata]. rewrite lookup_empty.
    intros [].
  - destruct (configs_of false _) as [configs|] eqn:E; [|discriminate].
    cbn [data_files_of]. intros Hk.
    apply configs_of_Ok in E as (last & max_last & st & _ & _ & Hst & ->).
    by apply (add_files_single_distinct _ _ _ _ _ Hst) in Hk.
Qed.

Lemma C6_distinct_splits_witness :
  List.NoDup
    (map split
       [mk_data_file "2023_11_02T08_05_59.000120"
          ["**/details_harness|arc|25_2023-11-02T08-05-59.000120.parquet"];
        mk_data_file "2024_01_15T10_30_00"
          ["**/details_harness|arc|25_2024-01-15T10-30-00.parquet"];
        mk_data_file "latest"
          ["**/details_harness|arc|25_2024-01-15T10-30-00.parquet"]]).
Proof.
  apply (C6_distinct_splits two_runs "harness_arc_25").
  - right. repeat split.
    + vm_compute. repeat (constructor; [simpl; intuition discriminate|]). constructor.
    + intros f g Hf Hg. vm_compute in Hf, Hg.
      destruct Hf as [<-|[<-|[<-|[<-|[<-|[]]]]]];
        destruct Hg as [<-|[<-|[<-|[<-|[<-|[]]]]]];
        vm_compute; solve [reflexivity | discriminate].
    + intros f g Hf Hg. vm_compute in Hf, Hg.
      destruct Hf as [<-|[<-|[<-|[<-|[<-|[]]]]]];
        destruct Hg as [<-|[<-|[<-|[<-|[<-|[]]]]]];
        vm_compute; solve [discriminate | tauto].
    + intros f Hf. vm_compute in Hf.
      destruct Hf as [<-|[<-|[<-|[<-|[<-|[]]]]]]; vm_compute; discriminate.
  - vm_compute. reflexivity.
Defined.

(** ** The split names of a merged config *)

Lemma merge_special_NoDup_at (fi : file_info) (st : build_state)
    (special_task c : string) :
  List.NoDup (map split (entries_at (card_metadata st) c)) ->
  List.NoDup (map split (entries_at (card_metadata (merge_special fi st special_task)) c)).
Proof.
  intros Hnd.
  destruct (decide (special_config_name special_task (task_name fi) = c)) as [Hkey|Hne];
    [|by rewrite merge_special_at].
  unfold merge_special. destruct (str.contains _ _); [|exact Hnd].
  rewrite Hkey.
  match goal with
  | |- context [if _ then match card_metadata ?s !! c with _ => _ end else _] =>
      assert (H1 : exists es1, card_metadata s !! c = Some es1
                               /\ List.NoDup (map split es1));
      [|set (st1 := s) in *]
  end.
  { unfold entries_at in Hnd.
    destruct (card_metadata st !! c) as [fe|]; cbn [card_metadata default] in *;
      rewrite lookup_insert_eq; eexists; (split; [reflexivity|]).
    - by apply extend_split_NoDup.
    - constructor; [intros [] | constructor]. }
  clearbody st1. destruct H1 as (es1 & Hes1 & Hnd1).
  destruct (String.eqb _ _).
  - rewrite Hes1. cbn [card_metadata]. rewrite entries_at_insert_eq.
    by apply extend_split_NoDup.
  - unfold entries_at. by rewrite Hes1.
Qed.

Lemma merge_specials_NoDup_at (fi : file_info) (specials : list string)
    (st : build_state) (c : string) :
  List.NoDup (map split (entries_at (card_metadata st) c)) ->
  List.NoDup (map split (entries_at (card_metadata (fold_left (merge_special fi) specials st))
                           c)).
Proof.
  revert st. induction specials as [|sp l IH]; intros st Hnd; [exact Hnd|].
  simpl. by apply IH, merge_special_NoDup_at.
Qed.

(** A file leaves the split names of a config that is not its own
    distinct. *)
Lemma add_file_NoDup_at (multiple_results : bool) (last : list (string * string))
    (max_last : string) (st st' : build_state) (sub_file c : string) :
  add_file multiple_results last max_last st sub_file = Ok st' ->
  config_name_of sub_file <> c ->
  List.NoDup (map split (entries_at (card_metadata st) c)) ->
  List.NoDup (map split (entries_at (card_metadata st') c)).
Proof.
  unfold add_file. intros H Hne Hnd.
  destruct (read_file_info last max_last sub_file) as [fi|] eqn:Hfi; [|discriminate].
  destruct (read_file_info_fields _ _ _ _ Hfi) as (Hc & _).
  cbn [mbind result_bind] in H.
  destruct (add_entry multiple_results fi st) as [st1|] eqn:E1; [|discriminate].
  cbn [mbind result_bind] in H.
  destruct (add_entry_at _ _ _ _ c E1) as [Hsome Hat].
  assert (Hnd2 : List.NoDup (map split (entries_at (card_metadata (add_latest fi st1)) c))).
  { rewrite (add_latest_at fi st1 c Hsome), Hat, Hc.
    apply String.eqb_neq in Hne. rewrite Hne. cbn [andb]. by rewrite !app_nil_r. }
  destruct (is_results sub_file); [by injection H as <-|].
  assert (st' = fold_left (merge_special fi) SPECIAL_TASKS (add_latest fi st1)) as ->
      by congruence.
  by apply merge_specials_NoDup_at.
Qed.

Lemma add_files_NoDup_at (multiple_results : bool) (last : list (string * string))
    (max_last : string) (parquet_files : list string) (st st' : build_state) (c : string) :
  add_files multiple_results last max_last st parquet_files = Ok st' ->
  (forall f, In f parquet_files -> config_name_of f <> c) ->
  List.NoDup (map split (entries_at (card_metadata st) c)) ->
  List.NoDup (map split (entries_at (card_metadata st') c)).
Proof.
  revert st. induction parquet_files as [|f l IH]; intros st; simpl.
  - by intros [= ->].
  - destruct (add_file _ _ _ st f) as [st1|] eqn:E; [|discriminate].
    cbn [mbind result_bind]. intros H Hne Hnd.
    apply (IH _ H); [intros g Hg; apply Hne; by right|].
    apply (add_file_NoDup_at _ _ _ _ _ _ _ E); [apply Hne; by left | exact Hnd].
Qed.

Lemma filter_split_absent (data_files : list data_file) (name : string) :
  ~ In name (map split data_files) ->
  List.filter (fun x => String.eqb (split x) name) data_files = [].
Proof.
  induction data_files as [|y l IH]; intros Hn; [reflexivity|]. cbn [List.filter].
  destruct (String.eqb_spec (split y) name) as [Heq|Hne].
  - exfalso. apply Hn. left. exact Heq.
  - apply IH. intros Hin. apply Hn. by right.
Qed.

(** Where split names are distinct, a split is one entry. *)
Lemma filter_split_NoDup (data_files : list data_file) (e : data_file) :
  List.NoDup (map split data_files) -> In e data_files ->
  List.filter (fun x => String.eqb (split x) (split e)) data_files = [e].
Proof.
  induction data_files as [|x l IH]; intros Hnd Hin; [destruct Hin|].
  cbn [map] in Hnd. inversion_clear Hnd as [|? ? Hx Hl]. cbn [List.filter].
  destruct Hin as [->|Hin].
  - rewrite String.eqb_refl. f_equal. by apply filter_split_absent.
  - destruct (String.eqb_spec (split x) (split e)) as [Heq|Hne]; [|by apply IH].
    exfalso. apply Hx. rewrite Heq. by apply in_map.
Qed.

(** The configs of the details file of a task, for a run of 2023 or
    2024. *)
Lemma history_config_names (task_name : string) (now : datetime.t) :
  good_task_name task_name = true -> run_2023_2024 now = true ->
  config_name_of (details_repo_path task_name now) = re.sub_W task_name
  /\ special_config_names (details_repo_path task_name now)
     = tl (task_config_names task_name)
  /\ config_names_of (details_repo_path task_name now) = task_config_names task_name.
Proof.
  intros Hg Hn. destruct (history_file_reads _ _ Hg Hn) as (Hr & _ & H2 & _).
  assert (H1 : config_name_of (details_repo_path task_name now) = re.sub_W task_name).
  { unfold config_name_of, detail_sanitized_task. by rewrite Hr, H2. }
  assert (H3 : special_config_names (details_repo_path task_name now)
               = tl (task_config_names task_name)).
  { unfold special_config_names, detail_sanitized_task. by rewrite H2. }
  split; [exact H1|]. split; [exact H3|].
  unfold config_names_of. by rewrite H1, Hr, H3.
Qed.

(** ** C5: two subtasks of one family *)

(** C5, amended: for a run of 2023 or 2024, take the details files
    [save] writes for [lighteval|mmlu:us_history|5] and
    [lighteval|mmlu:world_religions|5].  When they are the parquet
    files of the listing, in either order and in either mode, the call
    completes.  And whenever the call completes on a listing that has
    the two files, and no parquet file of the listing has
    ["lighteval_mmlu_5"] as the config of its own task, that config has
    exactly one split named with the sanitized timestamp of the run,
    and the path list of the split has the patterns of both files. *)
Theorem C5_sibling_subtasks_share_a_split (files_in_repo : list string)
    (now : datetime.t) :
  run_2023_2024 now = true ->
  (Permutation [details_repo_path "lighteval|mmlu:us_history|5" now;
                details_repo_path "lighteval|mmlu:world_religions|5" now]
     (parquet_files_of files_in_repo) ->
   is_ok (recreate_metadata_card files_in_repo) = true)
  /\ (is_ok (recreate_metadata_card files_in_repo) = true ->
      In (details_repo_path "lighteval|mmlu:us_history|5" now) files_in_repo ->
      In (details_repo_path "lighteval|mmlu:world_religions|5" now) files_in_repo ->
      (forall f, In f (parquet_files_of files_in_repo) ->
         config_name_of f <> "lighteval_mmlu_5") ->
      exists (data_files : list data_file) (e : data_file),
        data_files_of (recreate_metadata_card files_in_repo) "lighteval_mmlu_5"
        = Some data_files
        /\ List.filter (fun x => String.eqb (split x)
                                   (re.sub_not_w_dot (datetime.isoformat now)))
             data_files = [e]
        /\ In ("**/" +:+ details_file_name "lighteval|mmlu:us_history|5" (date_id now))
             (path e)
        /\ In ("**/" +:+ details_file_name "lighteval|mmlu:world_religions|5" (date_id now))
             (path e)).
Proof.
  intros Hn.
  set (us := "lighteval|mmlu:us_history|5"). set (wr := "lighteval|mmlu:world_religions|5").
  assert (Hgu : good_task_name us = true) by reflexivity.
  assert (Hgw : good_task_name wr = true) by reflexivity.
  destruct (history_file_reads us now Hgu Hn) as (Hru & _ & H2u & _).
  destruct (history_file_reads wr now Hgw Hn) as (Hrw & _ & H2w & _).
  destruct (history_config_names us now Hgu Hn) as (Hcu & Hsu & Hnu).
  destruct (history_config_names wr now Hgw Hn) as (Hcw & Hsw & Hnw).
  split.
  - intros Hp. unfold recreate_metadata_card.
    assert (Hh : forall f, In f (parquet_files_of files_in_repo) -> from_history f).
    { intros f Hf. apply (Permutation_in _ (Permutation_sym Hp)) in Hf.
      destruct Hf as [<-|[<-|[]]]; right; [by exists us, now | by exists wr, now]. }
    assert (Hd : exists f, In f (parquet_files_of files_in_repo) /\ is_results f = false).
    { exists (details_repo_path us now). split; [|exact Hru].
      apply (Permutation_in _ Hp). by left. }
    destruct (1 <? length (results_files_of files_in_repo))%nat.
    + rewrite configs_of_multiple_is_ok. by apply history_completes_multiple.
    + rewrite configs_of_single_is_ok, (history_completes_multiple _ Hh Hd).
      apply Permutation_length_2_inv in Hp as [-> | ->];
        cbn [no_config_twice andb]; rewrite ?Hcu, ?Hcw, ?Hnu, ?Hnw; reflexivity.
  - unfold recreate_metadata_card. intros Hok Hu Hw Hown.
    assert (Hpu : In (details_repo_path us now) (parquet_files_of files_in_repo)).
    { apply filter_In. split; [exact Hu | apply details_repo_path_is_parquet]. }
    assert (Hpw : In (details_repo_path wr now) (parquet_files_of files_in_repo)).
    { apply filter_In. split; [exact Hw | apply details_repo_path_is_parquet]. }
    destruct (configs_of _ _) as [configs|] eqn:E; [clear Hok | discriminate Hok].
    apply configs_of_Ok in E as (last & max_last & st & _ & _ & Hst & ->).
    assert (Hmu : In "lighteval_mmlu_5" (special_config_names (details_repo_path us now)))
      by (rewrite Hsu; left; reflexivity).
    assert (Hmw : In "lighteval_mmlu_5" (special_config_names (details_repo_path wr now)))
      by (rewrite Hsw; left; reflexivity).
    destruct (add_files_adds_merged _ _ _ _ _ _ _ _ Hpu Hru Hmu Hst) as (_ & _ & Hdu & _).
    destruct (add_files_adds_merged _ _ _ _ _ _ _ _ Hpw Hrw Hmw Hst) as (_ & _ & Hdw & _).
    rewrite details_repo_path_sanitized_eval_date, details_repo_path_repo_file_name
      in Hdu, Hdw by reflexivity.
    destruct Hdu as (data_files & Hk & (e & He & Hse & Hpe)).
    destruct Hdw as (data_files' & Hk' & (e' & He' & Hse' & Hpe')).
    assert (data_files' = data_files) as -> by congruence.
    assert (Hnd : List.NoDup (map split data_files)).
    { pose proof (add_files_NoDup_at _ _ _ _ _ _ "lighteval_mmlu_5" Hst Hown) as H.
      unfold entries_at in H. cbn [card_metadata] in H.
      rewrite Hk, lookup_empty in H. apply H. constructor. }
    pose proof (filter_split_NoDup _ _ Hnd He) as Hfe.
    pose proof (filter_split_NoDup _ _ Hnd He') as Hfe'.
    rewrite Hse in Hfe. rewrite Hse' in Hfe'.
    assert (e' = e) as -> by congruence.
    exists data_files, e. cbn [data_files_of]. done.
Qed.

Lemma C5_sibling_subtasks_share_a_split_witness :
  exists (data_files : list data_file) (e : data_file),
    data_files_of
      (recreate_metadata_card
         ["results_2024-01-15T10-30-00.123456.json"; results_jan_file;
          "results_2024-02-15T10-30-00.123456.json"; results_feb_file;
          us_history_file; world_religions_file; feb_file])
      "lighteval_mmlu_5"
    = Some data_files
    /\ List.filter (fun x => String.eqb (split x) "2024_01_15T10_30_00.123456") data_files
       = [e]
    /\ In "**/details_lighteval|mmlu:us_history|5_2024-01-15T10-30-00.123456.parquet"
         (path e)
    /\ In "**/details_lighteval|mmlu:world_religions|5_2024-01-15T10-30-00.123456.parquet"
         (path e).
Proof.
  apply (C5_sibling_subtasks_share_a_split
           ["results_2024-01-15T10-30-00.123456.json"; results_jan_file;
            "results_2024-02-15T10-30-00.123456.json"; results_feb_file;
            us_history_file; world_religions_file; feb_file]
           (datetime.mk 2024 1 15 10 30 0 123456)).
  - reflexivity.
  - vm_compute. reflexivity.
  - vm_compute. do 4 right. left. reflexivity.
  - vm_compute. do 5 right. left. reflexivity.
  - intros f Hf. vm_compute in Hf.
    destruct Hf as [<-|[<-|[<-|[<-|[<-|[]]]]]]; vm_compute; discriminate.
Defined.

(** ** C4: two runs of one task *)

(** A sanitized name without an underscore is the name itself. *)
Lemma sub_chars_no_repl keep (r : ascii) (s s' : string) :
  re.sub_chars keep r s = s' -> str.count r s' = 0%nat -> s = s'.
Proof.
  revert s'. induction s as [|x s IH]; intros s' <-; [reflexivity|].
  cbn [re.sub_chars str.count]. intros Hc.
  destruct (keep x).
  - f_equal. apply IH; [reflexivity|]. destruct (Ascii.eqb x r); simpl in Hc; lia.
  - rewrite Ascii.eqb_refl in Hc. simpl in Hc. lia.
Qed.

Lemma good_task_name_not_results (task_name : string) :
  good_task_name task_name = true -> re.sub_W task_name <> "results".
Proof.
  intros Hg Heq. apply sub_chars_no_repl in Heq; [|reflexivity].
  subst task_name. discriminate Hg.
Qed.

Lemma flat_map_if_filter {A B} (p : A -> bool) (g : A -> list B) (l : list A) :
  flat_map (fun x => if p x then g x else []) l = flat_map g (List.filter p l).
Proof.
  induction l as [|x l IH]; [reflexivity|]. cbn [flat_map List.filter].
  destruct (p x); cbn [flat_map app]; by rewrite IH.
Qed.

Lemma flat_map_ext_in {A B} (g h : A -> list B) (l : list A) :
  (forall x, In x l -> g x = h x) -> flat_map g l = flat_map h l.
Proof.
  induction l as [|x l IH]; intros H; [reflexivity|]. cbn [flat_map].
  rewrite (H x) by (by left). f_equal. apply IH. intros y Hy. apply H. by right.
Qed.

Lemma details_repo_path_date_inj (task_name : string) (a b : datetime.t) :
  good_task_name task_name = true ->
  run_2023_2024 a = true -> run_2023_2024 b = true ->
  details_repo_path task_name a = details_repo_path task_name b -> a = b.
Proof.
  intros Hg Ha Hb Heq.
  destruct (history_file_reads _ _ Hg Ha) as (_ & _ & _ & Ea).
  destruct (history_file_reads _ _ Hg Hb) as (_ & _ & _ & Eb).
  rewrite Heq in Ea. congruence.
Qed.

(** C4, amended: take a task that has no merged config, and the
    details files [save] writes for it in two runs of 2023 or 2024, the
    second later than the first.  When the listing has at least two
    [.json] files (multiple-results mode) and the two files are its
    detail files, in either order and whatever results files it has
    besides, the call completes and the config of the task is made of
    the two dated splits and a ["latest"] split with the path list of
    the later run. *)
Theorem C4_two_runs_of_one_task (files_in_repo : list string) (task_name : string)
    (jan feb : datetime.t) :
  (1 < length (results_files_of files_in_repo))%nat ->
  good_task_name task_name = true ->
  task_config_names task_name = [re.sub_W task_name] ->
  run_2023_2024 jan = true -> run_2023_2024 feb = true ->
  datetime.ltb jan feb = true ->
  Permutation (List.filter (fun f => negb (is_results f)) (parquet_files_of files_in_repo))
    [details_repo_path task_name jan; details_repo_path task_name feb] ->
  exists data_files : list data_file,
    data_files_of (recreate_metadata_card files_in_repo) (re.sub_W task_name)
    = Some data_files
    /\ Permutation data_files
         [mk_data_file (re.sub_not_w_dot (datetime.isoformat jan))
            ["**/" +:+ details_file_name task_name (date_id jan)];
          mk_data_file (re.sub_not_w_dot (datetime.isoformat feb))
            ["**/" +:+ details_file_name task_name (date_id feb)];
          mk_data_file "latest"
            ["**/" +:+ details_file_name task_name (date_id feb)]].
Proof.
  intros Hm Hg Hnames Hj Hf Hlt Hp. unfold recreate_metadata_card.
  apply Nat.ltb_lt in Hm. rewrite Hm.
  set (pf := parquet_files_of files_in_repo) in *.
  pose proof (good_task_name_spec _ Hg) as (Ht & _).
  destruct (history_file_reads _ _ Hg Hj) as (Hrj & _ & H2j & _).
  destruct (history_file_reads _ _ Hg Hf) as (Hrf & _ & H2f & _).
  destruct (history_config_names _ _ Hg Hj) as (Hcj & Hsj & _).
  destruct (history_config_names _ _ Hg Hf) as (Hcf & Hsf & _).
  rewrite Hnames in Hsj, Hsf. cbn [tl] in Hsj, Hsf.
  (* the detail files of the listing *)
  assert (Hdet : forall f, In f pf -> is_results f = false ->
                 f = details_repo_path task_name jan
                 \/ f = details_repo_path task_name feb).
  { intros f Hin Hr.
    assert (Hfl : In f (List.filter (fun f => negb (is_results f)) pf))
      by (apply filter_In; by rewrite Hr).
    apply (Permutation_in _ Hp) in Hfl. destruct Hfl as [<-|[<-|[]]]; auto. }
  assert (Hinj : In (details_repo_path task_name jan) pf).
  { assert (H : In (details_repo_path task_name jan)
                  (List.filter (fun f => negb (is_results f)) pf))
      by (apply (Permutation_in _ (Permutation_sym Hp)); by left).
    by apply filter_In in H as [? _]. }
  assert (Hinf : In (details_repo_path task_name feb) pf).
  { assert (H : In (details_repo_path task_name feb)
                  (List.filter (fun f => negb (is_results f)) pf))
      by (apply (Permutation_in _ (Permutation_sym Hp)); right; by left).
    by apply filter_In in H as [? _]. }
  assert (Hh : forall f, In f pf -> from_history f).
  { intros f Hin. destruct (is_results f) eqn:Hr; [by left|]. right.
    destruct (Hdet f Hin Hr) as [-> | ->];
      [by exists task_name, jan | by exists task_name, feb]. }
  (* the call completes *)
  assert (Hok : is_ok (configs_of true pf) = true).
  { rewrite configs_of_multiple_is_ok. apply history_completes_multiple; [exact Hh|].
    by exists (details_repo_path task_name jan). }
  destruct (configs_of true pf) as [configs|] eqn:E; [clear Hok | discriminate Hok].
  apply configs_of_Ok in E as (last & max_last & st & Hl & _ & Hst & ->).
  (* the date registered for the task is that of the later run *)
  assert (Hne : jan <> feb).
  { intros ->. unfold datetime.ltb in Hlt. by rewrite N.ltb_irrefl in Hlt. }
  assert (Hlast : dict.get (iso_dates last) task_name = Some (datetime.isoformat feb)).
  { rewrite dict_get_iso_dates, (last_eval_dates_get _ _ _ _ Hl). cbn [dict.get].
    fold (latest_date (eval_dates_of task_name pf)).
    rewrite (history_latest_date pf task_name feb Hh Hg Hf Hinf); [reflexivity|].
    intros now' Hn' Hin'.
    destruct (history_file_reads _ _ Hg Hn') as (Hr' & _).
    destruct (Hdet _ Hin' Hr') as [Heq|Heq];
      apply (details_repo_path_date_inj _ _ _ Hg Hn') in Heq; try assumption; subst now'.
    - unfold datetime.ltb in *. apply N.ltb_lt in Hlt. apply N.ltb_ge. lia.
    - unfold datetime.ltb. apply N.ltb_irrefl. }
  (* the entries of its config *)
  assert (Hsp : ~ is_special_config pf (re.sub_W task_name)).
  { intros (f & Hin & Hr & Hc). destruct (Hdet f Hin Hr) as [-> | ->].
    - by rewrite Hsj in Hc.
    - by rewrite Hsf in Hc. }
  pose proof (add_files_at _ _ _ _ _ _ _ Hst (good_task_name_not_results _ Hg) Hsp) as Hat.
  unfold entries_at in Hat at 2. cbn [card_metadata] in Hat.
  rewrite lookup_empty in Hat. cbn [default app] in Hat.
  unfold task_config_entries in Hat.
  rewrite (flat_map_ext_in _
             (fun f => if negb (is_results f) then detail_entries (iso_dates last) f else []))
    in Hat.
  2: { intros f Hin. destruct (is_results f) eqn:Hr; [reflexivity|]. cbn [negb andb].
       assert (detail_sanitized_task f = re.sub_W task_name) as ->.
       { unfold detail_sanitized_task.
         destruct (Hdet f Hin Hr) as [-> | ->]; [by rewrite H2j | by rewrite H2f]. }
       by rewrite String.eqb_refl. }
  rewrite flat_map_if_filter in Hat.
  assert (Hej : detail_entries (iso_dates last) (details_repo_path task_name jan)
                = [mk_data_file (re.sub_not_w_dot (datetime.isoformat jan))
                     ["**/" +:+ details_file_name task_name (date_id jan)]]).
  { unfold detail_entries. rewrite H2j, Hlast.
    rewrite details_repo_path_sanitized_eval_date,
      details_repo_path_repo_file_name by exact Ht.
    destruct (String.eqb_spec (re.sub_not_w_dot (datetime.isoformat jan))
                (re.sub_not_w_dot (datetime.isoformat feb))) as [Heq|]; [|reflexivity].
    apply sub_isoformat_inj in Heq; [contradiction| |];
      [apply run_2023_2024_spec in Hj | apply run_2023_2024_spec in Hf]; tauto. }
  assert (Hef : detail_entries (iso_dates last) (details_repo_path task_name feb)
                = [mk_data_file (re.sub_not_w_dot (datetime.isoformat feb))
                     ["**/" +:+ details_file_name task_name (date_id feb)];
                   mk_data_file "latest"
                     ["**/" +:+ details_file_name task_name (date_id feb)]]).
  { unfold detail_entries. rewrite H2f, Hlast.
    rewrite details_repo_path_sanitized_eval_date,
      details_repo_path_repo_file_name by exact Ht.
    by rewrite String.eqb_refl. }
  assert (Hperm : Permutation (entries_at (card_metadata st) (re.sub_W task_name))
                    (detail_entries (iso_dates last) (details_repo_path task_name jan)
                     ++ detail_entries (iso_dates last) (details_repo_path task_name feb))).
  { rewrite Hat.
    rewrite (Permutation_flat_map (detail_entries (iso_dates last)) Hp).
    cbn [flat_map]. by rewrite app_nil_r. }
  rewrite Hej, Hef in Hperm. cbn [app] in Hperm.
  unfold entries_at in Hperm. cbn [data_files_of].
  destruct (card_metadata st !! re.sub_W task_name) as [data_files|].
  - exists data_files. split; [reflexivity | exact Hperm].
  - cbn [default] in Hperm. by apply Permutation_nil in Hperm.
Qed.

Lemma C4_two_runs_of_one_task_witness :
  exists data_files : list data_file,
    data_files_of
      (recreate_metadata_card
         ["results_2024-01-15T10-30-00.123456.json"; results_jan_file; jan_file;
          "results_2024-02-15T10-30-00.123456.json"; results_feb_file; feb_file])
      "mmlu_us_history"
    = Some data_files
    /\ Permutation data_files
         [jan_split; feb_split; mk_data_file "latest" (path feb_split)].
Proof.
  apply (C4_two_runs_of_one_task
           ["results_2024-01-15T10-30-00.123456.json"; results_jan_file; jan_file;
            "results_2024-02-15T10-30-00.123456.json"; results_feb_file; feb_file]
           "mmlu_us_history"
           (datetime.mk 2024 1 15 10 30 0 123456) (datetime.mk 2024 2 15 10 30 0 123456)).
  - vm_compute. lia.
  - reflexivity.
  - reflexivity.
  - reflexivity.
  - reflexivity.
  - reflexivity.
  - vm_compute. reflexivity.
Defined.
